(** * ms-365-mcp-server: conversion tools, task finder and client generator

    A shallow embedding of [src/conversion-tools.ts] (the Planner to To-Do
    field mapper, the [convert-planner-task-to-todo] tool and the
    [find-todo-task] tool) and of the text pass of [generateMcpTools]
    (the generator script), together with the properties the specification
    states about them.

    Conventions.
    - A JavaScript string is the list of its UTF-16 code units ([JS.str]).
    - The regular expressions of the source are written in a small abstract
      syntax ([JS.regex]) and run by a backtracking matcher in
      continuation-passing style, the way ECMAScript defines them.
    - Remote calls go through [graphRequest], a parameter; the tools are
      written in a state monad over the remote world that also records every
      request issued together with its outcome.
    - A payload read with [JSON.parse] is taken to have the type the source
      declares for it; the decoders are parameters as well.
    - Calls to the logger do not change what a tool returns and are left
      out. *)

From Stdlib Require Import String Ascii DecimalString.
From Stdlib Require Import ZArith NArith Lia Bool List Permutation Sorted.
Import ListNotations.

Set Implicit Arguments.
Set Warnings "-register-all".

(* ================================================================= *)
(** * Part I: the JavaScript built-ins the source relies on *)
(* ================================================================= *)

Module JS.

(** A string: UTF-16 code units. *)
Definition str := list N.

(** An ASCII literal of the source as a [str]. *)
Definition lit (s : string) : str := map N_of_ascii (list_ascii_of_string s).

Fixpoint str_eqb (a b : str) : bool :=
  match a, b with
  | [], [] => true
  | x :: a', y :: b' => (x =? y)%N && str_eqb a' b'
  | _, _ => false
  end.

(** [\w] is [[A-Za-z0-9_]]. *)
Definition is_word (c : N) : bool :=
  ((48 <=? c) && (c <=? 57) || (65 <=? c) && (c <=? 90) || (c =? 95)
   || (97 <=? c) && (c <=? 122))%N.

(** [\s], which is also what [trim] removes: WhiteSpace and LineTerminator. *)
Definition is_space (c : N) : bool :=
  (existsb (N.eqb c)
     [9; 10; 11; 12; 13; 32; 160; 5760; 8232; 8233; 8239; 8287; 12288; 65279]
   || (8192 <=? c) && (c <=? 8202))%N.

(** The fragment of regular expressions the source uses. *)
Inductive regex : Type :=
| Eps                                  (* empty pattern *)
| Cls (p : N -> bool)                  (* one code unit of a class *)
| Lit (l : str)                        (* a literal run of code units *)
| Seq (r1 r2 : regex)                  (* r1 r2 *)
| Opt (r : regex)                      (* r?  (greedy) *)
| Rep (greedy : bool) (p : N -> bool)  (* [p]*  or  [p]*? *)
| Ahead (r : regex).                   (* (?=r) *)

(** [r+] over a class. *)
Definition Plus (p : N -> bool) : regex := Seq (Cls p) (Rep true p).

Fixpoint lit_match (l s : str) : option str :=
  match l, s with
  | [], _ => Some s
  | a :: l', c :: t => if (a =? c)%N then lit_match l' t else None
  | _ :: _, [] => None
  end.

(** Greedy repetition: take as many as possible, give back one at a time. *)
Fixpoint rep_greedy (p : N -> bool) (k : str -> option str) (s : str)
  : option str :=
  match s with
  | c :: t =>
      if p c then
        match rep_greedy p k t with
        | Some r => Some r
        | None => k s
        end
      else k s
  | [] => k []
  end.

(** Lazy repetition: take as few as possible, extend one at a time. *)
Fixpoint rep_lazy (p : N -> bool) (k : str -> option str) (s : str)
  : option str :=
  match k s with
  | Some r => Some r
  | None =>
      match s with
      | c :: t => if p c then rep_lazy p k t else None
      | [] => None
      end
  end.

(** The matcher: [mt r k s] matches [r] at the head of [s] and hands the rest
    of the input to the continuation [k]; a failing continuation makes the
    matcher backtrack.  The result is the input left after the whole match. *)
Fixpoint mt (r : regex) (k : str -> option str) (s : str) : option str :=
  match r with
  | Eps => k s
  | Cls p =>
      match s with
      | c :: t => if p c then k t else None
      | [] => None
      end
  | Lit l =>
      match lit_match l s with
      | Some t => k t
      | None => None
      end
  | Seq r1 r2 => mt r1 (mt r2 k) s
  | Opt r' =>
      match mt r' k s with
      | Some x => Some x
      | None => k s
      end
  | Rep true p => rep_greedy p k s
  | Rep false p => rep_lazy p k s
  | Ahead r' =>
      match mt r' Some s with
      | Some _ => k s
      | None => None
      end
  end.

(** Length of the match of [r] at the head of [s], if any. *)
Definition match_at (r : regex) (s : str) : option nat :=
  match mt r Some s with
  | Some rest => Some (length s - length rest)
  | None => None
  end.

(** [RegExp.prototype.exec]: index and length of the leftmost match. *)
Fixpoint search (r : regex) (s : str) : option (nat * nat) :=
  match match_at r s with
  | Some n => Some (0, n)
  | None =>
      match s with
      | [] => None
      | _ :: t =>
          match search r t with
          | Some (i, n) => Some (S i, n)
          | None => None
          end
      end
  end.

(** [s.replace(r, f)] for a regex without the [g] flag: the leftmost match
    only; no match leaves [s] as it is. *)
Definition replace (r : regex) (f : str -> str) (s : str) : str :=
  match search r s with
  | Some (i, n) => firstn i s ++ f (firstn n (skipn i s)) ++ skipn (i + n) s
  | None => s
  end.

(** [s.replace(r, f)] for a regex with the [g] flag.  [skip] counts the code
    units of the current match still to be dropped.  After an empty match the
    scan moves on by one code unit. *)
Fixpoint replace_all_from (r : regex) (f : str -> str) (skip : nat) (s : str)
  : str :=
  match skip with
  | S n =>
      match s with
      | _ :: t => replace_all_from r f n t
      | [] => []
      end
  | O =>
      match match_at r s with
      | Some n =>
          f (firstn n s) ++
          match s with
          | c :: t =>
              match n with
              | O => c :: replace_all_from r f 0 t
              | S m => replace_all_from r f m t
              end
          | [] => []
          end
      | None =>
          match s with
          | c :: t => c :: replace_all_from r f 0 t
          | [] => []
          end
      end
  end.

Definition replace_all (r : regex) (f : str -> str) (s : str) : str :=
  replace_all_from r f 0 s.

(** [s.split(r)].  [acc] is the current piece, reversed; [skip] as above.  A
    match that ends where the current piece starts (an empty match at the
    start of a piece) does not split. *)
Fixpoint split_from (r : regex) (skip : nat) (acc : str) (s : str)
  : list str :=
  match skip with
  | S n =>
      match s with
      | _ :: t => split_from r n acc t
      | [] => [rev acc]
      end
  | O =>
      match s with
      | [] => [rev acc]
      | c :: t =>
          match match_at r s with
          | Some (S m) => rev acc :: split_from r m [] t
          | Some O =>
              match acc with
              | [] => split_from r 0 [c] t
              | _ :: _ => rev acc :: split_from r 0 [c] t
              end
          | None => split_from r 0 (c :: acc) t
          end
      end
  end.

Definition split (r : regex) (s : str) : list str :=
  match s with
  | [] => match match_at r [] with Some _ => [] | None => [[]] end
  | _ :: _ => split_from r 0 [] s
  end.

Fixpoint trim_start (s : str) : str :=
  match s with
  | c :: t => if is_space c then trim_start t else s
  | [] => []
  end.

Definition trim (s : str) : str := rev (trim_start (rev (trim_start s))).

(** [s.slice(0, n)]. *)
Definition slice0 (n : nat) (s : str) : str := firstn n s.

Fixpoint starts_with (p s : str) : bool :=
  match p, s with
  | [], _ => true
  | a :: p', c :: t => (a =? c)%N && starts_with p' t
  | _ :: _, [] => false
  end.

(** [s.includes(p)]. *)
Fixpoint includes (s p : str) : bool :=
  starts_with p s || match s with [] => false | _ :: t => includes t p end.

(** [x || d] where [x] is a string or [undefined]: the empty string is falsy. *)
Definition or_else (x : option str) (d : str) : str :=
  match x with
  | Some (c :: t) => c :: t
  | Some [] => d
  | None => d
  end.

(** [a.findIndex(p)], with [-1] for no index. *)
Fixpoint findIndex {A} (p : A -> bool) (l : list A) : Z :=
  match l with
  | [] => -1
  | x :: t => if p x then 0 else
      match findIndex p t with
      | Zneg _ => -1
      | i => i + 1
      end
  end%Z.

(** [Array.prototype.sort] with a comparator.  The sort is stable; for a
    consistent comparator the result is the stable sorted permutation, which
    is what this insertion sort computes: an element goes before the first
    element it does not compare above. *)
Section Sort.
Variable A : Type.
Variable cmp : A -> A -> Z.

Fixpoint insert (x : A) (l : list A) : list A :=
  match l with
  | [] => [x]
  | y :: t => if (cmp x y <=? 0)%Z then x :: y :: t else y :: insert x t
  end.

Fixpoint sort (l : list A) : list A :=
  match l with
  | [] => []
  | x :: t => insert x (sort t)
  end.
End Sort.

(** Decimal rendering of a non-negative integer, as in a template literal. *)
Definition of_nat (n : nat) : str := lit (NilZero.string_of_uint (Nat.to_uint n)).

(** [a.join(sep)]. *)
Fixpoint join (sep : str) (l : list str) : str :=
  match l with
  | [] => []
  | [x] => x
  | x :: t => x ++ sep ++ join sep t
  end.

End JS.

Import JS.

(* ================================================================= *)
(** * Part II: src/conversion-tools.ts *)
(* ================================================================= *)

(** ** Keyword extraction of find-todo-task (lines 338-343) *)

Module Keyword.

(** [/#\w+/g] *)
Definition re_hashtag : regex := Seq (Cls (N.eqb 35)) (Plus is_word).

(** [/[^\w\s]/g] *)
Definition re_special : regex := Cls (fun c => negb (is_word c || is_space c)).

(** [/\s+/] *)
Definition re_spaces : regex := Plus is_space.

(** [params.title.replace(/#\w+/g, '').replace(/[^\w\s]/g, ' ').trim()
      .split(/\s+/).find(word => word.length > 3) || params.title.slice(0, 20)] *)
Definition searchKeyword (title : str) : str :=
  or_else
    (find (fun word => 3 <? length word)
       (split re_spaces
          (trim
             (replace_all re_special (fun _ => lit " ")
                (replace_all re_hashtag (fun _ => lit "") title)))))
    (slice0 20 title).

End Keyword.


(** The same keyword, written from the words of the specification: strip
    hash-tag tokens, replace non-word characters with spaces, split on
    whitespace, take the first token longer than 3 characters, else the first
    20 characters of the raw title. *)
Module KeywordSpec.

(** A hash-tag token is a ['#'] followed by at least one word character,
    with all the word characters that follow it.  [in_tag] says that the
    scan is inside such a token. *)
Fixpoint strip_hashtags_from (in_tag : bool) (s : str) : str :=
  match s with
  | [] => []
  | c :: t =>
      if in_tag && is_word c then strip_hashtags_from true t
      else if (c =? 35)%N && match t with d :: _ => is_word d | [] => false end
           then strip_hashtags_from true t
           else c :: strip_hashtags_from false t
  end.

Definition strip_hashtags : str -> str := strip_hashtags_from false.

Definition blank_non_word : str -> str :=
  map (fun c => if is_word c then c else 32%N).

(** The tokens of a text: its maximal runs of non-whitespace characters. *)
Fixpoint tokens_from (acc : str) (s : str) : list str :=
  match s with
  | [] => match acc with [] => [] | _ :: _ => [rev acc] end
  | c :: t =>
      if is_space c then
        match acc with
        | [] => tokens_from [] t
        | _ :: _ => rev acc :: tokens_from [] t
        end
      else tokens_from (c :: acc) t
  end.

Definition tokens : str -> list str := tokens_from [].

Definition keyword (title : str) : str :=
  match find (fun w => 3 <? length w)
             (tokens (blank_non_word (strip_hashtags title))) with
  | Some w => w
  | None => firstn 20 title
  end.

End KeywordSpec.

(** ** Data model (lines 6-42) *)

(** A JSON value; an object lists its own properties in insertion order. *)
Inductive Json : Type :=
| JNull
| JBool (b : bool)
| JNum (n : Z)
| JStr (s : str)
| JArr (l : list Json)
| JObj (fields : list (str * Json)).

(** [Record<string, unknown>]. *)
Definition Obj := list (str * Json).

(** [o[k]]; [None] is [undefined]. *)
Fixpoint get (o : Obj) (k : str) : option Json :=
  match o with
  | [] => None
  | (k', v) :: t => if str_eqb k' k then Some v else get t k
  end.

(** [o[k] = v]: an existing property keeps its place, a new one goes last. *)
Fixpoint set (o : Obj) (k : str) (v : Json) : Obj :=
  match o with
  | [] => [(k, v)]
  | (k', v') :: t => if str_eqb k' k then (k', v) :: t else (k', v') :: set t k v
  end.

Module PlannerTask.
Record t := {
  id : str;
  title : str;
  planId : str;
  bucketId : option str;
  priority : Z;
  percentComplete : Z;
  dueDateTime : option str;
  createdDateTime : str
}.
End PlannerTask.

Module ChecklistItem.
Record t := { title : str; isChecked : bool; orderHint : option str }.
End ChecklistItem.

Module PlannerTaskDetails.
(** [checklist] lists the entries of the record in the order
    [Object.values] yields them. *)
Record t := {
  description : option str;
  checklist : option (list (str * ChecklistItem.t))
}.
End PlannerTaskDetails.

Module ChecklistItemResult.
Record t := { displayName : str; isChecked : bool; success : bool }.
End ChecklistItemResult.

Module TodoTask.
Record t := { id : str; title : str; importance : str; status : str }.
End TodoTask.

Module TodoTaskList.
Record t := { id : str; displayName : str; wellknownListName : str }.
End TodoTaskList.

(** ** Field mapper (lines 47-96) *)

(** [buildTaskBody] *)
Definition buildTaskBody (task : PlannerTask.t)
  (details : option PlannerTaskDetails.t) : str :=
  let lines :=
    match details with
    | Some d =>
        match PlannerTaskDetails.description d with
        | Some (c :: desc) => [c :: desc; lit ""]
        | _ => []
        end
    | None => []
    end in
  let lines := lines ++ [lit "--- Converted from Planner ---"] in
  let lines := lines ++ [lit "Plan ID: " ++ PlannerTask.planId task] in
  let lines := lines ++ [lit "Original Task ID: " ++ PlannerTask.id task] in
  let lines := lines ++ [lit "Created: " ++ PlannerTask.createdDateTime task] in
  join [10%N] lines.

Definition importanceMap : list (Z * str) :=
  [(1, lit "high"); (5, lit "normal"); (9, lit "low")]%Z.

Fixpoint lookupZ (m : list (Z * str)) (k : Z) : option str :=
  match m with
  | [] => None
  | (k', v) :: t => if (k' =? k)%Z then Some v else lookupZ t k
  end.

(** [mapPlannerToTodo] *)
Definition mapPlannerToTodo (task : PlannerTask.t)
  (details : option PlannerTaskDetails.t) (addPrefix : bool) : Obj :=
  let title :=
    if addPrefix then lit "[Planner] " ++ PlannerTask.title task
    else PlannerTask.title task in
  let todoTask : Obj :=
    [ (lit "title", JStr title);
      (lit "body",
        JObj [ (lit "content", JStr (buildTaskBody task details));
               (lit "contentType", JStr (lit "text")) ]);
      (lit "importance",
        JStr (or_else (lookupZ importanceMap (PlannerTask.priority task))
                      (lit "normal")));
      (lit "status",
        JStr (if (PlannerTask.percentComplete task =? 100)%Z
              then lit "completed" else lit "notStarted")) ] in
  match PlannerTask.dueDateTime task with
  | Some (c :: d) =>
      set todoTask (lit "dueDateTime")
        (JObj [ (lit "dateTime", JStr (c :: d));
                (lit "timeZone", JStr (lit "UTC")) ])
  | _ => todoTask
  end.

(** ** The graph client and the host (lines 1-4) *)

Inductive Method : Type := POST | PATCH.

(** [graphClient.graphRequest(endpoint, options)].  A request body is kept
    as the value handed to [JSON.stringify]. *)
Record Request := {
  endpoint : str;
  method : option Method;
  body : option Json;
  headers : list (str * str);
  includeHeaders : bool
}.

Inductive ContentItem : Type :=
| TextContent (text : str)      (* [{ type: 'text', text }] *)
| OtherContent.                  (* an item of any other type *)

(** The outcome of one request: the promise rejects or resolves. *)
Inductive Response : Type :=
| Threw (message : str)
| Returned (content : list ContentItem).

Inductive Exn : Type :=
| GraphError (message : str)     (* thrown by [graphRequest] *)
| SyntaxError                    (* thrown by [JSON.parse] *)
| TypeError                      (* a property read on [undefined] *)
| URIError                       (* thrown by [encodeURIComponent] *)
| Error (message : str).         (* [throw new Error(message)] *)

(** What [JSON.parse] yields for the payloads the tools read; each is taken
    to have the shape the source declares for it. *)
Module ListsData.
Record t := { value : option (list TodoTaskList.t) }.
End ListsData.

Module TaskData.
Record t := { _etag : option str }.
End TaskData.

Module TasksData.
(** [value] is [None] unless [data.value] is an array; the elements of the
    array are whatever the payload holds. *)
Record t := { value : option (list Json) }.
End TasksData.

(** The host: the remote service behind the graph client, the decoders that
    stand for [JSON.parse] at each declared type ([None]: it throws), and the
    locale-dependent built-ins. *)
Class Host : Type := {
  World : Type;
  graphRequest : Request -> World -> Response * World;
  parsePlannerTask : str -> option PlannerTask.t;
  parseDetails : str -> option (option PlannerTaskDetails.t);
  parseLists : str -> option ListsData.t;
  parseTodoTask : str -> option TodoTask.t;
  parseTaskData : str -> option TaskData.t;
  parseTasksData : str -> option TasksData.t;
  localeCompare : str -> str -> Z;
  encodeURIComponent : str -> option str
}.

(** Parameters and results of convert-planner-task-to-todo. *)

Module ConvertParams.
Record t := {
  plannerTaskId : str;
  todoTaskListId : option str;
  markPlannerComplete : bool;
  addPlannerPrefix : bool
}.
End ConvertParams.

Module TodoSummary.
Record t := { id : str; title : str; listId : str; checklistItems : str }.
End TodoSummary.

Module PlannerSummary.
Record t := { id : str; title : str; status : str }.
End PlannerSummary.

Module ConversionResult.
Record t := {
  success : bool;
  message : str;
  todoTask : TodoSummary.t;
  plannerTask : PlannerSummary.t
}.
End ConversionResult.

(** The response of the tool: the result object, or the error object of the
    outer [catch] ([success: false], [isError: true]). *)
Inductive ConvertResponse : Type :=
| Converted (result : ConversionResult.t)
| ConversionFailed (error : Exn).

(** What steps 1 to 4 leave in scope for steps 5 and 6. *)
Module Created.
Record t := {
  plannerTask : PlannerTask.t;
  taskDetails : option PlannerTaskDetails.t;
  listId : str;
  createdTodoTask : TodoTask.t
}.
End Created.

(** Parameters and results of find-todo-task. *)

Module FindParams.
Record t := {
  title : str;
  todoTaskListId : option str;
  includeCompleted : bool
}.
End FindParams.

Module FoundTask.
(** [task] is an element of a result set, as it came. *)
Record t := { task : Json; listId : str }.
End FoundTask.

(** The three result objects of the tool and the error object of its outer
    [catch]. *)
Inductive FindResponse : Type :=
| ExactMatch (task : Json) (listId : str)
| PartialMatches (message : str) (matches : list Obj)
| NoMatches (message : str) (searchKeyword : str)
| FindFailed (error : Exn).

Section Tools.
Context {host : Host}.

(** *** The monad of a tool run: remote world, trace of requests, exceptions *)

Record State := { world : World; trace : list (Request * Response) }.

Definition M (A : Type) : Type := State -> (Exn + A) * State.

Definition ret {A} (a : A) : M A := fun st => (inr a, st).

Definition throw {A} (e : Exn) : M A := fun st => (inl e, st).

Definition bind {A B} (m : M A) (f : A -> M B) : M B :=
  fun st =>
    match m st with
    | (inr a, st') => f a st'
    | (inl e, st') => (inl e, st')
    end.

(** [try { m } catch (error) { h error }] *)
Definition try_catch {A} (m : M A) (h : Exn -> M A) : M A :=
  fun st =>
    match m st with
    | (inr a, st') => (inr a, st')
    | (inl e, st') => h e st'
    end.

(** [await graphClient.graphRequest(...)]: the request and its outcome are
    appended to the trace. *)
Definition call (req : Request) : M (list ContentItem) :=
  fun st =>
    let (resp, w) := graphRequest req (world st) in
    let st' := {| world := w; trace := trace st ++ [(req, resp)] |} in
    match resp with
    | Threw m => (inl (GraphError m), st')
    | Returned c => (inr c, st')
    end.

Notation "x <- m ;; k" := (bind m (fun x => k))
  (at level 61, m at next level, right associativity).

(** [r.content[0].type === 'text' ? r.content[0].text : '']; reading
    [content[0].type] throws when there is no first item. *)
Definition contentText (content : list ContentItem) : option str :=
  match content with
  | TextContent text :: _ => Some text
  | OtherContent :: _ => Some (lit "")
  | [] => None
  end.

Definition responseText (content : list ContentItem) : M str :=
  match contentText content with
  | Some text => ret text
  | None => throw TypeError
  end.

(** [JSON.parse(text)] at a declared type. *)
Definition parse {A} (decode : str -> option A) (text : str) : M A :=
  match decode text with
  | Some a => ret a
  | None => throw SyntaxError
  end.

Definition GET (url : str) : Request :=
  {| endpoint := url; method := None; body := None; headers := [];
     includeHeaders := false |}.

(** ** convert-planner-task-to-todo (lines 119-287) *)

Definition fetchJson {A} (req : Request) (decode : str -> option A) : M A :=
  response <- call req ;;
  text <- responseText response ;;
  parse decode text.

(** Steps 1 to 4 (lines 123-174). *)
Definition createTodoTask (params : ConvertParams.t) : M Created.t :=
  let taskUrl := lit "/planner/tasks/" ++ ConvertParams.plannerTaskId params in
  plannerTask <- fetchJson (GET taskUrl) parsePlannerTask ;;
  taskDetails <-
    try_catch (fetchJson (GET (taskUrl ++ lit "/details")) parseDetails)
              (fun _ => ret None) ;;
  listId <-
    match ConvertParams.todoTaskListId params with
    | Some (c :: l) => ret (c :: l)
    | _ =>
        listsData <- fetchJson (GET (lit "/me/todo/lists")) parseLists ;;
        match ListsData.value listsData with
        | Some lists =>
            match find (fun l => str_eqb (TodoTaskList.wellknownListName l)
                                         (lit "defaultList")) lists with
            | Some tasksList => ret (TodoTaskList.id tasksList)
            | None => throw (Error (lit "Could not find default Tasks list"))
            end
        | None => throw (Error (lit "Could not find default Tasks list"))
        end
    end ;;
  let todoBody :=
    mapPlannerToTodo plannerTask taskDetails
      (ConvertParams.addPlannerPrefix params) in
  createdTodoTask <-
    fetchJson
      {| endpoint := lit "/me/todo/lists/" ++ listId ++ lit "/tasks";
         method := Some POST; body := Some (JObj todoBody); headers := [];
         includeHeaders := false |}
      parseTodoTask ;;
  ret {| Created.plannerTask := plannerTask;
         Created.taskDetails := taskDetails;
         Created.listId := listId;
         Created.createdTodoTask := createdTodoTask |}.

Definition hint (item : ChecklistItem.t) : str :=
  or_else (ChecklistItem.orderHint item) (lit "").

(** [Object.values(taskDetails.checklist).sort(...)] (lines 180-184). *)
Definition sortedItems (checklist : list (str * ChecklistItem.t))
  : list ChecklistItem.t :=
  sort (fun a b => localeCompare (hint a) (hint b)) (map snd checklist).

Definition checklistRequest (listId todoId : str) (item : ChecklistItem.t)
  : Request :=
  {| endpoint := lit "/me/todo/lists/" ++ listId ++ lit "/tasks/" ++ todoId
                 ++ lit "/checklistItems";
     method := Some POST;
     body := Some (JObj [ (lit "displayName", JStr (ChecklistItem.title item));
                          (lit "isChecked", JBool (ChecklistItem.isChecked item)) ]);
     headers := [];
     includeHeaders := false |}.

(** The loop of lines 186-211. *)
Fixpoint createChecklistItems (listId todoId : str)
  (items : list ChecklistItem.t) (checklistResults : list ChecklistItemResult.t)
  : M (list ChecklistItemResult.t) :=
  match items with
  | [] => ret checklistResults
  | item :: rest =>
      ok <- try_catch (_ <- call (checklistRequest listId todoId item) ;; ret true)
                      (fun _ => ret false) ;;
      createChecklistItems listId todoId rest
        (checklistResults ++
           [ {| ChecklistItemResult.displayName := ChecklistItem.title item;
                ChecklistItemResult.isChecked := ChecklistItem.isChecked item;
                ChecklistItemResult.success := ok |} ])
  end.

(** Step 5 (lines 177-215). *)
Definition createChecklist (c : Created.t) : M (list ChecklistItemResult.t) :=
  match Created.taskDetails c with
  | Some d =>
      match PlannerTaskDetails.checklist d with
      | Some checklist =>
          createChecklistItems (Created.listId c)
            (TodoTask.id (Created.createdTodoTask c)) (sortedItems checklist) []
      | None => ret []
      end
  | None => ret []
  end.

Definition refetchRequest (plannerTaskId : str) : Request :=
  {| endpoint := lit "/planner/tasks/" ++ plannerTaskId; method := None;
     body := None; headers := []; includeHeaders := true |}.

Definition completeRequest (plannerTaskId etag : str) : Request :=
  {| endpoint := lit "/planner/tasks/" ++ plannerTaskId;
     method := Some PATCH;
     body := Some (JObj [ (lit "percentComplete", JNum 100) ]);
     headers := [ (lit "If-Match", etag) ];
     includeHeaders := false |}.

(** Step 6 (lines 218-243). *)
Definition markPlanner (params : ConvertParams.t) : M str :=
  if ConvertParams.markPlannerComplete params then
    try_catch
      (taskData <- fetchJson (refetchRequest (ConvertParams.plannerTaskId params))
                             parseTaskData ;;
       let etag := or_else (TaskData._etag taskData) (lit "*") in
       _ <- call (completeRequest (ConvertParams.plannerTaskId params) etag) ;;
       ret (lit "completed"))
      (fun _ => ret (lit "failed_to_complete"))
  else ret (lit "unchanged").

(** Lines 245-262. *)
Definition conversionResult (c : Created.t)
  (checklistResults : list ChecklistItemResult.t) (plannerStatus : str)
  : ConversionResult.t :=
  let checklistCreated :=
    length (filter ChecklistItemResult.success checklistResults) in
  let checklistTotal := length checklistResults in
  {| ConversionResult.success := true;
     ConversionResult.message := lit "Converted Planner task to To-Do task";
     ConversionResult.todoTask :=
       {| TodoSummary.id := TodoTask.id (Created.createdTodoTask c);
          TodoSummary.title := TodoTask.title (Created.createdTodoTask c);
          TodoSummary.listId := Created.listId c;
          TodoSummary.checklistItems :=
            if 0 <? checklistTotal
            then of_nat checklistCreated ++ lit "/" ++ of_nat checklistTotal
                 ++ lit " created"
            else lit "none" |};
     ConversionResult.plannerTask :=
       {| PlannerSummary.id := PlannerTask.id (Created.plannerTask c);
          PlannerSummary.title := PlannerTask.title (Created.plannerTask c);
          PlannerSummary.status := plannerStatus |} |}.

(** Steps 5 and 6 and the result (lines 176-262). *)
Definition finishConversion (params : ConvertParams.t) (c : Created.t)
  : M ConversionResult.t :=
  checklistResults <- createChecklist c ;;
  plannerStatus <- markPlanner params ;;
  ret (conversionResult c checklistResults plannerStatus).

(** The tool (lines 119-287). *)
Definition convertPlannerTaskToTodo (params : ConvertParams.t)
  : M ConvertResponse :=
  try_catch
    (c <- createTodoTask params ;;
     result <- finishConversion params c ;;
     ret (Converted result))
    (fun error => ret (ConversionFailed error)).

(** ** find-todo-task (lines 308-459) *)

Definition priorityOrder : list str :=
  [lit "ROI"; lit "Goal Phase"; lit "Ad-Hoc"; lit "Tasks"].

Definition score (l : TodoTaskList.t) : Z :=
  let index :=
    findIndex (fun p => includes (TodoTaskList.displayName l) p) priorityOrder in
  if (index =? -1)%Z then 999%Z else index.

(** Lines 313-335. *)
Definition listsToSearch (params : FindParams.t) : M (list str) :=
  match FindParams.todoTaskListId params with
  | Some (c :: l) => ret [c :: l]
  | _ =>
      listsData <- fetchJson (GET (lit "/me/todo/lists")) parseLists ;;
      match ListsData.value listsData with
      | Some lists =>
          ret (map TodoTaskList.id
                 (sort (fun a b => (score a - score b)%Z) lists))
      | None => throw TypeError
      end
  end.

(** Lines 345-346. *)
Definition filterOf (params : FindParams.t) : str :=
  let statusFilter :=
    if FindParams.includeCompleted params then lit ""
    else lit "status ne 'completed' and " in
  statusFilter ++ lit "contains(title, '"
    ++ replace_all (Cls (N.eqb 39)) (fun _ => lit "''")
         (Keyword.searchKeyword (FindParams.title params))
    ++ lit "')".

(** [v[k]] for the property names the tool reads on a task ([title], [id],
    [status], [importance], [dueDateTime]).  Reading a property of [null]
    throws; an object has the property or not; a number, a boolean, a string
    or an array has none of these. *)
Definition prop (v : Json) (k : str) : Exn + option Json :=
  match v with
  | JNull => inl TypeError
  | JObj fields => inr (get fields k)
  | _ => inr None
  end.

(** [task.title === params.title] *)
Definition titleIs (task : Json) (title : str) : Exn + bool :=
  match prop task (lit "title") with
  | inl e => inl e
  | inr (Some (JStr s)) => inr (str_eqb s title)
  | inr _ => inr false
  end.

(** The inner loop (lines 367-376): every element is pushed before its title
    is read; the first one with the exact title ends the scan, and so does an
    element whose title cannot be read.  [allMatches] is an array: what was
    pushed stays pushed when the loop is left by an exception, so the
    exception is returned beside the array. *)
Fixpoint scanTasks (title listId : str) (tasks : list Json)
  (allMatches : list FoundTask.t)
  : list FoundTask.t * (Exn + option FoundTask.t) :=
  match tasks with
  | [] => (allMatches, inr None)
  | task :: rest =>
      let foundTask := {| FoundTask.task := task; FoundTask.listId := listId |} in
      let allMatches := allMatches ++ [foundTask] in
      match titleIs task title with
      | inl e => (allMatches, inl e)
      | inr true => (allMatches, inr (Some foundTask))
      | inr false => scanTasks title listId rest allMatches
      end
  end.

(** The query of one list, the body of the [try] (lines 360-379).  An
    exception thrown before the inner loop finds [allMatches] as it was. *)
Definition searchList (params : FindParams.t) (listId : str)
  (allMatches : list FoundTask.t)
  : M (list FoundTask.t * (Exn + option FoundTask.t)) :=
  match encodeURIComponent (filterOf params) with
  | None => throw URIError
  | Some encoded =>
      data <- fetchJson
                (GET (lit "/me/todo/lists/" ++ listId
                        ++ lit "/tasks?$filter=" ++ encoded))
                parseTasksData ;;
      match TasksData.value data with
      | Some tasks =>
          ret (scanTasks (FindParams.title params) listId tasks allMatches)
      | None => ret (allMatches, inr None)
      end
  end.

(** The outer loop (lines 358-384): an exact match ends it; a caught
    exception, like a list without an exact match, leads to the next list. *)
Fixpoint searchLists (params : FindParams.t) (lists : list str)
  (allMatches : list FoundTask.t)
  : M (list FoundTask.t * option FoundTask.t) :=
  match lists with
  | [] => ret (allMatches, None)
  | listId :: rest =>
      r <- try_catch (searchList params listId allMatches)
                     (fun error => ret (allMatches, inl error)) ;;
      match r with
      | (allMatches, inr (Some exactMatch)) => ret (allMatches, Some exactMatch)
      | (allMatches, _) => searchLists params rest allMatches
      end
  end.

Definition lightweightFields : list str :=
  [lit "id"; lit "title"; lit "status"; lit "importance"; lit "dueDateTime"].

(** The projection of one partial match (lines 405-413); it throws when a
    field is read on [null]. *)
Definition lightweight (m : FoundTask.t) : Exn + Obj :=
  fold_left
    (fun light field =>
       match light with
       | inl e => inl e
       | inr l =>
           match prop (FoundTask.task m) field with
           | inl e => inl e
           | inr (Some v) => inr (set l field v)
           | inr None => inr l
           end
       end)
    lightweightFields
    (inr [(lit "listId", JStr (FoundTask.listId m))]).

(** [allMatches.map(m => ...)]: the first projection that throws ends it. *)
Fixpoint lightweightMatches (allMatches : list FoundTask.t)
  : Exn + list Obj :=
  match allMatches with
  | [] => inr []
  | m :: rest =>
      match lightweight m with
      | inl e => inl e
      | inr light =>
          match lightweightMatches rest with
          | inl e => inl e
          | inr lights => inr (light :: lights)
          end
      end
  end.

(** Lines 387-443: the result object, or the exception that the projection
    of the partial matches throws. *)
Definition findResult (params : FindParams.t)
  (allMatches : list FoundTask.t) (exactMatch : option FoundTask.t)
  : Exn + FindResponse :=
  match exactMatch with
  | Some m => inr (ExactMatch (FoundTask.task m) (FoundTask.listId m))
  | None =>
      if 0 <? length allMatches then
        match lightweightMatches allMatches with
        | inl e => inl e
        | inr matches =>
            inr (PartialMatches
                   (lit "No exact match for " ++ [34%N]
                      ++ FindParams.title params
                      ++ [34%N] ++ lit ". Found " ++ of_nat (length allMatches)
                      ++ lit " partial match(es):")
                   matches)
        end
      else
        inr (NoMatches
               (lit "No tasks found matching " ++ [34%N]
                  ++ FindParams.title params ++ [34%N])
               (Keyword.searchKeyword (FindParams.title params)))
  end.

(** The tool (lines 308-459). *)
Definition findTodoTask (params : FindParams.t) : M FindResponse :=
  try_catch
    (lists <- listsToSearch params ;;
     r <- searchLists params lists [] ;;
     match findResult params (fst r) (snd r) with
     | inr response => ret response
     | inl error => throw error
     end)
    (fun error => ret (FindFailed error)).

End Tools.

(* ================================================================= *)
(** * Part III: the text pass of generateMcpTools (lines 28-45) *)
(* ================================================================= *)

Module Generator.

Definition any (c : N) : bool := true.

(** [/'@zodios\/core';/] *)
Definition re_import : regex := Lit (lit "'@zodios/core';").

(** [/const NAME = z\s+\.object\({[\s\S]*?}\)\s+\.strict\(\);/] *)
Definition re_schema (name : string) : regex :=
  Seq (Lit (lit "const " ++ lit name ++ lit " = z"))
 (Seq (Plus is_space)
 (Seq (Lit (lit ".object({"))
 (Seq (Rep false any)
 (Seq (Lit (lit "})"))
 (Seq (Plus is_space)
      (Lit (lit ".strict();"))))))).

(** [/\.strict\(\);/] *)
Definition re_strict : regex := Lit (lit ".strict();").

(** [/,?\s*errors:\s*\[[\s\S]*?],?(?=\s*})/g] *)
Definition re_errors : regex :=
  Seq (Opt (Lit (lit ",")))
 (Seq (Rep true is_space)
 (Seq (Lit (lit "errors:"))
 (Seq (Rep true is_space)
 (Seq (Lit (lit "["))
 (Seq (Rep false any)
 (Seq (Lit (lit "]"))
 (Seq (Opt (Lit (lit ",")))
      (Ahead (Seq (Rep true is_space) (Lit (lit "}"))))))))))).

(** Line 29. *)
Definition redirectImport : str -> str :=
  replace re_import (fun _ => lit "'./hack.js';").

(** [(match) => match.replace(/\.strict\(\);/, '.passthrough();')] *)
Definition relax (m : str) : str :=
  replace re_strict (fun _ => lit ".passthrough();") m.

(** Lines 31-34. *)
Definition relaxAttachment : str -> str :=
  replace (re_schema "microsoft_graph_attachment") relax.

(** Lines 36-39. *)
Definition relaxPlannerAssignments : str -> str :=
  replace (re_schema "microsoft_graph_plannerAssignments") relax.

(** Line 43. *)
Definition stripErrors : str -> str :=
  replace_all re_errors (fun _ => lit "").

(** The text written back to [client.ts], from the text read from it. *)
Definition postProcess (clientCode : str) : str :=
  let clientCode := redirectImport clientCode in
  let clientCode := relaxAttachment clientCode in
  let clientCode := relaxPlannerAssignments clientCode in
  stripErrors clientCode.

End Generator.

(* ================================================================= *)
(** * Part III-b: the vocabulary of the properties *)
(* ================================================================= *)

(** The four metadata lines of a converted task body, in order. *)
Definition metadataLines (task : PlannerTask.t) : list str :=
  [ lit "--- Converted from Planner ---";
    lit "Plan ID: " ++ PlannerTask.planId task;
    lit "Original Task ID: " ++ PlannerTask.id task;
    lit "Created: " ++ PlannerTask.createdDateTime task ].

(** The description the body starts with: present when the details were
    fetched and carry a description that is not the empty string. *)
Definition presentDescription (details : option PlannerTaskDetails.t)
  : option str :=
  match details with
  | Some d =>
      match PlannerTaskDetails.description d with
      | Some (c :: desc) => Some (c :: desc)
      | _ => None
      end
  | None => None
  end.

Definition newline : str := [10%N].

(** A pattern through which every match must read the literal [l]. *)
Definition reads (r : regex) (l : str) : Prop :=
  forall s res, mt r Some s = Some res -> includes s l = true.


(** The maximal prefix of [s] in the class [p]: what is left after it, and
    its length. *)
Fixpoint drop_while (p : N -> bool) (s : str) : str :=
  match s with
  | c :: t => if p c then drop_while p t else s
  | [] => []
  end.

Fixpoint run (p : N -> bool) (s : str) : nat :=
  match s with
  | c :: t => if p c then S (run p t) else 0
  | [] => 0
  end.


Definition nonempty (w : str) : bool :=
  match w with [] => false | _ :: _ => true end.


(** [x !== undefined] *)
Definition defined (x : option Json) : bool :=
  match x with Some _ => true | None => false end.

(** Lexicographic comparison of two strings by code units. *)
Fixpoint lex_compare (a b : str) : comparison :=
  match a, b with
  | [], [] => Eq
  | [], _ :: _ => Lt
  | _ :: _, [] => Gt
  | x :: a', y :: b' =>
      match (x ?= y)%N with
      | Eq => lex_compare a' b'
      | c => c
      end
  end.

Definition lex_le (a b : str) : Prop := lex_compare a b <> Gt.

(** A request was answered or failed. *)
Definition answered (r : Response) : bool :=
  match r with Returned _ => true | Threw _ => false end.


Section Vocabulary.
Context {host : Host}.

(** The query of one list by find-todo-task. *)
Definition listQuery (params : FindParams.t) (listId : str) : option Request :=
  match encodeURIComponent (filterOf params) with
  | Some encoded =>
      Some (GET (lit "/me/todo/lists/" ++ listId ++ lit "/tasks?$filter="
                   ++ encoded))
  | None => None
  end.

(** The payload read off the outcome of a request, and the exception that
    is thrown when there is none. *)
Definition decoded {A} (decode : str -> option A) (r : Response) : option A :=
  match r with
  | Returned content =>
      match contentText content with
      | Some text => decode text
      | None => None
      end
  | Threw _ => None
  end.

Definition fetchError (r : Response) : Exn :=
  match r with
  | Threw m => GraphError m
  | Returned content =>
      match contentText content with
      | Some _ => SyntaxError
      | None => TypeError
      end
  end.

(** The result set a response carries, if it carries one. *)
Definition resultSet (r : Response) : option (list Json) :=
  match decoded parseTasksData r with
  | Some data => TasksData.value data
  | None => None
  end.

(** The result set of [r] holds a task with exactly this title, and no
    element before that task is [null]. *)
Definition reachesTitle (title : str) (r : Response) : Prop :=
  exists before fields rest,
    resultSet r = Some (before ++ JObj fields :: rest) /\
    Forall (fun e => e <> JNull) before /\
    get fields (lit "title") = Some (JStr title).

(** The result set of [r], if there is one, holds no task with this title. *)
Definition lacksTitle (title : str) (r : Response) : Prop :=
  forall tasks fields,
    resultSet r = Some tasks ->
    In (JObj fields) tasks ->
    get fields (lit "title") <> Some (JStr title).

(** What the search loop of find-todo-task returns on the resolved lists:
    all the matches seen, and the exact match if one was found. *)
Definition searched (params : FindParams.t) (lists : list str) (st : State)
  : list FoundTask.t * option FoundTask.t :=
  match fst (searchLists params lists [] st) with
  | inr r => r
  | inl _ => ([], None)
  end.

(** The value of a field of an element of a result set: an object has it
    or not, any other value has none. *)
Definition fieldOf (task : Json) (field : str) : option Json :=
  match task with
  | JObj fields => get fields field
  | _ => None
  end.

(** An entry of a partial-match response is the projection of the match
    [m]: its properties are [listId] and then, in this order, those of [id],
    [title], [status], [importance] and [dueDateTime] that are defined on the
    task, each with the task's value. *)
Definition ProjectionOf (m : FoundTask.t) (entry : Obj) : Prop :=
  map fst entry =
    lit "listId" ::
    filter (fun field => defined (fieldOf (FoundTask.task m) field))
      [lit "id"; lit "title"; lit "status"; lit "importance";
       lit "dueDateTime"] /\
  get entry (lit "listId") = Some (JStr (FoundTask.listId m)) /\
  get entry (lit "id") = fieldOf (FoundTask.task m) (lit "id") /\
  get entry (lit "title") = fieldOf (FoundTask.task m) (lit "title") /\
  get entry (lit "status") = fieldOf (FoundTask.task m) (lit "status") /\
  get entry (lit "importance") = fieldOf (FoundTask.task m) (lit "importance") /\
  get entry (lit "dueDateTime")
    = fieldOf (FoundTask.task m) (lit "dueDateTime").

(** The checklist entries of the fetched details, in iteration order. *)
Definition checklistOf (c : Created.t) : list ChecklistItem.t :=
  match Created.taskDetails c with
  | Some d =>
      match PlannerTaskDetails.checklist d with
      | Some checklist => map snd checklist
      | None => []
      end
  | None => []
  end.

(** The same entries in the order the conversion walks them. *)
Definition sortedChecklist (c : Created.t) : list ChecklistItem.t :=
  match Created.taskDetails c with
  | Some d =>
      match PlannerTaskDetails.checklist d with
      | Some checklist => sortedItems checklist
      | None => []
      end
  | None => []
  end.

(** The result records of the checklist loop, from the items and the
    outcomes of their requests. *)
Definition outcomes (items : list ChecklistItem.t)
  (attempts : list (Request * Response)) : list ChecklistItemResult.t :=
  map (fun p =>
         {| ChecklistItemResult.displayName := ChecklistItem.title (fst p);
            ChecklistItemResult.isChecked := ChecklistItem.isChecked (fst p);
            ChecklistItemResult.success := answered (snd (snd p)) |})
      (combine items attempts).

(** Step 6 as the trace shows it: the refetch alone when it fails, else the
    refetch and the conditional update, with the disposition that results. *)
Inductive Marking (plannerTaskId : str)
  : list (Request * Response) -> str -> Prop :=
| refetch_failed (r1 : Response) :
    decoded parseTaskData r1 = None ->
    Marking plannerTaskId
      [(refetchRequest plannerTaskId, r1)]
      (lit "failed_to_complete")
| update_failed (r1 : Response) (taskData : TaskData.t) (m : str) :
    decoded parseTaskData r1 = Some taskData ->
    Marking plannerTaskId
      [(refetchRequest plannerTaskId, r1);
       (completeRequest plannerTaskId
          (or_else (TaskData._etag taskData) (lit "*")), Threw m)]
      (lit "failed_to_complete")
| update_done (r1 : Response) (taskData : TaskData.t) (c : list ContentItem) :
    decoded parseTaskData r1 = Some taskData ->
    Marking plannerTaskId
      [(refetchRequest plannerTaskId, r1);
       (completeRequest plannerTaskId
          (or_else (TaskData._etag taskData) (lit "*")), Returned c)]
      (lit "completed").

End Vocabulary.

(* ================================================================= *)
(** * Part III-c: a sample host *)
(* ================================================================= *)

(** A small remote service used to run the tools on concrete inputs: it
    answers every request with its own endpoint as text, except that it
    refuses to create the checklist item named "second"; the decoders read
    the payloads off those texts. *)
Module Sample.

Definition task : PlannerTask.t :=
  {| PlannerTask.id := lit "T1";
     PlannerTask.title := lit "Write report";
     PlannerTask.planId := lit "P1";
     PlannerTask.bucketId := None;
     PlannerTask.priority := 1;
     PlannerTask.percentComplete := 100;
     PlannerTask.dueDateTime := None;
     PlannerTask.createdDateTime := lit "2026-02-07T10:00:00Z" |}.

Definition details : PlannerTaskDetails.t :=
  {| PlannerTaskDetails.description := Some (lit "Quarterly numbers");
     PlannerTaskDetails.checklist :=
       Some [ (lit "c1", {| ChecklistItem.title := lit "second";
                            ChecklistItem.isChecked := false;
                            ChecklistItem.orderHint := Some (lit "b") |});
              (lit "c2", {| ChecklistItem.title := lit "first";
                            ChecklistItem.isChecked := true;
                            ChecklistItem.orderHint := Some (lit "a") |}) ] |}.

Definition lists : list TodoTaskList.t :=
  [ {| TodoTaskList.id := lit "L2"; TodoTaskList.displayName := lit "Tasks";
       TodoTaskList.wellknownListName := lit "defaultList" |};
    {| TodoTaskList.id := lit "L1"; TodoTaskList.displayName := lit "ROI Tasks";
       TodoTaskList.wellknownListName := lit "none" |} ].

Definition todo (title : string) : Obj :=
  [ (lit "id", JStr (lit "A1")); (lit "title", JStr (lit title));
    (lit "status", JStr (lit "notStarted")) ].

Definition service (req : Request) (w : unit) : Response * unit :=
  match body req with
  | Some (JObj ((_, JStr name) :: _)) =>
      if str_eqb name (lit "second") then (Threw (lit "503"), w)
      else (Returned [TextContent (endpoint req)], w)
  | _ => (Returned [TextContent (endpoint req)], w)
  end.

Definition when {A} (url : string) (a : A) (text : str) : option A :=
  if str_eqb text (lit url) then Some a else None.

#[export] Instance host : Host :=
  {| World := unit;
     graphRequest := service;
     parsePlannerTask := when "/planner/tasks/T1" task;
     parseDetails := when "/planner/tasks/T1/details" (Some details);
     parseLists := when "/me/todo/lists" {| ListsData.value := Some lists |};
     parseTodoTask :=
       when "/me/todo/lists/L2/tasks"
         {| TodoTask.id := lit "N1"; TodoTask.title := lit "[Planner] Write report";
            TodoTask.importance := lit "high"; TodoTask.status := lit "completed" |};
     parseTaskData := when "/planner/tasks/T1" {| TaskData._etag := None |};
     parseTasksData := fun text =>
       if includes text (lit "/lists/L1/") then
         Some {| TasksData.value :=
                   Some [JObj (todo "Tapped Hole drawing");
                         JObj (todo "#ENG - Tapped Hole")] |}
       else if includes text (lit "/lists/L2/") then
         Some {| TasksData.value := Some [JObj (todo "Tapped Hole spare")] |}
       else None;
     localeCompare := fun a b =>
       match lex_compare a b with Lt => (-1)%Z | Eq => 0%Z | Gt => 1%Z end;
     encodeURIComponent := fun s => Some s |}.

Definition start : State := {| world := tt; trace := [] |}.

Definition convertParams : ConvertParams.t :=
  {| ConvertParams.plannerTaskId := lit "T1";
     ConvertParams.todoTaskListId := None;
     ConvertParams.markPlannerComplete := true;
     ConvertParams.addPlannerPrefix := true |}.

(** What steps 1 to 4 of the conversion leave behind on this host. *)
Definition created : Created.t :=
  {| Created.plannerTask := task;
     Created.taskDetails := Some details;
     Created.listId := lit "L2";
     Created.createdTodoTask :=
       {| TodoTask.id := lit "N1"; TodoTask.title := lit "[Planner] Write report";
          TodoTask.importance := lit "high"; TodoTask.status := lit "completed" |} |}.

Definition afterCreate : State :=
  snd (createTodoTask convertParams start).

Definition findParams (title : string) : FindParams.t :=
  {| FindParams.title := lit title;
     FindParams.todoTaskListId := None;
     FindParams.includeCompleted := false |}.

End Sample.

(* ================================================================= *)
(** * Part III-d: further vocabulary, for the rest of the tools *)
(* ================================================================= *)

Section Steps.
Context {host : Host}.

Notation "x <- m ;; k" := (bind m (fun x => k))
  (at level 61, m at next level, right associativity).

(** The outcome of [req] when it is issued in [st], and the state it
    leaves. *)
Definition reply (req : Request) (st : State) : Response :=
  fst (graphRequest req (world st)).

Definition after (req : Request) (st : State) : State :=
  {| world := snd (graphRequest req (world st));
     trace := trace st ++ [(req, reply req st)] |}.

(** The requests of steps 1, 2 and 4 of the conversion. *)
Definition taskRequest (params : ConvertParams.t) : Request :=
  GET (lit "/planner/tasks/" ++ ConvertParams.plannerTaskId params).

Definition detailsRequest (params : ConvertParams.t) : Request :=
  GET ((lit "/planner/tasks/" ++ ConvertParams.plannerTaskId params)
         ++ lit "/details").

Definition createRequest (listId : str) (todoBody : Obj) : Request :=
  {| endpoint := lit "/me/todo/lists/" ++ listId ++ lit "/tasks";
     method := Some POST; body := Some (JObj todoBody); headers := [];
     includeHeaders := false |}.

Definition listsRequest : Request := GET (lit "/me/todo/lists").

(** [l.wellknownListName === 'defaultList'] *)
Definition isDefaultList (l : TodoTaskList.t) : bool :=
  str_eqb (TodoTaskList.wellknownListName l) (lit "defaultList").

(** Step 3 of the conversion (lines 146-159), as it stands inside
    [createTodoTask]. *)
Definition resolveList (params : ConvertParams.t) : M str :=
  match ConvertParams.todoTaskListId params with
  | Some (c :: l) => ret (c :: l)
  | _ =>
      listsData <- fetchJson listsRequest parseLists ;;
      match ListsData.value listsData with
      | Some lists =>
          match find isDefaultList lists with
          | Some tasksList => ret (TodoTaskList.id tasksList)
          | None => throw (Error (lit "Could not find default Tasks list"))
          end
      | None => throw (Error (lit "Could not find default Tasks list"))
      end
  end.

(** The details the conversion goes on with after the request of step 2. *)
Definition detailsOf (r : Response) : option PlannerTaskDetails.t :=
  match decoded parseDetails r with
  | Some d => d
  | None => None
  end.

(** No request of the list changes the source task or adds a checklist
    item. *)
Definition readsOrCreatesTask (a : Request * Response) : Prop :=
  method (fst a) <> Some PATCH /\
  forall listId todoId item,
    fst a <> checklistRequest listId todoId item.

End Steps.


(** [params.todoTaskListId] when it is truthy: given and not empty. *)
Definition explicitList (params : ConvertParams.t) : option str :=
  match ConvertParams.todoTaskListId params with
  | Some (c :: l) => Some (c :: l)
  | _ => None
  end.

(** [listsData.value?.find(l => l.wellknownListName === 'defaultList')] *)
Definition defaultList (data : ListsData.t) : option TodoTaskList.t :=
  match ListsData.value data with
  | Some lists => find isDefaultList lists
  | None => None
  end.

(** Variants of the sample host: the details may be unreadable and the lists
    payload is a parameter. *)
Module Sample2.

Definition host (withDetails : bool) (lists : option (list TodoTaskList.t))
  : Host :=
  {| World := unit;
     graphRequest := Sample.service;
     parsePlannerTask := Sample.when "/planner/tasks/T1" Sample.task;
     parseDetails :=
       if withDetails
       then Sample.when "/planner/tasks/T1/details" (Some Sample.details)
       else fun _ => None;
     parseLists := Sample.when "/me/todo/lists" {| ListsData.value := lists |};
     parseTodoTask :=
       Sample.when "/me/todo/lists/L2/tasks"
         {| TodoTask.id := lit "N1"; TodoTask.title := lit "[Planner] Write report";
            TodoTask.importance := lit "high"; TodoTask.status := lit "completed" |};
     parseTaskData := Sample.when "/planner/tasks/T1" {| TaskData._etag := None |};
     parseTasksData := fun _ => None;
     localeCompare := fun a b =>
       match lex_compare a b with Lt => (-1)%Z | Eq => 0%Z | Gt => 1%Z end;
     encodeURIComponent := fun s => Some s |}.

Definition start (withDetails : bool) (lists : option (list TodoTaskList.t))
  : @State (host withDetails lists) :=
  @Build_State (host withDetails lists) tt [].

End Sample2.

(** Parameters for the runs on the sample hosts. *)
Module SampleRuns.

Definition convertWith (taskId : string) (listId : option string)
  (mark : bool) : ConvertParams.t :=
  {| ConvertParams.plannerTaskId := lit taskId;
     ConvertParams.todoTaskListId :=
       match listId with Some l => Some (lit l) | None => None end;
     ConvertParams.markPlannerComplete := mark;
     ConvertParams.addPlannerPrefix := true |}.

Definition otherLists : list TodoTaskList.t :=
  [ {| TodoTaskList.id := lit "L7"; TodoTaskList.displayName := lit "Errands";
       TodoTaskList.wellknownListName := lit "none" |} ].

End SampleRuns.

(** [params.todoTaskListId] of find-todo-task when it is truthy. *)
Definition explicitSearchList (params : FindParams.t) : option str :=
  match FindParams.todoTaskListId params with
  | Some (c :: l) => Some (c :: l)
  | _ => None
  end.

(** The elements of a result set as the search loop records them. *)
Definition tagged (listId : str) (tasks : list Json) : list FoundTask.t :=
  map (fun task => {| FoundTask.task := task; FoundTask.listId := listId |})
      tasks.

(** The elements of a result set up to and including its first [null]. *)
Fixpoint upToNull (tasks : list Json) : list Json :=
  match tasks with
  | [] => []
  | JNull :: _ => [JNull]
  | e :: rest => e :: upToNull rest
  end.

Definition isNull (e : Json) : bool :=
  match e with JNull => true | _ => false end.

(** The projection of a match that is not [null], written out. *)
Definition projection (m : FoundTask.t) : Obj :=
  (lit "listId", JStr (FoundTask.listId m)) ::
  flat_map (fun field =>
              match fieldOf (FoundTask.task m) field with
              | Some v => [(field, v)]
              | None => []
              end)
    [lit "id"; lit "title"; lit "status"; lit "importance"; lit "dueDateTime"].

Section Seen.
Context {host : Host}.

(** What a search without an exact match records: list by list, the
    elements of the result set up to and including its first [null]. *)
Definition seenIn (lists : list str) (queries : list (Request * Response))
  : list FoundTask.t :=
  flat_map (fun p =>
              match resultSet (snd (snd p)) with
              | Some tasks => tagged (fst p) (upToNull tasks)
              | None => []
              end)
           (combine lists queries).

End Seen.

(** Undoing the doubling of single quotes, as the server reads a string
    literal of a filter. *)
Fixpoint unescapeQuotes (s : str) : str :=
  match s with
  | [] => []
  | c :: t =>
      match t with
      | d :: t' =>
          if ((c =? 39) && (d =? 39))%N then 39%N :: unescapeQuotes t'
          else c :: unescapeQuotes t
      | [] => [c]
      end
  end.

(** [k] occurs in [s] as a run of consecutive code units. *)
Definition occursIn (k s : str) : Prop := exists pre post, s = pre ++ k ++ post.

(** [a] is [b] with some code units deleted. *)
Inductive deletedFrom : str -> str -> Prop :=
| deleted_nil : deletedFrom [] []
| deleted_keep (c : N) (a b : str) :
    deletedFrom a b -> deletedFrom (c :: a) (c :: b)
| deleted_drop (c : N) (a b : str) : deletedFrom a b -> deletedFrom a (c :: b).

(** Every match of [r] ends with the literal [l]. *)
Definition endsWith (r : regex) (l : str) : Prop :=
  forall (k : str -> option str) (s res : str),
    mt r k s = Some res ->
    exists m s', s = m ++ l ++ s' /\ k s' = Some res.

(** Where [r] matches first, [f] turns one [.strict();] of the matched text
    into [.passthrough();] and changes nothing else. *)
Definition relaxesOnce (r : regex) (f : str -> str) : Prop :=
  forall (s : str) (i n : nat),
    search r s = Some (i, n) ->
    exists a b,
      length (a ++ lit ".strict();" ++ b) = n /\
      s = firstn i s ++ (a ++ lit ".strict();" ++ b) ++ skipn (i + n) s /\
      f s = firstn i s ++ (a ++ lit ".passthrough();" ++ b) ++ skipn (i + n) s.

(** Sample generated texts. *)
Module SampleTexts.

Definition schema : str :=
  lit "x;" ++ newline
  ++ lit "const microsoft_graph_attachment = z" ++ newline
  ++ lit "  .object({ a: z.string() })" ++ newline
  ++ lit "  .strict();" ++ newline ++ lit "y".

Definition plain : str :=
  lit "export const api = { path: '/me', method: 'get' };".

End SampleTexts.

(* ================================================================= *)
(** * Part III-e: generateMcpTools as a whole (generator script, lines 5-51) *)
(* ================================================================= *)

Module Generate.

(** The file system, the path functions and the command runner of the
    host.  An operation that can throw returns the message of the error. *)
Class FileHost : Type := {
  Disk : Type;
  existsSync : str -> Disk -> bool;
  mkdirSync : str -> Disk -> option str * Disk;
  pathResolve : str -> str -> str;
  pathJoin : str -> str -> str;
  execSync : str -> Disk -> option str * Disk;
  readFileSync : str -> Disk -> (str + str) * Disk;
  writeFileSync : str -> str -> Disk -> option str * Disk
}.

Section Script.
Context {files : FileHost}.

(** Lines 14-18. *)
Definition openapiTrimmedFile (outputDir : str) : str :=
  let rootDir := pathResolve outputDir (lit "../..") in
  let openapiDir := pathJoin rootDir (lit "openapi") in
  pathJoin openapiDir (lit "openapi-trimmed.yaml").

Definition clientFilePath (outputDir : str) : str :=
  pathJoin outputDir (lit "client.ts").

(** The command of line 20. *)
Definition command (outputDir : str) : str :=
  lit "npx -y openapi-zod-client " ++ [34%N] ++ openapiTrimmedFile outputDir
  ++ [34%N] ++ lit " -o " ++ [34%N] ++ clientFilePath outputDir ++ [34%N]
  ++ lit " --with-description --strict-objects --additional-props-default-value=false".

(** [new Error(`Error generating client code: ${error.message}`)] *)
Definition wrapped (message : str) : str :=
  lit "Error generating client code: " ++ message.

(** [generateMcpTools(openApiSpec, outputDir)]: the value returned, or the
    message of the error thrown. *)
Definition generateMcpTools (openApiSpec outputDir : str) (d : Disk)
  : (str + bool) * Disk :=
  let (made, d0) :=
    if existsSync outputDir d then (None, d) else mkdirSync outputDir d in
  match made with
  | Some message => (inl (wrapped message), d0)
  | None =>
      match execSync (command outputDir) d0 with
      | (Some message, d1) => (inl (wrapped message), d1)
      | (None, d1) =>
          match readFileSync (clientFilePath outputDir) d1 with
          | (inl message, d2) => (inl (wrapped message), d2)
          | (inr clientCode, d2) =>
              match writeFileSync (clientFilePath outputDir)
                      (Generator.postProcess clientCode) d2 with
              | (Some message, d3) => (inl (wrapped message), d3)
              | (None, d3) => (inr true, d3)
              end
          end
      end
  end.

End Script.

End Generate.

(** A host on which the filter cannot be encoded. *)
Module Sample3.

Definition host : Host :=
  {| World := unit;
     graphRequest := Sample.service;
     parsePlannerTask := fun _ => None;
     parseDetails := fun _ => None;
     parseLists := fun _ => None;
     parseTodoTask := fun _ => None;
     parseTaskData := fun _ => None;
     parseTasksData := fun _ =>
       Some {| TasksData.value := Some [JObj (Sample.todo "Tapped Hole")] |};
     localeCompare := fun _ _ => 0%Z;
     encodeURIComponent := fun _ => None |}.

Definition start : @State host := @Build_State host tt [].

Definition findParams : FindParams.t :=
  {| FindParams.title := lit "Tapped Hole";
     FindParams.todoTaskListId := Some (lit "L1");
     FindParams.includeCompleted := false |}.

End Sample3.

(** A host whose first list answers with a result set that begins with
    [null]: [{"value": [null, {"id": "A1", "title": "Tapped Hole", ...}]}]. *)
Module Sample5.

Definition host : Host :=
  {| World := unit;
     graphRequest := Sample.service;
     parsePlannerTask := fun _ => None;
     parseDetails := fun _ => None;
     parseLists :=
       Sample.when "/me/todo/lists" {| ListsData.value := Some Sample.lists |};
     parseTodoTask := fun _ => None;
     parseTaskData := fun _ => None;
     parseTasksData := fun text =>
       if includes text (lit "/lists/L1/") then
         Some {| TasksData.value :=
                   Some [JNull; JObj (Sample.todo "Tapped Hole")] |}
       else Some {| TasksData.value := Some [] |};
     localeCompare := fun _ _ => 0%Z;
     encodeURIComponent := fun s => Some s |}.

Definition start : @State host := @Build_State host tt [].

End Sample5.

(** The sample host with other details for the source task. *)
Module Sample4.

Definition unhinted : PlannerTaskDetails.t :=
  {| PlannerTaskDetails.description := None;
     PlannerTaskDetails.checklist :=
       Some [ (lit "k2", {| ChecklistItem.title := lit "zeta";
                            ChecklistItem.isChecked := false;
                            ChecklistItem.orderHint := None |});
              (lit "k1", {| ChecklistItem.title := lit "alpha";
                            ChecklistItem.isChecked := true;
                            ChecklistItem.orderHint := Some (lit "") |}) ] |}.

Definition host : Host :=
  {| World := unit;
     graphRequest := Sample.service;
     parsePlannerTask := Sample.when "/planner/tasks/T1" Sample.task;
     parseDetails := Sample.when "/planner/tasks/T1/details" (Some unhinted);
     parseLists :=
       Sample.when "/me/todo/lists" {| ListsData.value := Some Sample.lists |};
     parseTodoTask :=
       Sample.when "/me/todo/lists/L2/tasks"
         (Created.createdTodoTask Sample.created);
     parseTaskData := Sample.when "/planner/tasks/T1" {| TaskData._etag := None |};
     parseTasksData := fun _ => None;
     localeCompare := fun a b =>
       match lex_compare a b with Lt => (-1)%Z | Eq => 0%Z | Gt => 1%Z end;
     encodeURIComponent := fun s => Some s |}.

Definition start : @State host := @Build_State host tt [].

Definition created : Created.t :=
  {| Created.plannerTask := Sample.task;
     Created.taskDetails := Some unhinted;
     Created.listId := lit "L2";
     Created.createdTodoTask := Created.createdTodoTask Sample.created |}.

End Sample4.

(** A host that collates: letters are compared without regard to case
    first, and among strings that differ in case only the lower case goes
    first, as in the usual locale collations ("a" before "B", "a" before
    "A").  The source task has two checklist items, hinted "B" and "a". *)
Module Sample6.

Definition lower (c : N) : N :=
  if ((65 <=? c) && (c <=? 90))%N then (c + 32)%N else c.

Definition sign (c : comparison) : Z :=
  match c with Lt => (-1)%Z | Eq => 0%Z | Gt => 1%Z end.

Definition collate (a b : str) : Z :=
  match lex_compare (map lower a) (map lower b) with
  | Eq => sign (lex_compare b a)
  | c => sign c
  end.

Definition upperItem : ChecklistItem.t :=
  {| ChecklistItem.title := lit "upper";
     ChecklistItem.isChecked := false;
     ChecklistItem.orderHint := Some (lit "B") |}.

Definition lowerItem : ChecklistItem.t :=
  {| ChecklistItem.title := lit "lower";
     ChecklistItem.isChecked := false;
     ChecklistItem.orderHint := Some (lit "a") |}.

Definition details : PlannerTaskDetails.t :=
  {| PlannerTaskDetails.description := None;
     PlannerTaskDetails.checklist :=
       Some [ (lit "k1", upperItem); (lit "k2", lowerItem) ] |}.

Definition host : Host :=
  {| World := unit;
     graphRequest := Sample.service;
     parsePlannerTask := Sample.when "/planner/tasks/T1" Sample.task;
     parseDetails := Sample.when "/planner/tasks/T1/details" (Some details);
     parseLists :=
       Sample.when "/me/todo/lists" {| ListsData.value := Some Sample.lists |};
     parseTodoTask :=
       Sample.when "/me/todo/lists/L2/tasks"
         (Created.createdTodoTask Sample.created);
     parseTaskData := Sample.when "/planner/tasks/T1" {| TaskData._etag := None |};
     parseTasksData := fun _ => None;
     localeCompare := collate;
     encodeURIComponent := fun s => Some s |}.

Definition start : @State host := @Build_State host tt [].

Definition created : Created.t :=
  {| Created.plannerTask := Sample.task;
     Created.taskDetails := Some details;
     Created.listId := lit "L2";
     Created.createdTodoTask := Created.createdTodoTask Sample.created |}.

Definition afterCreate : @State host :=
  snd (@createTodoTask host Sample.convertParams start).

End Sample6.

(** A file system for sample runs of the generator.  The disk records the
    step that is set to fail (1: making the directory, 2: the command,
    3: reading, 4: writing; any other number: none) and the text written. *)
Module SampleFiles.

Definition fails (step : nat) (d : nat * option str) : bool :=
  Nat.eqb (fst d) step.

#[export] Instance files : Generate.FileHost :=
  {| Generate.Disk := (nat * option str)%type;
     Generate.existsSync := fun _ _ => false;
     Generate.mkdirSync := fun _ d =>
       (if fails 1 d then Some (lit "EACCES") else None, d);
     Generate.pathResolve := fun a b => a ++ lit "/" ++ b;
     Generate.pathJoin := fun a b => a ++ lit "/" ++ b;
     Generate.execSync := fun _ d =>
       (if fails 2 d then Some (lit "Command failed") else None, d);
     Generate.readFileSync := fun _ d =>
       (if fails 3 d then inl (lit "ENOENT") else inr SampleTexts.schema, d);
     Generate.writeFileSync := fun _ text d =>
       if fails 4 d then (Some (lit "ENOSPC"), d)
       else (None, (fst d, Some text)) |}.

End SampleFiles.

(* ================================================================= *)
(** * Part IV: properties *)
(* ================================================================= *)

(** ** Strings *)

Lemma str_eqb_eq (a b : str) : str_eqb a b = true <-> a = b.
Proof.
  revert b; induction a as [|x a IH]; intros [|y b]; simpl;
    try (split; [discriminate | discriminate]); try tauto.
  rewrite andb_true_iff, N.eqb_eq, IH. split.
  - intros [-> ->]; reflexivity.
  - intros E; injection E; auto.
Qed.

Lemma str_eqb_refl (a : str) : str_eqb a a = true.
Proof. apply str_eqb_eq; reflexivity. Qed.

(** ** The field mapper *)

Section FieldMapper.
Variable task : PlannerTask.t.
Variable details : option PlannerTaskDetails.t.
Variable addPrefix : bool.

(** The draft always carries the four properties of the object literal,
    whether or not a due date was added after them. *)
Lemma mapPlannerToTodo_importance :
  get (mapPlannerToTodo task details addPrefix) (lit "importance") =
  Some (JStr (or_else (lookupZ importanceMap (PlannerTask.priority task))
                      (lit "normal"))).
Proof.
  unfold mapPlannerToTodo.
  destruct (PlannerTask.dueDateTime task) as [[|c d]|]; reflexivity.
Qed.

Lemma mapPlannerToTodo_status :
  get (mapPlannerToTodo task details addPrefix) (lit "status") =
  Some (JStr (if (PlannerTask.percentComplete task =? 100)%Z
              then lit "completed" else lit "notStarted")).
Proof.
  unfold mapPlannerToTodo.
  destruct (PlannerTask.dueDateTime task) as [[|c d]|]; reflexivity.
Qed.

End FieldMapper.

(** C5. For every integer priority code of the source task the importance of
    the draft is "high" for 1, "normal" for 5, "low" for 9 and "normal" for
    every other code; the mapper is a total function, so no code raises an
    error. *)
Theorem priority_mapping_total :
  forall (task : PlannerTask.t) (details : option PlannerTaskDetails.t)
         (addPrefix : bool),
    get (mapPlannerToTodo task details addPrefix) (lit "importance") =
    Some (JStr (let p := PlannerTask.priority task in
                if (p =? 1)%Z then lit "high"
                else if (p =? 5)%Z then lit "normal"
                else if (p =? 9)%Z then lit "low"
                else lit "normal")).
Proof.
  intros task details addPrefix.
  rewrite mapPlannerToTodo_importance. cbv zeta.
  unfold importanceMap, lookupZ.
  rewrite (Z.eqb_sym 1), (Z.eqb_sym 5), (Z.eqb_sym 9).
  destruct (PlannerTask.priority task =? 1)%Z; [reflexivity|].
  destruct (PlannerTask.priority task =? 5)%Z; [reflexivity|].
  destruct (PlannerTask.priority task =? 9)%Z; reflexivity.
Qed.

(** C6. For every completion percentage the status of the draft is
    "completed" if and only if the percentage equals 100, and "notStarted"
    otherwise. *)
Theorem status_completed_iff_100 :
  forall (task : PlannerTask.t) (details : option PlannerTaskDetails.t)
         (addPrefix : bool),
    let status := get (mapPlannerToTodo task details addPrefix) (lit "status") in
    (status = Some (JStr (lit "completed")) <->
       PlannerTask.percentComplete task = 100%Z) /\
    (status = Some (JStr (lit "notStarted")) <->
       PlannerTask.percentComplete task <> 100%Z) /\
    (status = Some (JStr (lit "completed")) \/
     status = Some (JStr (lit "notStarted"))).
Proof.
  intros task details addPrefix status. subst status.
  rewrite mapPlannerToTodo_status.
  destruct (Z.eqb_spec (PlannerTask.percentComplete task) 100) as [E|E].
  - split; [tauto|]. split; [|left; reflexivity].
    split; [discriminate | contradiction].
  - split; [|split; [tauto | right; reflexivity]].
    split; [discriminate | contradiction].
Qed.

(** C7. The body ends with the four metadata lines (the fixed header, the
    plan id, the task id, the creation timestamp), each on its own line and
    in that order.  A description that is present comes first and is followed
    by a blank line; without one the body is exactly the four lines. *)
Theorem body_ends_with_metadata :
  forall (task : PlannerTask.t) (details : option PlannerTaskDetails.t),
    let footer := join newline (metadataLines task) in
    footer = lit "--- Converted from Planner ---" ++ newline
             ++ (lit "Plan ID: " ++ PlannerTask.planId task) ++ newline
             ++ (lit "Original Task ID: " ++ PlannerTask.id task) ++ newline
             ++ (lit "Created: " ++ PlannerTask.createdDateTime task) /\
    (exists before, buildTaskBody task details = before ++ footer) /\
    buildTaskBody task details =
      match presentDescription details with
      | Some description => description ++ newline ++ newline ++ footer
      | None => footer
      end.
Proof.
  intros task details footer.
  assert (Hbody : buildTaskBody task details =
      match presentDescription details with
      | Some description => description ++ newline ++ newline ++ footer
      | None => footer
      end).
  { unfold buildTaskBody, presentDescription, footer, metadataLines.
    destruct details as [d|]; [|reflexivity].
    destruct (PlannerTaskDetails.description d) as [[|c desc]|];
      reflexivity. }
  split; [reflexivity|]. split; [|exact Hbody].
  rewrite Hbody. destruct (presentDescription details) as [description|].
  - exists (description ++ newline ++ newline).
    rewrite <- !app_assoc. reflexivity.
  - exists []. reflexivity.
Qed.

(** ** The matcher on the patterns of the keyword extraction *)

Lemma rep_greedy_Some (p : N -> bool) (s : str) :
  rep_greedy p Some s = Some (drop_while p s).
Proof.
  induction s as [|c t IH]; simpl; [reflexivity|].
  destruct (p c); [rewrite IH|]; reflexivity.
Qed.

Lemma length_drop_while (p : N -> bool) (s : str) :
  length (drop_while p s) + run p s = length s.
Proof.
  induction s as [|c t IH]; simpl; [reflexivity|].
  destruct (p c); simpl; lia.
Qed.

Lemma match_at_Plus (p : N -> bool) (s : str) :
  match_at (Plus p) s =
  match s with
  | c :: t => if p c then Some (S (run p t)) else None
  | [] => None
  end.
Proof.
  unfold match_at, Plus; simpl.
  destruct s as [|c t]; [reflexivity|].
  destruct (p c); [|reflexivity].
  rewrite rep_greedy_Some. f_equal.
  pose proof (length_drop_while p t). cbn [length]. lia.
Qed.

Lemma match_at_Cls (p : N -> bool) (s : str) :
  match_at (Cls p) s =
  match s with
  | c :: t => if p c then Some 1 else None
  | [] => None
  end.
Proof.
  unfold match_at; simpl.
  destruct s as [|c t]; [reflexivity|].
  destruct (p c); [|reflexivity].
  f_equal. cbn [length]. lia.
Qed.

Lemma match_at_hashtag (s : str) :
  match_at Keyword.re_hashtag s =
  match s with
  | c :: d :: t =>
      if (c =? 35)%N && is_word d then Some (S (S (run is_word t))) else None
  | _ => None
  end.
Proof.
  unfold match_at, Keyword.re_hashtag, Plus; cbn [mt].
  destruct s as [|c [|d t]].
  - reflexivity.
  - rewrite (N.eqb_sym 35 c). destruct (c =? 35)%N; reflexivity.
  - rewrite (N.eqb_sym 35 c). destruct (c =? 35)%N; cbn [andb]; [|reflexivity].
    destruct (is_word d); [|reflexivity].
    rewrite rep_greedy_Some. f_equal.
    pose proof (length_drop_while is_word t). cbn [length]. lia.
Qed.

(** Removing the matches of [/#\w+/g] is stripping the hash-tag tokens. *)
Lemma replace_hashtags_strip (s : str) :
  replace_all_from Keyword.re_hashtag (fun _ => lit "") 0 s =
    KeywordSpec.strip_hashtags_from false s /\
  replace_all_from Keyword.re_hashtag (fun _ => lit "") (run is_word s) s =
    KeywordSpec.strip_hashtags_from true s.
Proof.
  induction s as [|c t [IH0 IH1]].
  - split; reflexivity.
  - assert (H0 : replace_all_from Keyword.re_hashtag (fun _ => lit "") 0 (c :: t)
                 = KeywordSpec.strip_hashtags_from false (c :: t)).
    { cbn [replace_all_from]. rewrite match_at_hashtag.
      cbn [KeywordSpec.strip_hashtags_from andb].
      destruct t as [|d t'].
      - rewrite andb_false_r. reflexivity.
      - destruct ((c =? 35)%N && is_word d) eqn:E.
        + cbn [app lit list_ascii_of_string map].
          rewrite <- IH1. cbn [run].
          apply andb_true_iff in E. destruct E as [_ ->]. reflexivity.
        + rewrite IH0. reflexivity. }
    split; [exact H0|].
    cbn [run KeywordSpec.strip_hashtags_from andb].
    destruct (is_word c).
    + cbn [replace_all_from]. exact IH1.
    + exact H0.
Qed.

(** Replacing the matches of [/[^\w\s]/g] by a space. *)
Lemma replace_special_map (s : str) :
  replace_all Keyword.re_special (fun _ => lit " ") s =
  map (fun c => if is_word c || is_space c then c else 32%N) s.
Proof.
  unfold replace_all.
  induction s as [|c t IH]; [reflexivity|].
  cbn [replace_all_from]. unfold Keyword.re_special at 1.
  rewrite match_at_Cls. cbn [map].
  destruct (is_word c || is_space c); cbn [negb].
  - fold Keyword.re_special. rewrite IH. reflexivity.
  - cbn [replace_all_from]. fold Keyword.re_special.
    rewrite IH. reflexivity.
Qed.

(** ** Splitting on whitespace yields the tokens *)

Lemma nonempty_rev (w : str) : nonempty (rev w) = nonempty w.
Proof.
  destruct w as [|c t]; [reflexivity|]. simpl.
  destruct (rev t); reflexivity.
Qed.

Lemma filter_nonempty_piece (acc : str) (l : list str) :
  filter nonempty (rev acc :: l) =
  match acc with
  | [] => filter nonempty l
  | _ :: _ => rev acc :: filter nonempty l
  end.
Proof.
  cbn [filter]. rewrite nonempty_rev. destruct acc; reflexivity.
Qed.

(** [split(/\s+/)] keeps an empty piece at either end of the text; apart
    from those, its pieces are the tokens. *)
Lemma split_from_tokens (s : str) :
  (forall acc, filter nonempty (split_from Keyword.re_spaces 0 acc s)
               = KeywordSpec.tokens_from acc s) /\
  (forall n, n <= run is_space s ->
             filter nonempty (split_from Keyword.re_spaces n [] s)
             = KeywordSpec.tokens_from [] s).
Proof.
  induction s as [|c t [IH0 IH1]].
  - split.
    + intros acc. cbn [split_from KeywordSpec.tokens_from].
      rewrite filter_nonempty_piece. destruct acc; reflexivity.
    + intros n _. destruct n; reflexivity.
  - assert (H0 : forall acc,
        filter nonempty (split_from Keyword.re_spaces 0 acc (c :: t))
        = KeywordSpec.tokens_from acc (c :: t)).
    { intros acc. cbn [split_from KeywordSpec.tokens_from].
      unfold Keyword.re_spaces at 1. rewrite match_at_Plus.
      fold Keyword.re_spaces.
      destruct (is_space c).
      - rewrite filter_nonempty_piece, IH1 by lia.
        destruct acc; reflexivity.
      - apply IH0. }
    split; [exact H0|].
    intros [|n] Hn; [apply H0|].
    cbn [run] in Hn. cbn [split_from KeywordSpec.tokens_from].
    destruct (is_space c); [|lia].
    apply IH1. lia.
Qed.

Lemma find_filter_nonempty (l : list str) :
  find (fun w => 3 <? length w) (filter nonempty l) =
  find (fun w => 3 <? length w) l.
Proof.
  induction l as [|w l IH]; [reflexivity|].
  cbn [filter find]. destruct w as [|c w']; cbn [nonempty].
  - exact IH.
  - cbn [find]. rewrite IH. reflexivity.
Qed.

Lemma find_split_tokens (s : str) :
  find (fun w => 3 <? length w) (split Keyword.re_spaces s) =
  find (fun w => 3 <? length w) (KeywordSpec.tokens s).
Proof.
  destruct s as [|c t]; [reflexivity|].
  unfold split, KeywordSpec.tokens.
  rewrite <- (proj1 (split_from_tokens (c :: t)) []).
  symmetry. apply find_filter_nonempty.
Qed.

(** ** Trimming does not change the tokens *)

Lemma tokens_trim_start (s : str) :
  KeywordSpec.tokens (trim_start s) = KeywordSpec.tokens s.
Proof.
  unfold KeywordSpec.tokens.
  induction s as [|c t IH]; [reflexivity|].
  cbn [trim_start KeywordSpec.tokens_from].
  destruct (is_space c) eqn:Hc; [exact IH|].
  cbn [KeywordSpec.tokens_from]. rewrite Hc. reflexivity.
Qed.

Lemma trim_start_spaces (s : str) :
  exists sp, Forall (fun c => is_space c = true) sp /\ s = sp ++ trim_start s.
Proof.
  induction s as [|c t (sp & Hsp & E)].
  - exists []. split; [constructor | reflexivity].
  - cbn [trim_start]. destruct (is_space c) eqn:Hc.
    + exists (c :: sp). split; [constructor; assumption|].
      cbn [app]. rewrite <- E. reflexivity.
    + exists []. split; [constructor | reflexivity].
Qed.

Lemma tokens_from_spaces (sp : str) :
  Forall (fun c => is_space c = true) sp ->
  forall acc, KeywordSpec.tokens_from acc sp = KeywordSpec.tokens_from acc [].
Proof.
  induction 1 as [|c sp Hc _ IH]; intros acc; [reflexivity|].
  cbn [KeywordSpec.tokens_from]. rewrite Hc.
  rewrite (IH []). destruct acc; reflexivity.
Qed.

Lemma tokens_from_app_spaces (s sp : str) :
  Forall (fun c => is_space c = true) sp ->
  forall acc, KeywordSpec.tokens_from acc (s ++ sp) = KeywordSpec.tokens_from acc s.
Proof.
  intros Hsp. induction s as [|c t IH]; intros acc.
  - apply tokens_from_spaces; assumption.
  - cbn [app KeywordSpec.tokens_from].
    destruct (is_space c); [destruct acc|]; rewrite IH; reflexivity.
Qed.

Lemma tokens_trim (s : str) :
  KeywordSpec.tokens (trim s) = KeywordSpec.tokens s.
Proof.
  unfold trim. rewrite <- (tokens_trim_start s).
  destruct (trim_start_spaces (rev (trim_start s))) as (sp & Hsp & E).
  apply (f_equal (@rev N)) in E. rewrite rev_involutive, rev_app_distr in E.
  rewrite E at 2. unfold KeywordSpec.tokens.
  rewrite tokens_from_app_spaces; [reflexivity|].
  apply Forall_rev; assumption.
Qed.

(** Whitespace left in place and whitespace turned into a space delimit the
    same tokens. *)
Lemma tokens_blank (s : str) (acc : str) :
  KeywordSpec.tokens_from acc
    (map (fun c => if is_word c || is_space c then c else 32%N) s) =
  KeywordSpec.tokens_from acc (KeywordSpec.blank_non_word s).
Proof.
  revert acc. unfold KeywordSpec.blank_non_word.
  induction s as [|c t IH]; intros acc; [reflexivity|].
  cbn [map KeywordSpec.tokens_from].
  destruct (is_word c); cbn [orb].
  - destruct (is_space c); [destruct acc|]; rewrite IH; reflexivity.
  - destruct (is_space c) eqn:Hc.
    + rewrite Hc. change (is_space 32) with true.
      destruct acc; rewrite IH; reflexivity.
    + change (is_space 32) with true.
      destruct acc; rewrite IH; reflexivity.
Qed.

(** The keyword of the source is the keyword of the specification. *)
Lemma searchKeyword_refines (title : str) :
  Keyword.searchKeyword title = KeywordSpec.keyword title.
Proof.
  unfold Keyword.searchKeyword, KeywordSpec.keyword, slice0.
  rewrite find_split_tokens, tokens_trim, replace_special_map.
  unfold replace_all. rewrite (proj1 (replace_hashtags_strip title)).
  fold (KeywordSpec.strip_hashtags title).
  unfold KeywordSpec.tokens at 1. rewrite tokens_blank.
  fold (KeywordSpec.tokens
          (KeywordSpec.blank_non_word (KeywordSpec.strip_hashtags title))).
  destruct (find _ _) as [w|] eqn:F; [|reflexivity].
  apply find_some in F. destruct F as [_ F].
  destruct w; [discriminate F | reflexivity].
Qed.

(** The first significant word of the example title of the tool's schema
    comes after its two hash-tag tokens. *)
Lemma searchKeyword_example :
  Keyword.searchKeyword (lit "#ENG #BuildPart - Tapped Hole") = lit "Tapped".
Proof. reflexivity. Qed.

(** C1, as stated: the keyword of "#ENG #BuildPart - Tapped Hole" would be
    "BuildPart".  It is not: "#BuildPart" is a hash-tag token and is removed
    before the tokens are taken. *)
Lemma searchKeyword_example_not_BuildPart :
  Keyword.searchKeyword (lit "#ENG #BuildPart - Tapped Hole") <> lit "BuildPart".
Proof. rewrite searchKeyword_example. discriminate. Qed.

(** C1, amended.  For every title the keyword is obtained by removing the
    hash-tag tokens, replacing the non-word characters by spaces, splitting
    on whitespace and taking the first token longer than 3 characters, with
    the first 20 characters of the raw title when no token qualifies; for the
    title "#ENG #BuildPart - Tapped Hole" the keyword is "Tapped". *)
Theorem keyword_extraction :
  (forall title : str, Keyword.searchKeyword title = KeywordSpec.keyword title) /\
  KeywordSpec.keyword (lit "#ENG #BuildPart - Tapped Hole") = lit "Tapped" /\
  Keyword.searchKeyword (lit "#ENG #BuildPart - Tapped Hole") = lit "Tapped".
Proof.
  split; [exact searchKeyword_refines|]. split; reflexivity.
Qed.

(** ** Runs of the tools *)

Section Runs.
Context {host : Host}.

Lemma call_run (req : Request) (st : State) :
  let resp := fst (graphRequest req (world st)) in
  call req st =
  (match resp with
   | Threw m => inl (GraphError m)
   | Returned c => inr c
   end,
   {| world := snd (graphRequest req (world st));
      trace := trace st ++ [(req, resp)] |}).
Proof.
  unfold call. destruct (graphRequest req (world st)) as [[m|c] w]; reflexivity.
Qed.

(** A request followed by the decoding of its payload issues one request. *)
Lemma fetchJson_run {A} (req : Request) (decode : str -> option A) (st : State) :
  let resp := fst (graphRequest req (world st)) in
  fetchJson req decode st =
  (match decoded decode resp with
   | Some a => inr a
   | None => inl (fetchError resp)
   end,
   {| world := snd (graphRequest req (world st));
      trace := trace st ++ [(req, resp)] |}).
Proof.
  intros resp. unfold fetchJson, bind. rewrite call_run. fold resp.
  destruct resp as [m|content]; [reflexivity|].
  unfold responseText, parse, decoded, fetchError.
  destruct (contentText content) as [text|]; [|reflexivity].
  cbn. destruct (decode text); reflexivity.
Qed.

(** The checklist loop never throws: it issues one request per item, in the
    order of the items, and records the outcome of each. *)
Lemma createChecklistItems_run (listId todoId : str) :
  forall (items : list ChecklistItem.t) (results : list ChecklistItemResult.t)
         (st : State),
  exists attempts st',
    createChecklistItems listId todoId items results st =
      (inr (results ++ outcomes items attempts), st') /\
    trace st' = trace st ++ attempts /\
    map fst attempts = map (checklistRequest listId todoId) items.
Proof.
  induction items as [|item rest IH]; intros results st.
  - exists [], st. cbn. rewrite !app_nil_r. auto.
  - cbn [createChecklistItems]. unfold bind, try_catch.
    rewrite call_run.
    set (req := checklistRequest listId todoId item).
    destruct (fst (graphRequest req (world st))) as [m|c] eqn:Hresp;
      cbn [ret].
    + match goal with
      | |- context [createChecklistItems _ _ _ ?r ?s] =>
          destruct (IH r s) as (attempts & st' & Hrun & Htrace & Hreqs)
      end.
      exists ((req, Threw m) :: attempts), st'.
      rewrite Hrun. cbn [trace] in Htrace. rewrite Htrace.
      cbn [outcomes combine map fst snd answered].
      rewrite <- !app_assoc. rewrite Hreqs. auto.
    + match goal with
      | |- context [createChecklistItems _ _ _ ?r ?s] =>
          destruct (IH r s) as (attempts & st' & Hrun & Htrace & Hreqs)
      end.
      exists ((req, Returned c) :: attempts), st'.
      rewrite Hrun. cbn [trace] in Htrace. rewrite Htrace.
      cbn [outcomes combine map fst snd answered].
      rewrite <- !app_assoc. rewrite Hreqs. auto.
Qed.

End Runs.

(** ** Sorting *)

Section SortFacts.
Variable A : Type.
Variable cmp : A -> A -> Z.

Lemma insert_perm (x : A) (l : list A) : Permutation (x :: l) (insert cmp x l).
Proof.
  induction l as [|y t IH]; cbn [insert]; [reflexivity|].
  destruct (cmp x y <=? 0)%Z; [reflexivity|].
  rewrite perm_swap. constructor. exact IH.
Qed.

Lemma sort_perm (l : list A) : Permutation l (sort cmp l).
Proof.
  induction l as [|x t IH]; cbn [sort]; [constructor|].
  rewrite <- insert_perm. constructor. exact IH.
Qed.

End SortFacts.

(** ** Lexicographic order *)

Lemma lex_compare_eq (a b : str) : lex_compare a b = Eq <-> a = b.
Proof.
  revert b; induction a as [|x a IH]; intros [|y b]; cbn [lex_compare];
    try (split; discriminate); [tauto|].
  destruct (N.compare_spec x y) as [E|L|L].
  - subst y. rewrite IH. split; [intros ->; reflexivity|].
    intros E; injection E; auto.
  - split; [discriminate|]. intros E; injection E as E _. lia.
  - split; [discriminate|]. intros E; injection E as E _. lia.
Qed.

Lemma lex_compare_antisym (a b : str) :
  lex_compare b a = CompOpp (lex_compare a b).
Proof.
  revert b; induction a as [|x a IH]; intros [|y b]; cbn [lex_compare];
    try reflexivity.
  rewrite (N.compare_antisym x y).
  destruct (x ?= y)%N; cbn [CompOpp]; [apply IH | reflexivity | reflexivity].
Qed.


Lemma lex_le_total (a b : str) : lex_le a b \/ lex_le b a.
Proof.
  unfold lex_le. rewrite (lex_compare_antisym a b).
  destruct (lex_compare a b); cbn [CompOpp];
    [left | left | right]; discriminate.
Qed.

(** ** A consistent comparator sorts, and sorts stably *)

Section StableSort.
Variable A : Type.
Variable key : A -> str.
Variable collate : str -> str -> Z.
Hypothesis collate_antisym :
  forall a b, (collate a b ?= 0)%Z = CompOpp (collate b a ?= 0)%Z.
Hypothesis collate_trans :
  forall a b c,
    (collate a b <= 0)%Z -> (collate b c <= 0)%Z -> (collate a c <= 0)%Z.

Let cmp (a b : A) : Z := collate (key a) (key b).






End StableSort.




(** ** The conversion *)


Section Conversion.
Context {host : Host}.


(** Step 6 never throws; what it issues and reports is a [Marking]. *)
Lemma markPlanner_run (params : ConvertParams.t) (st : State) :
  exists status marking st',
    markPlanner params st = (inr status, st') /\
    trace st' = trace st ++ marking /\
    if ConvertParams.markPlannerComplete params
    then Marking (ConvertParams.plannerTaskId params) marking status
    else marking = [] /\ status = lit "unchanged".
Proof.
  unfold markPlanner.
  destruct (ConvertParams.markPlannerComplete params).
  - unfold try_catch, bind at 1. rewrite fetchJson_run.
    set (id := ConvertParams.plannerTaskId params).
    set (r1 := fst (graphRequest (refetchRequest id) (world st))).
    destruct (decoded parseTaskData r1) as [taskData|] eqn:Hd.
    + unfold bind. rewrite call_run. cbn [world trace].
      set (req := completeRequest id _).
      destruct (fst (graphRequest req _)) as [m|c] eqn:Hr2; cbn [ret].
      * eexists _, [_; _], _. split; [reflexivity|]. cbn [trace].
        split; [rewrite <- app_assoc; reflexivity|].
        apply update_failed; exact Hd.
      * eexists _, [_; _], _. split; [reflexivity|]. cbn [trace].
        split; [rewrite <- app_assoc; reflexivity|].
        apply update_done; exact Hd.
    + cbn [ret]. eexists _, [_], _. split; [reflexivity|]. cbn [trace].
      split; [reflexivity|]. apply refetch_failed; exact Hd.
  - exists (lit "unchanged"), [], st. cbn. rewrite app_nil_r. auto.
Qed.

End Conversion.

Section ConversionRuns.
Context {host : Host}.

(** Steps 5 and 6 never throw.  They issue one creation request per
    checklist item, in the sorted order, then the requests of the marking
    step; the result is built from the outcomes. *)
Lemma finishConversion_run (params : ConvertParams.t) (c : Created.t)
  (st1 : State) :
  exists attempts marking status st2,
    finishConversion params c st1 =
      (inr (conversionResult c (outcomes (sortedChecklist c) attempts) status),
       st2) /\
    trace st2 = trace st1 ++ attempts ++ marking /\
    map fst attempts =
      map (checklistRequest (Created.listId c)
             (TodoTask.id (Created.createdTodoTask c))) (sortedChecklist c) /\
    if ConvertParams.markPlannerComplete params
    then Marking (ConvertParams.plannerTaskId params) marking status
    else marking = [] /\ status = lit "unchanged".
Proof.
  assert (Hloop : exists attempts st',
    createChecklist c st1 = (inr (outcomes (sortedChecklist c) attempts), st') /\
    trace st' = trace st1 ++ attempts /\
    map fst attempts =
      map (checklistRequest (Created.listId c)
             (TodoTask.id (Created.createdTodoTask c))) (sortedChecklist c)).
  { unfold createChecklist, sortedChecklist.
    destruct (Created.taskDetails c) as [d|].
    - destruct (PlannerTaskDetails.checklist d) as [checklist|].
      + apply (createChecklistItems_run _ _ (sortedItems checklist) [] st1).
      + exists [], st1. cbn. rewrite app_nil_r. auto.
    - exists [], st1. cbn. rewrite app_nil_r. auto. }
  destruct Hloop as (attempts & st' & Hrun & Htrace & Hreqs).
  destruct (markPlanner_run params st')
    as (status & marking & st2 & Hmark & Htrace2 & Hcases).
  exists attempts, marking, status, st2.
  unfold finishConversion, bind. rewrite Hrun, Hmark. cbn [ret].
  split; [reflexivity|]. split; [|split; assumption].
  rewrite Htrace2, Htrace, <- app_assoc. reflexivity.
Qed.

(** Once steps 1 to 4 have succeeded the tool answers with the result of
    steps 5 and 6. *)
Lemma convert_after_create (params : ConvertParams.t) (st st1 : State)
  (c : Created.t) :
  createTodoTask params st = (inr c, st1) ->
  convertPlannerTaskToTodo params st =
  (match fst (finishConversion params c st1) with
   | inr result => inr (Converted result)
   | inl error => inr (ConversionFailed error)
   end, snd (finishConversion params c st1)).
Proof.
  intros Hc. unfold convertPlannerTaskToTodo, try_catch, bind.
  rewrite Hc. destruct (finishConversion params c st1) as [[e|r] st2];
    reflexivity.
Qed.

End ConversionRuns.



Section HintOrder.
Context {host : Host}.

Lemma sortedChecklist_sort (c : Created.t) :
  sortedChecklist c =
  sort (fun a b => localeCompare (hint a) (hint b)) (checklistOf c).
Proof.
  unfold sortedChecklist, checklistOf, sortedItems.
  destruct (Created.taskDetails c) as [d|]; [|reflexivity].
  destruct (PlannerTaskDetails.checklist d); reflexivity.
Qed.

End HintOrder.






(** ** The search loop *)

Section SearchRuns.
Context {host : Host}.
Variable params : FindParams.t.

Let title : str := FindParams.title params.

Lemma titleIs_title (fields : Obj) :
  get fields (lit "title") = Some (JStr title) ->
  titleIs (JObj fields) title = inr true.
Proof.
  unfold titleIs, prop. intros ->. rewrite str_eqb_refl. reflexivity.
Qed.

Lemma titleIs_true (task : Json) :
  titleIs task title = inr true ->
  exists fields,
    task = JObj fields /\ get fields (lit "title") = Some (JStr title).
Proof.
  unfold titleIs, prop. destruct task as [| | | | |fields]; try discriminate.
  destruct (get fields (lit "title")) as [[| | |s| |]|] eqn:E;
    try discriminate.
  intros H. injection H as H. apply str_eqb_eq in H. subst s. eauto.
Qed.

Lemma titleIs_not_null (task : Json) :
  task <> JNull -> exists b, titleIs task title = inr b.
Proof.
  unfold titleIs, prop.
  destruct task as [| | | | |fields]; intros H;
    try (eexists; reflexivity); [congruence|].
  destruct (get fields (lit "title")) as [[| | |s| |]|]; eexists; reflexivity.
Qed.

Lemma titleIs_throws (task : Json) (e : Exn) :
  titleIs task title = inl e -> task = JNull.
Proof.
  unfold titleIs, prop.
  destruct task as [| | | | |fields]; try discriminate; [reflexivity|].
  destruct (get fields (lit "title")) as [[| | |s| |]|]; discriminate.
Qed.

(** The exact match that a scan reports is a task of the list scanned, with
    the title. *)
Lemma scanTasks_found (listId : str) (tasks : list Json) :
  forall (allMatches allMatches' : list FoundTask.t) (m : FoundTask.t),
    scanTasks title listId tasks allMatches = (allMatches', inr (Some m)) ->
    FoundTask.listId m = listId /\
    exists fields,
      FoundTask.task m = JObj fields /\
      get fields (lit "title") = Some (JStr title).
Proof.
  induction tasks as [|task rest IH]; intros a a' m; cbn [scanTasks].
  - discriminate.
  - destruct (titleIs task title) as [e|[|]] eqn:E.
    + discriminate.
    + intros H. injection H as _ <-. cbn [FoundTask.listId FoundTask.task].
      split; [reflexivity|]. apply titleIs_true. exact E.
    + apply IH.
Qed.

(** A scan reaches a task with the title when no element before it is
    [null]. *)
Lemma scanTasks_reaches (listId : str) (before : list Json) (fields : Obj)
  (rest : list Json) :
  Forall (fun e => e <> JNull) before ->
  get fields (lit "title") = Some (JStr title) ->
  forall allMatches : list FoundTask.t,
  exists allMatches' m,
    scanTasks title listId (before ++ JObj fields :: rest) allMatches
    = (allMatches', inr (Some m)).
Proof.
  intros Hb Ht. induction before as [|e before IH]; intros a;
    cbn [app scanTasks].
  - rewrite (titleIs_title _ Ht). eauto.
  - apply Forall_cons_iff in Hb. destruct Hb as [He Hb].
    destruct (titleIs_not_null He) as [[|] Hb']; rewrite Hb';
      [eauto | apply (IH Hb)].
Qed.

(** A scan of a result set without the title records its elements up to and
    including the first [null], and reports no exact match. *)
Lemma scanTasks_lacks (listId : str) (tasks : list Json) :
  (forall fields, In (JObj fields) tasks ->
                  get fields (lit "title") <> Some (JStr title)) ->
  forall allMatches : list FoundTask.t,
  exists outcome,
    scanTasks title listId tasks allMatches
    = (allMatches ++ tagged listId (upToNull tasks), outcome) /\
    forall m, outcome <> inr (Some m).
Proof.
  induction tasks as [|task rest IH]; intros H a.
  - exists (inr None). cbn. rewrite app_nil_r.
    split; [reflexivity | discriminate].
  - cbn [scanTasks]. destruct (titleIs task title) as [e|[|]] eqn:E.
    + apply titleIs_throws in E. subst task. exists (inl e).
      cbn [upToNull tagged map]. split; [reflexivity | discriminate].
    + apply titleIs_true in E. destruct E as (f & -> & Ht). exfalso.
      apply (H f); [left; reflexivity | exact Ht].
    + destruct (IH (fun f Hin => H f (or_intror Hin))
                  (a ++ [{| FoundTask.task := task;
                            FoundTask.listId := listId |}]))
        as (o & Hs & Ho).
      exists o. rewrite Hs. split; [|exact Ho].
      rewrite <- app_assoc.
      destruct task; try reflexivity. discriminate E.
Qed.

(** When the filter cannot be encoded every query throws before a request is
    made: nothing is searched. *)
Lemma searchLists_not_encoded :
  encodeURIComponent (filterOf params) = None ->
  forall (lists : list str) (allMatches : list FoundTask.t) (st : State),
    searchLists params lists allMatches st = (inr (allMatches, None), st).
Proof.
  intros Henc. induction lists as [|listId rest IH]; intros allMatches st.
  - reflexivity.
  - cbn [searchLists]. unfold bind, try_catch, searchList. rewrite Henc.
    cbn. apply IH.
Qed.

(** One turn of the outer loop: one request; the scan of its result set
    decides whether the loop goes on. *)
Lemma searchLists_cons (encoded listId : str) (rest : list str)
  (allMatches : list FoundTask.t) (st : State) :
  encodeURIComponent (filterOf params) = Some encoded ->
  let req :=
    GET (lit "/me/todo/lists/" ++ listId ++ lit "/tasks?$filter=" ++ encoded) in
  searchLists params (listId :: rest) allMatches st =
  match
    match resultSet (reply req st) with
    | Some tasks => scanTasks title listId tasks allMatches
    | None => (allMatches, inr None)
    end
  with
  | (allMatches', inr (Some m)) => (inr (allMatches', Some m), after req st)
  | (allMatches', _) => searchLists params rest allMatches' (after req st)
  end.
Proof.
  intros Henc req. cbn [searchLists]. unfold bind at 1, try_catch, searchList.
  rewrite Henc. unfold bind at 1. rewrite fetchJson_run. fold req.
  unfold resultSet, reply, after.
  destruct (decoded parseTasksData (fst (graphRequest req (world st))))
    as [data|]; [|reflexivity].
  destruct (TasksData.value data) as [tasks|]; [|reflexivity].
  cbn [ret]. fold title.
  destruct (scanTasks title listId tasks allMatches) as [a [e|[m|]]];
    reflexivity.
Qed.

(** The loop never throws.  Its requests are the queries of a prefix of the
    lists, in order, and a query whose result set holds the title behind no
    [null] is the last one. *)
Lemma searchLists_run :
  forall (lists : list str) (allMatches : list FoundTask.t) (st : State),
  exists r st' queries,
    searchLists params lists allMatches st = (inr r, st') /\
    trace st' = trace st ++ queries /\
    map (fun a => Some (fst a)) queries
      = map (listQuery params) (firstn (length queries) lists) /\
    forall i q resp,
      nth_error queries i = Some (q, resp) ->
      reachesTitle title resp ->
      length queries = S i /\
      exists m fields,
        snd r = Some m /\ nth_error lists i = Some (FoundTask.listId m) /\
        FoundTask.task m = JObj fields /\
        get fields (lit "title") = Some (JStr title).
Proof.
  destruct (encodeURIComponent (filterOf params)) as [encoded|] eqn:Henc.
  2:{ intros lists allMatches st. exists (allMatches, None), st, [].
      rewrite searchLists_not_encoded by assumption.
      rewrite app_nil_r.
      split; [reflexivity|]. split; [reflexivity|]. split; [reflexivity|].
      intros [|i] q resp H; discriminate H. }
  induction lists as [|listId rest IH]; intros allMatches st.
  - exists (allMatches, None), st, []. cbn [searchLists ret].
    rewrite app_nil_r.
    split; [reflexivity|]. split; [reflexivity|]. split; [reflexivity|].
    intros [|i] q resp H; discriminate H.
  - rewrite (@searchLists_cons encoded listId rest allMatches st Henc). cbv zeta.
    set (req := GET _).
    assert (Hq : listQuery params listId = Some req).
    { unfold listQuery. rewrite Henc. reflexivity. }
    set (resp := reply req st). set (st1 := after req st).
    assert (Hcont : forall allMatches',
      ~ reachesTitle title resp ->
      exists r st' queries,
        searchLists params rest allMatches' st1 = (inr r, st') /\
        trace st' = trace st ++ queries /\
        map (fun a => Some (fst a)) queries
          = map (listQuery params) (firstn (length queries) (listId :: rest)) /\
        forall i q resp',
          nth_error queries i = Some (q, resp') ->
          reachesTitle title resp' ->
          length queries = S i /\
          exists m fields,
            snd r = Some m /\
            nth_error (listId :: rest) i = Some (FoundTask.listId m) /\
            FoundTask.task m = JObj fields /\
            get fields (lit "title") = Some (JStr title)).
    { intros allMatches' Hno.
      destruct (IH allMatches' st1) as (r & st' & queries & Hrun & Htr & Hmap & Hex).
      exists r, st', ((req, resp) :: queries).
      split; [exact Hrun|]. split; [|split].
      - rewrite Htr. subst st1. cbn [after trace]. rewrite <- app_assoc.
        reflexivity.
      - cbn [length firstn map fst]. rewrite Hq, Hmap. reflexivity.
      - intros [|i] q resp' Hn Hx; cbn [nth_error] in Hn.
        + injection Hn as _ <-. contradiction.
        + destruct (Hex i q resp' Hn Hx) as (Hlen & m & f & Hm & Hnth & Ht).
          split; [cbn [length]; congruence|]. exists m, f. auto. }
    destruct (resultSet resp) as [tasks|] eqn:Hrs.
    2:{ apply Hcont. intros (b & f & r & H & _). congruence. }
    destruct (scanTasks title listId tasks allMatches) as [a [e|[m|]]] eqn:Hs.
    + apply Hcont. intros (b & f & r & H & Hb & Ht).
      rewrite Hrs in H. injection H as ->.
      destruct (@scanTasks_reaches listId b f r Hb Ht allMatches) as (a' & m & Hs').
      congruence.
    + destruct (scanTasks_found _ _ _ Hs) as (Hl & fields & Htask & Ht).
      exists (a, Some m), st1, [(req, resp)].
      split; [reflexivity|]. split; [reflexivity|]. split.
      * cbn. rewrite Hq. reflexivity.
      * intros [|i] q resp' Hn _; cbn [nth_error] in Hn.
        -- split; [reflexivity|]. exists m, fields. cbn [snd nth_error].
           rewrite Hl. auto.
        -- destruct i; discriminate Hn.
    + apply Hcont. intros (b & f & r & H & Hb & Ht).
      rewrite Hrs in H. injection H as ->.
      destruct (@scanTasks_reaches listId b f r Hb Ht allMatches) as (a' & m & Hs').
      congruence.
Qed.

(** As long as no result set holds the exact title the loop goes through
    all the lists, whatever the outcome of each query, and records the
    elements returned, list by list, up to and including a first [null]. *)
Lemma searchLists_exhaustive (encoded : str) :
  encodeURIComponent (filterOf params) = Some encoded ->
  forall (lists : list str) (allMatches : list FoundTask.t) (st : State),
  exists r st' queries,
    searchLists params lists allMatches st = (inr r, st') /\
    trace st' = trace st ++ queries /\
    (Forall (fun a => lacksTitle title (snd a)) queries ->
     map (fun a => Some (fst a)) queries = map (listQuery params) lists /\
     r = (allMatches ++ seenIn lists queries, None)).
Proof.
  intros Henc.
  induction lists as [|listId rest IH]; intros allMatches st.
  - exists (allMatches, None), st, []. cbn [searchLists ret].
    rewrite app_nil_r. split; [reflexivity|]. split; [reflexivity|].
    intros _. cbn. rewrite app_nil_r. auto.
  - rewrite (@searchLists_cons encoded listId rest allMatches st Henc). cbv zeta.
    set (req := GET _).
    assert (Hq : listQuery params listId = Some req).
    { unfold listQuery. rewrite Henc. reflexivity. }
    set (resp := reply req st). set (st1 := after req st).
    assert (Hcont : forall allMatches',
      (lacksTitle title resp ->
       allMatches' =
         allMatches ++ match resultSet resp with
                       | Some tasks => tagged listId (upToNull tasks)
                       | None => []
                       end) ->
      exists r st' queries,
        searchLists params rest allMatches' st1 = (inr r, st') /\
        trace st' = trace st ++ queries /\
        (Forall (fun a => lacksTitle title (snd a)) queries ->
         map (fun a => Some (fst a)) queries
           = map (listQuery params) (listId :: rest) /\
         r = (allMatches ++ seenIn (listId :: rest) queries, None))).
    { intros allMatches' Hall.
      destruct (IH allMatches' st1)
        as (r & st' & queries & Hrun & Htr & Hno).
      exists r, st', ((req, resp) :: queries).
      split; [exact Hrun|]. split.
      - rewrite Htr. subst st1. cbn [after trace].
        rewrite <- app_assoc. reflexivity.
      - intros Hf. apply Forall_cons_iff in Hf. destruct Hf as [Ha Hl].
        destruct (Hno Hl) as [Hmap Hr].
        split; [cbn [map fst]; rewrite Hq, Hmap; reflexivity|].
        rewrite Hr, (Hall Ha). unfold seenIn. cbn [combine flat_map fst snd].
        rewrite <- app_assoc. reflexivity. }
    destruct (resultSet resp) as [tasks|] eqn:Hrs.
    2:{ apply Hcont. intros _. rewrite app_nil_r. reflexivity. }
    destruct (scanTasks title listId tasks allMatches) as [a [e|[m|]]] eqn:Hs.
    + apply Hcont. intros Hlack.
      destruct (scanTasks_lacks listId tasks (fun f => Hlack tasks f Hrs)
                  allMatches) as (o & Hs' & _).
      congruence.
    + exists (a, Some m), st1, [(req, resp)].
      split; [reflexivity|]. split; [reflexivity|].
      intros Hf. apply Forall_cons_iff in Hf. destruct Hf as [Hlack _].
      cbn [snd] in Hlack.
      destruct (scanTasks_lacks listId tasks (fun f => Hlack tasks f Hrs)
                  allMatches) as (o & Hs' & Ho).
      rewrite Hs in Hs'. injection Hs' as _ <-. exfalso. exact (Ho m eq_refl).
    + apply Hcont. intros Hlack.
      destruct (scanTasks_lacks listId tasks (fun f => Hlack tasks f Hrs)
                  allMatches) as (o & Hs' & _).
      congruence.
Qed.

End SearchRuns.

Section FindRuns.
Context {host : Host}.

(** Once the lists are resolved the tool answers with the result of the
    search loop, or with the failure of building that result. *)
Lemma find_after_lists (params : FindParams.t) (st st0 : State)
  (lists : list str) :
  listsToSearch params st = (inr lists, st0) ->
  findTodoTask params st =
  (inr (match findResult params (fst (searched params lists st0))
                (snd (searched params lists st0)) with
        | inr response => response
        | inl error => FindFailed error
        end),
   snd (searchLists params lists [] st0)).
Proof.
  intros Hl. unfold findTodoTask, try_catch, bind, searched. rewrite Hl.
  destruct (searchLists_run params lists [] st0)
    as (r & st' & queries & Hrun & _).
  rewrite Hrun. cbn [fst snd].
  destruct (findResult params (fst r) (snd r)); reflexivity.
Qed.

(** The projection loop throws on [null] and on nothing else. *)
Lemma lightweight_eq (m : FoundTask.t) :
  lightweight m =
  if isNull (FoundTask.task m) then inl TypeError else inr (projection m).
Proof.
  unfold lightweight, lightweightFields, projection.
  destruct (FoundTask.task m) as [| | | | |fields]; try reflexivity.
  cbn [isNull fold_left flat_map prop fieldOf].
  destruct (get fields (lit "id")), (get fields (lit "title")),
           (get fields (lit "status")), (get fields (lit "importance")),
           (get fields (lit "dueDateTime")); reflexivity.
Qed.

Lemma lightweightMatches_eq (allMatches : list FoundTask.t) :
  lightweightMatches allMatches =
  if existsb (fun m => isNull (FoundTask.task m)) allMatches
  then inl TypeError
  else inr (map projection allMatches).
Proof.
  induction allMatches as [|m rest IH];
    cbn [lightweightMatches existsb map]; [reflexivity|].
  rewrite lightweight_eq.
  destruct (isNull (FoundTask.task m)); cbn [orb]; [reflexivity|].
  rewrite IH.
  destruct (existsb (fun m => isNull (FoundTask.task m)) rest); reflexivity.
Qed.

Lemma projection_ProjectionOf (m : FoundTask.t) : ProjectionOf m (projection m).
Proof.
  unfold ProjectionOf, projection. cbn [flat_map filter].
  destruct (fieldOf (FoundTask.task m) (lit "id")),
           (fieldOf (FoundTask.task m) (lit "title")),
           (fieldOf (FoundTask.task m) (lit "status")),
           (fieldOf (FoundTask.task m) (lit "importance")),
           (fieldOf (FoundTask.task m) (lit "dueDateTime"));
    repeat (split; [reflexivity|]); reflexivity.
Qed.

Lemma lightweightMatches_projections (allMatches : list FoundTask.t)
  (matches : list Obj) :
  lightweightMatches allMatches = inr matches ->
  Forall2 ProjectionOf allMatches matches.
Proof.
  rewrite lightweightMatches_eq.
  destruct (existsb _ allMatches); [discriminate|].
  intros E; injection E as <-.
  induction allMatches as [|m l IH]; cbn [map]; constructor;
    [apply projection_ProjectionOf | exact IH].
Qed.

End FindRuns.

(** C2, as the code has it. Let the find operation search the lists L1..Ln
    in order.  If the query of the list in position i is answered with a
    result set that holds a task whose title is exactly the query title, and
    no element before that task in the result set is [null], then the
    queries issued are those of L1..Li, in order, and no other: no query is
    issued against Li+1..Ln.  The tool then answers with an exact match of
    the list Li, a task with that title. *)
Theorem exact_match_short_circuits :
  forall (host : Host) (params : FindParams.t) (st st0 : State)
         (lists : list str) (i : nat) (q : Request) (resp : Response)
         (before : list Json) (fields : Obj) (rest : list Json),
    listsToSearch params st = (inr lists, st0) ->
    let queries :=
      skipn (length (trace st0)) (trace (snd (findTodoTask params st))) in
    nth_error queries i = Some (q, resp) ->
    resultSet resp = Some (before ++ JObj fields :: rest) ->
    Forall (fun e => e <> JNull) before ->
    get fields (lit "title") = Some (JStr (FindParams.title params)) ->
    trace (snd (findTodoTask params st)) = trace st0 ++ queries /\
    map (fun a => Some (fst a)) queries
      = map (listQuery params) (firstn (S i) lists) /\
    exists task Li,
      nth_error lists i = Some Li /\
      get task (lit "title") = Some (JStr (FindParams.title params)) /\
      fst (findTodoTask params st) = inr (ExactMatch (JObj task) Li).
Proof.
  intros host params st st0 lists i q resp before fields rest Hl queries.
  subst queries. rewrite (find_after_lists _ _ Hl). cbn [fst snd].
  unfold searched.
  destruct (searchLists_run params lists [] st0)
    as (r & st' & queries & Hrun & Htr & Hmap & Hex).
  rewrite Hrun. cbn [fst snd]. rewrite Htr.
  rewrite skipn_app, skipn_all, Nat.sub_diag. cbn [app skipn].
  intros Hn Hrs Hb Ht.
  assert (Hx : reachesTitle (FindParams.title params) resp).
  { exists before, fields, rest. auto. }
  destruct (Hex i q resp Hn Hx) as (Hlen & m & f & Hm & Hnth & Htask & Htitle).
  split; [reflexivity|]. split; [rewrite Hmap, Hlen; reflexivity|].
  exists f, (FoundTask.listId m).
  split; [exact Hnth|]. split; [exact Htitle|].
  unfold findResult. rewrite Hm, Htask. reflexivity.
Qed.

(** C2 on the sample host: the first list searched holds the exact title
    behind a task with another title, and the second list is not queried. *)
Lemma exact_match_short_circuits_witness :
  let params := Sample.findParams "#ENG - Tapped Hole" in
  let st0 := snd (listsToSearch params Sample.start) in
  let queries :=
    skipn (length (trace st0)) (trace (snd (findTodoTask params Sample.start))) in
  let resp :=
    Returned [TextContent
       (lit "/me/todo/lists/L1/tasks?$filter=status ne 'completed' and contains(title, 'Tapped')")] in
  listsToSearch params Sample.start = (inr [lit "L1"; lit "L2"], st0) /\
  @resultSet Sample.host resp
    = Some ([JObj (Sample.todo "Tapped Hole drawing")]
              ++ JObj (Sample.todo "#ENG - Tapped Hole") :: []) /\
  trace (snd (findTodoTask params Sample.start)) = trace st0 ++ queries /\
  map (fun a => Some (fst a)) queries
    = map (@listQuery Sample.host params) (firstn 1 [lit "L1"; lit "L2"]) /\
  exists task Li,
    nth_error [lit "L1"; lit "L2"] 0 = Some Li /\
    get task (lit "title") = Some (JStr (FindParams.title params)) /\
    fst (findTodoTask params Sample.start) = inr (ExactMatch (JObj task) Li).
Proof.
  intros params st0 queries resp.
  split; [reflexivity|]. split; [reflexivity|].
  apply (@exact_match_short_circuits Sample.host params Sample.start st0
           [lit "L1"; lit "L2"] 0
           (GET (lit "/me/todo/lists/L1/tasks?$filter=status ne 'completed' and contains(title, 'Tapped')"))
           resp
           [JObj (Sample.todo "Tapped Hole drawing")]
           (Sample.todo "#ENG - Tapped Hole") []);
    [reflexivity | reflexivity | reflexivity | | reflexivity].
  constructor; [discriminate | constructor].
Defined.

(** C2 as the specification words it fails on a result set that begins with
    [null]: the first list, L1, answers with [null] and then a task with the
    exact title; reading the title of [null] throws, the exception is caught
    by the loop, and the second list, L2, is queried all the same.  No exact
    match is reported. *)
Lemma null_before_exact_title_is_not_short_circuited :
  let params := Sample.findParams "Tapped Hole" in
  let st0 := snd (@listsToSearch Sample5.host params Sample5.start) in
  let queries :=
    skipn (length (trace st0))
          (trace (snd (@findTodoTask Sample5.host params Sample5.start))) in
  @listsToSearch Sample5.host params Sample5.start
    = (inr [lit "L1"; lit "L2"], st0) /\
  (exists q resp,
      nth_error queries 0 = Some (q, resp) /\
      @resultSet Sample5.host resp
        = Some [JNull; JObj (Sample.todo "Tapped Hole")] /\
      get (Sample.todo "Tapped Hole") (lit "title")
        = Some (JStr (FindParams.title params))) /\
  map (fun a => Some (fst a)) queries
    = map (@listQuery Sample5.host params) [lit "L1"; lit "L2"] /\
  fst (@findTodoTask Sample5.host params Sample5.start)
    = inr (FindFailed TypeError).
Proof.
  intros params st0 queries.
  split; [reflexivity|]. split; [|split; reflexivity].
  eexists _, _. split; [reflexivity|]. split; reflexivity.
Qed.

(** C10. In every partial-match response the entries are, in order, the
    projections of the matches of the search: each entry holds [listId] and
    then, of [id], [title], [status], [importance] and [dueDateTime], in
    this order, exactly those that are defined on the matched task, each
    with the task's value.  An entry has no other property, and a field that
    is undefined on the task is not a property of the entry at all. *)
Theorem partial_matches_are_lightweight :
  forall (host : Host) (params : FindParams.t) (st st0 : State)
         (lists : list str) (message : str) (matches : list Obj),
    listsToSearch params st = (inr lists, st0) ->
    fst (findTodoTask params st) = inr (PartialMatches message matches) ->
    Forall2
      (fun m entry =>
         let task := FoundTask.task m in
         map fst entry =
           lit "listId" ::
           filter (fun field => defined (fieldOf task field))
             [lit "id"; lit "title"; lit "status"; lit "importance";
              lit "dueDateTime"] /\
         get entry (lit "listId") = Some (JStr (FoundTask.listId m)) /\
         get entry (lit "id") = fieldOf task (lit "id") /\
         get entry (lit "title") = fieldOf task (lit "title") /\
         get entry (lit "status") = fieldOf task (lit "status") /\
         get entry (lit "importance") = fieldOf task (lit "importance") /\
         get entry (lit "dueDateTime") = fieldOf task (lit "dueDateTime"))
      (fst (searched params lists st0)) matches.
Proof.
  intros host params st st0 lists message matches Hl.
  rewrite (find_after_lists _ _ Hl). cbn [fst]. unfold findResult.
  destruct (snd (searched params lists st0)); [discriminate|].
  destruct (0 <? length (fst (searched params lists st0))); [|discriminate].
  destruct (lightweightMatches (fst (searched params lists st0)))
    as [e|lights] eqn:E; [discriminate|].
  intros H; injection H as _ <-.
  exact (lightweightMatches_projections _ E).
Qed.

(** C10 on the sample host: three partial matches, each with id, title and
    status and without importance and dueDateTime. *)
Lemma partial_matches_are_lightweight_witness :
  let params := Sample.findParams "Tapped Hole" in
  let st0 := snd (listsToSearch params Sample.start) in
  exists message matches,
    listsToSearch params Sample.start = (inr [lit "L1"; lit "L2"], st0) /\
    fst (findTodoTask params Sample.start)
      = inr (PartialMatches message matches) /\
    map (map fst) matches
      = [ [lit "listId"; lit "id"; lit "title"; lit "status"];
          [lit "listId"; lit "id"; lit "title"; lit "status"];
          [lit "listId"; lit "id"; lit "title"; lit "status"] ] /\
    Forall2
      (fun m entry =>
         let task := FoundTask.task m in
         map fst entry =
           lit "listId" ::
           filter (fun field => defined (fieldOf task field))
             [lit "id"; lit "title"; lit "status"; lit "importance";
              lit "dueDateTime"] /\
         get entry (lit "listId") = Some (JStr (FoundTask.listId m)) /\
         get entry (lit "id") = fieldOf task (lit "id") /\
         get entry (lit "title") = fieldOf task (lit "title") /\
         get entry (lit "status") = fieldOf task (lit "status") /\
         get entry (lit "importance") = fieldOf task (lit "importance") /\
         get entry (lit "dueDateTime") = fieldOf task (lit "dueDateTime"))
      (fst (searched params [lit "L1"; lit "L2"] st0)) matches.
Proof.
  intros params st0.
  destruct (fst (findTodoTask params Sample.start)) as [e|[t l|message matches|m k|e]]
    eqn:E; try (vm_compute in E; discriminate E).
  exists message, matches.
  split; [reflexivity|]. split; [reflexivity|].
  split; [vm_compute in E; injection E as _ <-; reflexivity|].
  apply (@partial_matches_are_lightweight Sample.host params Sample.start st0
           [lit "L1"; lit "L2"] message matches); [reflexivity | exact E].
Defined.

(** ** The text pass of the generator *)

Lemma search_None_cons (r : regex) (c : N) (t : str) :
  search r (c :: t) = None -> match_at r (c :: t) = None /\ search r t = None.
Proof.
  cbn [search]. destruct (match_at r (c :: t)); [discriminate|].
  destruct (search r t) as [[i n]|]; [discriminate|]. auto.
Qed.

(** A replacement without the [g] flag whose pattern has no match. *)
Lemma replace_no_match (r : regex) (f : str -> str) (s : str) :
  search r s = None -> replace r f s = s.
Proof. unfold replace. intros ->. reflexivity. Qed.

(** A replacement with the [g] flag whose pattern has no match. *)
Lemma replace_all_no_match (r : regex) (f : str -> str) (s : str) :
  search r s = None -> replace_all r f s = s.
Proof.
  unfold replace_all. induction s as [|c t IH]; intros H.
  - cbn [search] in H. cbn [replace_all_from].
    destruct (match_at r []); [discriminate H | reflexivity].
  - apply search_None_cons in H. destruct H as [Hm Ht].
    cbn [replace_all_from]. rewrite Hm, (IH Ht). reflexivity.
Qed.

(** *** A pattern cannot match a text that lacks one of its literals *)

Lemma lit_match_app (l s t : str) : lit_match l s = Some t -> s = l ++ t.
Proof.
  revert s; induction l as [|a l IH]; intros [|c s]; cbn [lit_match app];
    try discriminate.
  - intros E; injection E as <-; reflexivity.
  - intros E; injection E as <-; reflexivity.
  - destruct (N.eqb_spec a c) as [<-|]; [|discriminate].
    intros E. rewrite (IH _ E). reflexivity.
Qed.

(** A successful match hands a suffix of the input to its continuation. *)
Lemma mt_continues (r : regex) :
  forall (k : str -> option str) (s res : str),
    mt r k s = Some res -> exists pre s', s = pre ++ s' /\ k s' = Some res.
Proof.
  induction r as [|p|l|r1 IH1 r2 IH2|r IH|greedy p|r IH]; intros k s res;
    cbn [mt].
  - intros H. exists [], s. auto.
  - destruct s as [|c t]; [discriminate|].
    destruct (p c); [|discriminate]. intros H. exists [c], t. auto.
  - destruct (lit_match l s) as [t|] eqn:E; [|discriminate].
    intros H. exists l, t. split; [apply lit_match_app, E | exact H].
  - intros H. destruct (IH1 _ _ _ H) as (pre1 & s1 & -> & H1).
    destruct (IH2 _ _ _ H1) as (pre2 & s2 & -> & H2).
    exists (pre1 ++ pre2), s2. rewrite app_assoc. auto.
  - destruct (mt r k s) as [x|] eqn:E.
    + intros H; injection H as ->. apply (IH _ _ _ E).
    + intros H. exists [], s. auto.
  - destruct greedy.
    + induction s as [|c t IHs]; cbn [rep_greedy].
      * intros H. exists [], []. auto.
      * destruct (p c); [|intros H; exists [], (c :: t); auto].
        destruct (rep_greedy p k t) as [x|] eqn:E.
        -- intros H; injection H as ->.
           destruct (IHs eq_refl) as (pre & s' & -> & H').
           exists (c :: pre), s'. auto.
        -- intros H. exists [], (c :: t). auto.
    + induction s as [|c t IHs]; cbn [rep_lazy].
      * destruct (k []) eqn:E; [|discriminate].
        intros H; injection H as ->. exists [], []. auto.
      * destruct (k (c :: t)) eqn:E.
        -- intros H; injection H as ->. exists [], (c :: t). auto.
        -- destruct (p c); [|discriminate]. intros H.
           destruct (IHs H) as (pre & s' & -> & H').
           exists (c :: pre), s'. auto.
  - destruct (mt r Some s); [|discriminate]. intros H. exists [], s. auto.
Qed.

Lemma lit_match_starts_with (l s t : str) :
  lit_match l s = Some t -> starts_with l s = true.
Proof.
  revert s; induction l as [|a l IH]; intros [|c s]; cbn [lit_match starts_with];
    try discriminate; try reflexivity.
  destruct (a =? c)%N; [|discriminate]. apply IH.
Qed.

Lemma includes_app (pre s l : str) :
  starts_with l s = true -> includes (pre ++ s) l = true.
Proof.
  intros H. induction pre as [|c pre IH].
  - destruct s; cbn [app includes]; rewrite H; reflexivity.
  - cbn [app includes]. rewrite IH. apply orb_true_r.
Qed.

Lemma reads_Lit (l : str) (r : regex) : reads (Seq (Lit l) r) l.
Proof.
  intros s res. cbn [mt].
  destruct (lit_match l s) as [t|] eqn:E; [|discriminate]. intros _.
  apply (includes_app []), (lit_match_starts_with _ _ E).
Qed.

Lemma reads_Seq (r1 r2 : regex) (l : str) : reads r2 l -> reads (Seq r1 r2) l.
Proof.
  intros H s res. cbn [mt]. intros Hm.
  destruct (mt_continues r1 _ _ Hm) as (pre & s' & -> & H').
  (* the continuation of [r1] is the match of [r2] followed by [Some] *)
  revert H'. generalize (H s'). clear.
  intros H H'. specialize (H _ H').
  clear H'. induction pre as [|c pre IH]; [exact H|].
  cbn [app includes]. rewrite IH. apply orb_true_r.
Qed.

Lemma includes_tail (c : N) (t l : str) :
  includes (c :: t) l = false -> includes t l = false.
Proof.
  cbn [includes]. intros H. apply orb_false_iff in H. apply H.
Qed.

Lemma absent_no_match (r : regex) (l s : str) :
  reads r l -> includes s l = false -> search r s = None.
Proof.
  intros Hr. induction s as [|c t IH]; intros Hs.
  - cbn [search]. unfold match_at.
    destruct (mt r Some []) as [res|] eqn:E; [|reflexivity].
    rewrite (Hr _ _ E) in Hs. discriminate Hs.
  - cbn [search]. unfold match_at.
    destruct (mt r Some (c :: t)) as [res|] eqn:E.
    + rewrite (Hr _ _ E) in Hs. discriminate Hs.
    + rewrite (IH (includes_tail _ _ _ Hs)). reflexivity.
Qed.

(** The case the specification names: upstream renames a target schema (or
    drops the import, or emits no errors arrays).  The literal the pattern
    starts from is then absent from the text and the substitution does
    nothing. *)
Lemma absent_literal_is_noop (clientCode : str) :
  (includes clientCode (lit "'@zodios/core';") = false ->
   Generator.redirectImport clientCode = clientCode) /\
  (includes clientCode (lit "const microsoft_graph_attachment = z") = false ->
   Generator.relaxAttachment clientCode = clientCode) /\
  (includes clientCode (lit "const microsoft_graph_plannerAssignments = z")
     = false ->
   Generator.relaxPlannerAssignments clientCode = clientCode) /\
  (includes clientCode (lit "errors:") = false ->
   Generator.stripErrors clientCode = clientCode).
Proof.
  split; [|split; [|split]]; intros H.
  - apply replace_no_match.
    apply (@absent_no_match _ (lit "'@zodios/core';")); [|exact H].
    intros s res. cbn [Generator.re_import mt].
    destruct (lit_match _ s) as [t|] eqn:E; [|discriminate]. intros _.
    apply (includes_app []), (lit_match_starts_with _ _ E).
  - apply replace_no_match.
    apply (@absent_no_match _ (lit "const microsoft_graph_attachment = z"));
      [|exact H].
    apply reads_Lit.
  - apply replace_no_match.
    apply (@absent_no_match _
             (lit "const microsoft_graph_plannerAssignments = z")); [|exact H].
    apply reads_Lit.
  - apply replace_all_no_match.
    apply (@absent_no_match _ (lit "errors:")); [|exact H].
    unfold Generator.re_errors. apply reads_Seq, reads_Seq, reads_Lit.
Qed.

(** C9. The text pass is a total function of the generated text: it has no
    failing case.  Each of its four substitutions (the import redirect, the
    two schema relaxations, the stripping of the errors arrays) whose pattern
    finds no match in the text it is applied to leaves that text unchanged;
    when none of the four patterns matches, the text written back is the text
    read. *)
Theorem missing_pattern_is_silent_noop :
  forall clientCode : str,
    let c1 := Generator.redirectImport clientCode in
    let c2 := Generator.relaxAttachment c1 in
    let c3 := Generator.relaxPlannerAssignments c2 in
    Generator.postProcess clientCode = Generator.stripErrors c3 /\
    (search Generator.re_import clientCode = None -> c1 = clientCode) /\
    (search (Generator.re_schema "microsoft_graph_attachment") c1 = None ->
     c2 = c1) /\
    (search (Generator.re_schema "microsoft_graph_plannerAssignments") c2 = None ->
     c3 = c2) /\
    (search Generator.re_errors c3 = None -> Generator.stripErrors c3 = c3) /\
    (search Generator.re_import clientCode = None ->
     search (Generator.re_schema "microsoft_graph_attachment") clientCode = None ->
     search (Generator.re_schema "microsoft_graph_plannerAssignments") clientCode
       = None ->
     search Generator.re_errors clientCode = None ->
     Generator.postProcess clientCode = clientCode).
Proof.
  intros clientCode c1 c2 c3.
  split; [reflexivity|].
  split; [apply replace_no_match|].
  split; [apply replace_no_match|].
  split; [apply replace_no_match|].
  split; [apply replace_all_no_match|].
  intros H1 H2 H3 H4. unfold Generator.postProcess.
  unfold Generator.redirectImport. rewrite (@replace_no_match _ _ _ H1).
  unfold Generator.relaxAttachment. rewrite (@replace_no_match _ _ _ H2).
  unfold Generator.relaxPlannerAssignments. rewrite (@replace_no_match _ _ _ H3).
  apply replace_all_no_match, H4.
Qed.

(** C9 on a generated text that none of the four patterns matches. *)
Lemma missing_pattern_is_silent_noop_witness :
  let clientCode := lit "export const api = { path: '/me', method: 'get' };" in
  search Generator.re_import clientCode = None /\
  search (Generator.re_schema "microsoft_graph_attachment") clientCode = None /\
  search (Generator.re_schema "microsoft_graph_plannerAssignments") clientCode
    = None /\
  search Generator.re_errors clientCode = None /\
  Generator.postProcess clientCode = clientCode.
Proof.
  intros clientCode.
  assert (H1 : search Generator.re_import clientCode = None)
    by (vm_compute; reflexivity).
  assert (H2 : search (Generator.re_schema "microsoft_graph_attachment")
                 clientCode = None) by (vm_compute; reflexivity).
  assert (H3 : search (Generator.re_schema "microsoft_graph_plannerAssignments")
                 clientCode = None) by (vm_compute; reflexivity).
  assert (H4 : search Generator.re_errors clientCode = None)
    by (vm_compute; reflexivity).
  repeat (split; [assumption|]).
  exact (proj2 (proj2 (proj2 (proj2 (proj2
           (missing_pattern_is_silent_noop clientCode))))) H1 H2 H3 H4).
Defined.

(* ================================================================= *)
(** * Part V: further properties of the tools *)
(* ================================================================= *)

(** ** Steps 1 to 4 of the conversion *)

Section CreateRuns.
Context {host : Host}.

Notation "x <- m ;; k" := (bind m (fun x => k))
  (at level 61, m at next level, right associativity).

Lemma fetchJson_step {A} (req : Request) (decode : str -> option A) (st : State) :
  fetchJson req decode st =
  (match decoded decode (reply req st) with
   | Some a => inr a
   | None => inl (fetchError (reply req st))
   end, after req st).
Proof. apply fetchJson_run. Qed.

Lemma resolveList_eq (params : ConvertParams.t) (st : State) :
  resolveList params st =
  match ConvertParams.todoTaskListId params with
  | Some (c :: l) => (inr (c :: l), st)
  | _ =>
      (match decoded parseLists (reply listsRequest st) with
       | Some data =>
           match ListsData.value data with
           | Some lists =>
               match find isDefaultList lists with
               | Some tasksList => inr (TodoTaskList.id tasksList)
               | None => inl (Error (lit "Could not find default Tasks list"))
               end
           | None => inl (Error (lit "Could not find default Tasks list"))
           end
       | None => inl (fetchError (reply listsRequest st))
       end, after listsRequest st)
  end.
Proof.
  unfold resolveList.
  assert (H : (listsData <- fetchJson listsRequest parseLists ;;
               match ListsData.value listsData with
               | Some lists =>
                   match find isDefaultList lists with
                   | Some tasksList => ret (TodoTaskList.id tasksList)
                   | None =>
                       throw (Error (lit "Could not find default Tasks list"))
                   end
               | None => throw (Error (lit "Could not find default Tasks list"))
               end) st =
              (match decoded parseLists (reply listsRequest st) with
               | Some data =>
                   match ListsData.value data with
                   | Some lists =>
                       match find isDefaultList lists with
                       | Some tasksList => inr (TodoTaskList.id tasksList)
                       | None =>
                           inl (Error (lit "Could not find default Tasks list"))
                       end
                   | None => inl (Error (lit "Could not find default Tasks list"))
                   end
               | None => inl (fetchError (reply listsRequest st))
               end, after listsRequest st)).
  { unfold bind. rewrite fetchJson_step.
    destruct (decoded parseLists (reply listsRequest st)) as [data|];
      [|reflexivity].
    destruct (ListsData.value data) as [lists|]; [|reflexivity].
    destruct (find isDefaultList lists); reflexivity. }
  destruct (ConvertParams.todoTaskListId params) as [[|c l]|];
    [exact H | reflexivity | exact H].
Qed.

(** Steps 1 to 4, outcome by outcome. *)
Lemma createTodoTask_eq (params : ConvertParams.t) (st : State) :
  createTodoTask params st =
  let q1 := taskRequest params in
  match decoded parsePlannerTask (reply q1 st) with
  | None => (inl (fetchError (reply q1 st)), after q1 st)
  | Some plannerTask =>
      let st1 := after q1 st in
      let q2 := detailsRequest params in
      let taskDetails := detailsOf (reply q2 st1) in
      match resolveList params (after q2 st1) with
      | (inl e, st3) => (inl e, st3)
      | (inr listId, st3) =>
          let q4 :=
            createRequest listId
              (mapPlannerToTodo plannerTask taskDetails
                 (ConvertParams.addPlannerPrefix params)) in
          match decoded parseTodoTask (reply q4 st3) with
          | None => (inl (fetchError (reply q4 st3)), after q4 st3)
          | Some createdTodoTask =>
              (inr {| Created.plannerTask := plannerTask;
                      Created.taskDetails := taskDetails;
                      Created.listId := listId;
                      Created.createdTodoTask := createdTodoTask |},
               after q4 st3)
          end
      end
  end.
Proof.
  cbv zeta. unfold createTodoTask.
  fold (taskRequest params). fold (detailsRequest params).
  change (GET (lit "/me/todo/lists")) with listsRequest.
  change (fun l => str_eqb (TodoTaskList.wellknownListName l)
                           (lit "defaultList")) with isDefaultList.
  fold (resolveList params).
  unfold bind at 1. rewrite fetchJson_step.
  destruct (decoded parsePlannerTask (reply (taskRequest params) st))
    as [plannerTask|]; [|reflexivity].
  unfold bind at 1, try_catch. rewrite fetchJson_step.
  set (st1 := after (taskRequest params) st).
  assert (Hd : (match
                  (match decoded parseDetails (reply (detailsRequest params) st1)
                   with
                   | Some a => inr a
                   | None => inl (fetchError (reply (detailsRequest params) st1))
                   end, after (detailsRequest params) st1)
                with
                | (inr a, st') => (inr a, st')
                | (inl e, st') => ret None st'
                end) =
               (inr (detailsOf (reply (detailsRequest params) st1)),
                after (detailsRequest params) st1)).
  { unfold detailsOf.
    destruct (decoded parseDetails (reply (detailsRequest params) st1));
      reflexivity. }
  rewrite Hd; clear Hd.
  unfold bind at 1.
  destruct (resolveList params (after (detailsRequest params) st1))
    as [[e|listId] st3]; [reflexivity|].
  unfold bind. fold (createRequest listId
    (mapPlannerToTodo plannerTask
       (detailsOf (reply (detailsRequest params) st1))
       (ConvertParams.addPlannerPrefix params))).
  rewrite fetchJson_step.
  destruct (decoded parseTodoTask _); reflexivity.
Qed.

End CreateRuns.

Section CreateFacts.
Context {host : Host}.

Lemma resolveList_explicit (params : ConvertParams.t) (id : str) (st : State) :
  explicitList params = Some id -> resolveList params st = (inr id, st).
Proof.
  unfold explicitList. rewrite resolveList_eq.
  destruct (ConvertParams.todoTaskListId params) as [[|c l]|];
    try discriminate. intros E; injection E as <-. reflexivity.
Qed.

Lemma resolveList_default (params : ConvertParams.t) (st : State) :
  explicitList params = None ->
  resolveList params st =
  (match decoded parseLists (reply listsRequest st) with
   | Some data =>
       match defaultList data with
       | Some tasksList => inr (TodoTaskList.id tasksList)
       | None => inl (Error (lit "Could not find default Tasks list"))
       end
   | None => inl (fetchError (reply listsRequest st))
   end, after listsRequest st).
Proof.
  unfold explicitList, defaultList. rewrite resolveList_eq.
  destruct (ConvertParams.todoTaskListId params) as [[|c l]|];
    try discriminate; intros _;
    destruct (decoded parseLists (reply listsRequest st)) as [data|];
    try reflexivity;
    destruct (ListsData.value data); reflexivity.
Qed.

(** The creation request is never a checklist request. *)
Lemma createRequest_not_checklist (listId : str) (task : PlannerTask.t)
  (details : option PlannerTaskDetails.t) (addPrefix : bool)
  (listId' todoId : str) (item : ChecklistItem.t) :
  createRequest listId (mapPlannerToTodo task details addPrefix)
  <> checklistRequest listId' todoId item.
Proof.
  unfold createRequest, checklistRequest. intros E.
  injection E as _ E. apply (f_equal (@length _)) in E. revert E.
  unfold mapPlannerToTodo.
  destruct (PlannerTask.dueDateTime task) as [[|c d]|]; discriminate.
Qed.

Lemma GET_reads (url : str) (r : Response) : readsOrCreatesTask (GET url, r).
Proof. split; [discriminate|]. intros l t i E. discriminate E. Qed.

Lemma createRequest_creates (listId : str) (task : PlannerTask.t)
  (details : option PlannerTaskDetails.t) (addPrefix : bool) (r : Response) :
  readsOrCreatesTask
    (createRequest listId (mapPlannerToTodo task details addPrefix), r).
Proof.
  split; [discriminate|]. intros l t i. apply createRequest_not_checklist.
Qed.

(** Whatever their outcome, steps 1 to 4 issue at most four requests, none of
    which updates the source task or creates a checklist item. *)
Lemma createTodoTask_requests (params : ConvertParams.t) (st : State) :
  exists new,
    trace (snd (createTodoTask params st)) = trace st ++ new /\
    length new <= 4 /\ Forall readsOrCreatesTask new.
Proof.
  rewrite createTodoTask_eq. cbv zeta.
  set (q1 := taskRequest params). set (q2 := detailsRequest params).
  destruct (decoded parsePlannerTask (reply q1 st)) as [plannerTask|].
  2:{ exists [(q1, reply q1 st)]. cbn [snd after trace length].
      split; [reflexivity|]. split; [lia|].
      repeat constructor; apply GET_reads. }
  rewrite resolveList_eq.
  set (st2 := after q2 (after q1 st)).
  assert (Hpost : forall listId st3 extra,
    trace st3 = trace st ++ [(q1, reply q1 st); (q2, reply q2 (after q1 st))]
                ++ extra ->
    length extra <= 1 -> Forall readsOrCreatesTask extra ->
    exists new,
      trace (snd
        (let q4 := createRequest listId
                     (mapPlannerToTodo plannerTask
                        (detailsOf (reply q2 (after q1 st)))
                        (ConvertParams.addPlannerPrefix params)) in
         match decoded parseTodoTask (reply q4 st3) with
         | Some createdTodoTask =>
             (inr {| Created.plannerTask := plannerTask;
                     Created.taskDetails := detailsOf (reply q2 (after q1 st));
                     Created.listId := listId;
                     Created.createdTodoTask := createdTodoTask |},
              after q4 st3)
         | None => (inl (fetchError (reply q4 st3)), after q4 st3)
         end)) = trace st ++ new /\
      length new <= 4 /\ Forall readsOrCreatesTask new).
  { intros listId st3 extra Htr Hlen Hall. cbv zeta.
    set (q4 := createRequest listId _).
    exists ([(q1, reply q1 st); (q2, reply q2 (after q1 st))] ++ extra
            ++ [(q4, reply q4 st3)]).
    split; [|split].
    - destruct (decoded parseTodoTask (reply q4 st3)); cbn [snd after trace];
        rewrite Htr, <- !app_assoc; reflexivity.
    - cbn [app length]. rewrite length_app. cbn [length]. lia.
    - cbn [app]. constructor; [apply GET_reads|].
      constructor; [apply GET_reads|].
      apply Forall_app. split; [exact Hall|].
      constructor; [apply createRequest_creates | constructor]. }
  assert (Hfail : forall (e : Exn) (st3 : State) extra,
    trace st3 = trace st ++ [(q1, reply q1 st); (q2, reply q2 (after q1 st))]
                ++ extra ->
    length extra <= 1 -> Forall readsOrCreatesTask extra ->
    exists new,
      trace (snd (@inl Exn Created.t e, st3)) = trace st ++ new /\
      length new <= 4 /\ Forall readsOrCreatesTask new).
  { intros e st3 extra Htr Hlen Hall.
    exists ([(q1, reply q1 st); (q2, reply q2 (after q1 st))] ++ extra).
    split; [exact Htr|]. split; [cbn [app length]; lia|].
    cbn [app]. constructor; [apply GET_reads|].
    constructor; [apply GET_reads | exact Hall]. }
  assert (Htr2 : trace st2 =
            trace st ++ [(q1, reply q1 st); (q2, reply q2 (after q1 st))] ++ []).
  { subst st2. cbn [after trace app]. rewrite <- app_assoc. reflexivity. }
  assert (Htr3 : trace (after listsRequest st2) =
            trace st ++ [(q1, reply q1 st); (q2, reply q2 (after q1 st))]
            ++ [(listsRequest, reply listsRequest st2)]).
  { cbn [after trace]. rewrite Htr2. rewrite app_nil_r, <- app_assoc.
    reflexivity. }
  assert (Hone : Forall readsOrCreatesTask
                   [(listsRequest, reply listsRequest st2)]).
  { constructor; [apply GET_reads | constructor]. }
  destruct (ConvertParams.todoTaskListId params) as [[|c l]|].
  - destruct (decoded parseLists (reply listsRequest st2)) as [data|];
      [|eapply Hfail; [exact Htr3 | cbn; lia | exact Hone]].
    destruct (ListsData.value data) as [lists|];
      [|eapply Hfail; [exact Htr3 | cbn; lia | exact Hone]].
    destruct (find isDefaultList lists);
      [eapply Hpost | eapply Hfail]; first [exact Htr3 | cbn; lia | exact Hone].
  - eapply Hpost; [exact Htr2 | cbn; lia | constructor].
  - destruct (decoded parseLists (reply listsRequest st2)) as [data|];
      [|eapply Hfail; [exact Htr3 | cbn; lia | exact Hone]].
    destruct (ListsData.value data) as [lists|];
      [|eapply Hfail; [exact Htr3 | cbn; lia | exact Hone]].
    destruct (find isDefaultList lists);
      [eapply Hpost | eapply Hfail]; first [exact Htr3 | cbn; lia | exact Hone].
Qed.

(** The tool fails exactly when steps 1 to 4 fail. *)
Lemma convert_failed (params : ConvertParams.t) (st : State) (e : Exn) :
  fst (convertPlannerTaskToTodo params st) = inr (ConversionFailed e) ->
  convertPlannerTaskToTodo params st
    = (inr (ConversionFailed e), snd (createTodoTask params st)) /\
  fst (createTodoTask params st) = inl e.
Proof.
  destruct (createTodoTask params st) as [[e'|c] st1] eqn:Hc.
  - unfold convertPlannerTaskToTodo, try_catch, bind. rewrite Hc.
    cbn. intros E; injection E as <-. auto.
  - rewrite (convert_after_create _ _ Hc).
    destruct (finishConversion_run params c st1)
      as (attempts & marking & status & st2 & Hrun & _).
    rewrite Hrun. cbn. discriminate.
Qed.

End CreateFacts.

(** X1. When steps 1 to 4 succeed, the requests issued are the fetch of the
    source task, the fetch of its details, the fetch of the lists only when
    no list id was given, and one creation request, sent to the resolved list
    with the mapping of the fetched task and details as its body.  The
    resolved list is the given id, or else the first list flagged as the
    default list. *)
Theorem created_from_fetched :
  forall (host : Host) (params : ConvertParams.t) (st st' : State)
         (c : Created.t),
    createTodoTask params st = (inr c, st') ->
    exists r1 r2 r4 resolving,
      trace st' =
        trace st ++ [(taskRequest params, r1); (detailsRequest params, r2)]
        ++ resolving
        ++ [(createRequest (Created.listId c)
               (mapPlannerToTodo (Created.plannerTask c) (Created.taskDetails c)
                  (ConvertParams.addPlannerPrefix params)), r4)] /\
      decoded parsePlannerTask r1 = Some (Created.plannerTask c) /\
      Created.taskDetails c = detailsOf r2 /\
      decoded parseTodoTask r4 = Some (Created.createdTodoTask c) /\
      match explicitList params with
      | Some id => resolving = [] /\ Created.listId c = id
      | None =>
          exists r3 data tasksList,
            resolving = [(listsRequest, r3)] /\
            decoded parseLists r3 = Some data /\
            defaultList data = Some tasksList /\
            Created.listId c = TodoTaskList.id tasksList
      end.
Proof.
  intros host params st st' c. rewrite createTodoTask_eq. cbv zeta.
  set (q1 := taskRequest params). set (q2 := detailsRequest params).
  destruct (decoded parsePlannerTask (reply q1 st)) as [plannerTask|] eqn:H1;
    [|discriminate].
  set (st2 := after q2 (after q1 st)).
  assert (Htr2 : trace st2 =
            trace st ++ [(q1, reply q1 st); (q2, reply q2 (after q1 st))]).
  { subst st2. cbn [after trace]. rewrite <- app_assoc. reflexivity. }
  destruct (explicitList params) as [id|] eqn:Hx.
  - rewrite (resolveList_explicit _ _ Hx).
    set (q4 := createRequest id _).
    destruct (decoded parseTodoTask (reply q4 st2)) as [created|] eqn:H4;
      [|discriminate].
    intros E; injection E as <- <-.
    exists (reply q1 st), (reply q2 (after q1 st)), (reply q4 st2), [].
    cbn [Created.listId Created.plannerTask Created.taskDetails
         Created.createdTodoTask after trace app].
    rewrite Htr2, <- app_assoc.
    split; [reflexivity|]. split; [exact H1|]. split; [reflexivity|].
    split; [exact H4|]. split; reflexivity.
  - rewrite (resolveList_default _ _ Hx).
    destruct (decoded parseLists (reply listsRequest st2)) as [data|] eqn:H3;
      [|discriminate].
    destruct (defaultList data) as [tasksList|] eqn:Hd; [|discriminate].
    set (q4 := createRequest _ _).
    destruct (decoded parseTodoTask (reply q4 (after listsRequest st2)))
      as [created|] eqn:H4; [|discriminate].
    intros E; injection E as <- <-.
    exists (reply q1 st), (reply q2 (after q1 st)),
      (reply q4 (after listsRequest st2)),
      [(listsRequest, reply listsRequest st2)].
    cbn [Created.listId Created.plannerTask Created.taskDetails
         Created.createdTodoTask after trace app].
    rewrite Htr2, <- !app_assoc.
    split; [reflexivity|]. split; [exact H1|]. split; [reflexivity|].
    split; [exact H4|]. exists (reply listsRequest st2), data, tasksList. auto.
Qed.

Lemma created_from_fetched_witness :
  createTodoTask Sample.convertParams Sample.start
    = (inr Sample.created, Sample.afterCreate) /\
  exists r1 r2 r4 resolving,
    trace Sample.afterCreate =
      trace Sample.start
      ++ [(taskRequest Sample.convertParams, r1);
          (detailsRequest Sample.convertParams, r2)]
      ++ resolving
      ++ [(createRequest (Created.listId Sample.created)
             (mapPlannerToTodo (Created.plannerTask Sample.created)
                (Created.taskDetails Sample.created)
                (ConvertParams.addPlannerPrefix Sample.convertParams)), r4)] /\
    decoded (@parsePlannerTask Sample.host) r1
      = Some (Created.plannerTask Sample.created) /\
    Created.taskDetails Sample.created = @detailsOf Sample.host r2 /\
    decoded (@parseTodoTask Sample.host) r4
      = Some (Created.createdTodoTask Sample.created) /\
    match explicitList Sample.convertParams with
    | Some id => resolving = [] /\ Created.listId Sample.created = id
    | None =>
        exists r3 data tasksList,
          resolving = [(listsRequest, r3)] /\
          decoded (@parseLists Sample.host) r3 = Some data /\
          defaultList data = Some tasksList /\
          Created.listId Sample.created = TodoTaskList.id tasksList
    end.
Proof.
  split; [reflexivity|].
  apply (@created_from_fetched Sample.host Sample.convertParams Sample.start
           Sample.afterCreate Sample.created).
  reflexivity.
Defined.

(** X2. When the source task cannot be fetched or read, the conversion fails
    with that error after this one request: nothing else is requested. *)
Theorem source_fetch_failure_aborts :
  forall (host : Host) (params : ConvertParams.t) (st : State),
    decoded parsePlannerTask (reply (taskRequest params) st) = None ->
    convertPlannerTaskToTodo params st =
      (inr (ConversionFailed (fetchError (reply (taskRequest params) st))),
       after (taskRequest params) st) /\
    trace (snd (convertPlannerTaskToTodo params st)) =
      trace st ++ [(taskRequest params, reply (taskRequest params) st)].
Proof.
  intros host params st H.
  assert (E : convertPlannerTaskToTodo params st =
      (inr (ConversionFailed (fetchError (reply (taskRequest params) st))),
       after (taskRequest params) st)).
  { unfold convertPlannerTaskToTodo, try_catch, bind.
    rewrite createTodoTask_eq. cbv zeta. rewrite H. reflexivity. }
  split; [exact E|]. rewrite E. reflexivity.
Qed.

Lemma source_fetch_failure_aborts_witness :
  let params := SampleRuns.convertWith "T9" None true in
  decoded (@parsePlannerTask Sample.host)
    (reply (taskRequest params) Sample.start) = None /\
  convertPlannerTaskToTodo params Sample.start =
    (inr (ConversionFailed
            (fetchError (reply (taskRequest params) Sample.start))),
     after (taskRequest params) Sample.start) /\
  trace (snd (convertPlannerTaskToTodo params Sample.start)) =
    trace Sample.start
    ++ [(taskRequest params, reply (taskRequest params) Sample.start)].
Proof.
  intros params. split; [reflexivity|].
  apply (@source_fetch_failure_aborts Sample.host params Sample.start).
  reflexivity.
Defined.

(** X3. A failure to fetch or read the details does not fail the conversion:
    it goes on without details.  The body of the created task is then the
    four metadata lines alone, no checklist item is requested and the result
    reports "none" for the checklist. *)
Theorem details_failure_is_tolerated :
  forall (host : Host) (params : ConvertParams.t) (st st1 : State)
         (c : Created.t),
    createTodoTask params st = (inr c, st1) ->
    decoded parseDetails
      (reply (detailsRequest params) (after (taskRequest params) st)) = None ->
    Created.taskDetails c = None /\
    buildTaskBody (Created.plannerTask c) (Created.taskDetails c)
      = join newline (metadataLines (Created.plannerTask c)) /\
    exists result st2 marking,
      convertPlannerTaskToTodo params st = (inr (Converted result), st2) /\
      trace st2 = trace st1 ++ marking /\
      Forall (fun a => forall listId todoId item,
                fst a <> checklistRequest listId todoId item) marking /\
      TodoSummary.checklistItems (ConversionResult.todoTask result)
        = lit "none".
Proof.
  intros host params st st1 c Hc Hd.
  assert (Hnone : Created.taskDetails c = None).
  { revert Hc. rewrite createTodoTask_eq. cbv zeta.
    destruct (decoded parsePlannerTask _); [|discriminate].
    unfold detailsOf. rewrite Hd.
    destruct (resolveList params _) as [[e|listId] st3]; [discriminate|].
    destruct (decoded parseTodoTask _); [|discriminate].
    intros E; injection E as <- _. reflexivity. }
  split; [exact Hnone|]. split; [rewrite Hnone; reflexivity|].
  destruct (finishConversion_run params c st1)
    as (attempts & marking & status & st2 & Hrun & Htrace & Hreqs & Hmark).
  assert (Hs : sortedChecklist c = []).
  { unfold sortedChecklist. rewrite Hnone. reflexivity. }
  rewrite Hs in Hreqs, Hrun. cbn [map] in Hreqs.
  destruct attempts; [|discriminate Hreqs].
  exists (conversionResult c (outcomes [] []) status), st2, marking.
  rewrite (convert_after_create _ _ Hc), Hrun. cbn [fst snd].
  split; [reflexivity|]. split; [exact Htrace|]. split; [|reflexivity].
  destruct (ConvertParams.markPlannerComplete params).
  - destruct Hmark; repeat constructor; intros l t i E; discriminate E.
  - destruct Hmark as [-> _]. constructor.
Qed.

Lemma details_failure_is_tolerated_witness :
  let h := Sample2.host false (Some Sample.lists) in
  let st := Sample2.start false (Some Sample.lists) in
  let params := Sample.convertParams in
  let st1 := snd (@createTodoTask h params st) in
  let c := {| Created.plannerTask := Sample.task;
              Created.taskDetails := None;
              Created.listId := lit "L2";
              Created.createdTodoTask :=
                Created.createdTodoTask Sample.created |} in
  @createTodoTask h params st = (inr c, st1) /\
  decoded (@parseDetails h)
    (reply (detailsRequest params) (after (taskRequest params) st)) = None /\
  Created.taskDetails c = None /\
  buildTaskBody (Created.plannerTask c) (Created.taskDetails c)
    = join newline (metadataLines (Created.plannerTask c)) /\
  exists result st2 marking,
    @convertPlannerTaskToTodo h params st = (inr (Converted result), st2) /\
    trace st2 = trace st1 ++ marking /\
    Forall (fun a => forall listId todoId item,
              fst a <> checklistRequest listId todoId item) marking /\
    TodoSummary.checklistItems (ConversionResult.todoTask result) = lit "none".
Proof.
  intros h st params st1 c.
  split; [reflexivity|]. split; [reflexivity|].
  apply (@details_failure_is_tolerated h params st st1 c); reflexivity.
Defined.

(** X4. Without a list id, when the lists can be read but none of them is
    flagged as the default list, the conversion fails with "Could not find
    default Tasks list" after three requests (task, details, lists): no task
    is created. *)
Theorem missing_default_list_fails_before_creation :
  forall (host : Host) (params : ConvertParams.t) (st : State)
         (plannerTask : PlannerTask.t) (data : ListsData.t),
    explicitList params = None ->
    decoded parsePlannerTask (reply (taskRequest params) st) = Some plannerTask ->
    let st1 := after (taskRequest params) st in
    let st2 := after (detailsRequest params) st1 in
    decoded parseLists (reply listsRequest st2) = Some data ->
    defaultList data = None ->
    fst (convertPlannerTaskToTodo params st) =
      inr (ConversionFailed (Error (lit "Could not find default Tasks list"))) /\
    trace (snd (convertPlannerTaskToTodo params st)) =
      trace st ++ [(taskRequest params, reply (taskRequest params) st);
                   (detailsRequest params, reply (detailsRequest params) st1);
                   (listsRequest, reply listsRequest st2)].
Proof.
  intros host params st plannerTask data Hx H1 st1 st2 H3 Hd.
  unfold convertPlannerTaskToTodo, try_catch, bind.
  rewrite createTodoTask_eq. cbv zeta. rewrite H1.
  rewrite (resolveList_default _ _ Hx). fold st1. fold st2.
  rewrite H3, Hd. cbn [fst snd ret].
  split; [reflexivity|]. subst st2 st1. cbn [after trace].
  repeat rewrite <- app_assoc. reflexivity.
Qed.

Lemma missing_default_list_fails_before_creation_witness :
  let h := Sample2.host true (Some SampleRuns.otherLists) in
  let st := Sample2.start true (Some SampleRuns.otherLists) in
  let params := Sample.convertParams in
  let st1 := after (taskRequest params) st in
  let st2 := after (detailsRequest params) st1 in
  let data := {| ListsData.value := Some SampleRuns.otherLists |} in
  explicitList params = None /\
  decoded (@parsePlannerTask h) (reply (taskRequest params) st)
    = Some Sample.task /\
  decoded (@parseLists h) (reply listsRequest st2) = Some data /\
  defaultList data = None /\
  fst (@convertPlannerTaskToTodo h params st) =
    inr (ConversionFailed (Error (lit "Could not find default Tasks list"))) /\
  trace (snd (@convertPlannerTaskToTodo h params st)) =
    trace st ++ [(taskRequest params, reply (taskRequest params) st);
                 (detailsRequest params, reply (detailsRequest params) st1);
                 (listsRequest, reply listsRequest st2)].
Proof.
  intros h st params st1 st2 data.
  split; [reflexivity|]. split; [reflexivity|]. split; [reflexivity|].
  split; [reflexivity|].
  apply (@missing_default_list_fails_before_creation h params st Sample.task
           data); reflexivity.
Defined.

(** X5. A conversion that fails has issued at most four requests, and none
    of them updates the source task or creates a checklist item: the source
    task is never marked complete by a conversion that did not create the
    destination task. *)
Theorem failed_conversion_leaves_source_untouched :
  forall (host : Host) (params : ConvertParams.t) (st : State) (e : Exn),
    fst (convertPlannerTaskToTodo params st) = inr (ConversionFailed e) ->
    exists new,
      trace (snd (convertPlannerTaskToTodo params st)) = trace st ++ new /\
      length new <= 4 /\
      Forall (fun a =>
                method (fst a) <> Some PATCH /\
                forall listId todoId item,
                  fst a <> checklistRequest listId todoId item) new.
Proof.
  intros host params st e H.
  destruct (convert_failed _ _ H) as [E _]. rewrite E. cbn [snd].
  apply createTodoTask_requests.
Qed.

Lemma failed_conversion_leaves_source_untouched_witness :
  let params := SampleRuns.convertWith "T9" None true in
  fst (convertPlannerTaskToTodo params Sample.start)
    = inr (ConversionFailed SyntaxError) /\
  exists new,
    trace (snd (convertPlannerTaskToTodo params Sample.start))
      = trace Sample.start ++ new /\
    length new <= 4 /\
    Forall (fun a =>
              method (fst a) <> Some PATCH /\
              forall listId todoId item,
                fst a <> checklistRequest listId todoId item) new.
Proof.
  intros params. split; [reflexivity|].
  apply (@failed_conversion_leaves_source_untouched Sample.host params
           Sample.start SyntaxError).
  reflexivity.
Defined.

(** X6. With [markPlannerComplete] disabled, nothing is requested after the
    checklist items: the source task is neither refetched nor updated, and
    the result reports its disposition as "unchanged". *)
Theorem unmarked_conversion_leaves_source_alone :
  forall (host : Host) (params : ConvertParams.t) (st st1 : State)
         (c : Created.t),
    ConvertParams.markPlannerComplete params = false ->
    createTodoTask params st = (inr c, st1) ->
    exists result st2 attempts,
      convertPlannerTaskToTodo params st = (inr (Converted result), st2) /\
      trace st2 = trace st1 ++ attempts /\
      map fst attempts =
        map (checklistRequest (Created.listId c)
               (TodoTask.id (Created.createdTodoTask c))) (sortedChecklist c) /\
      PlannerSummary.status (ConversionResult.plannerTask result)
        = lit "unchanged".
Proof.
  intros host params st st1 c Hm Hc.
  destruct (finishConversion_run params c st1)
    as (attempts & marking & status & st2 & Hrun & Htrace & Hreqs & Hmark).
  rewrite Hm in Hmark. destruct Hmark as [-> ->].
  rewrite app_nil_r in Htrace.
  eexists _, st2, attempts.
  rewrite (convert_after_create _ _ Hc), Hrun. cbn [fst snd].
  split; [reflexivity|]. split; [exact Htrace|]. split; [exact Hreqs|].
  reflexivity.
Qed.

Lemma unmarked_conversion_leaves_source_alone_witness :
  let params := SampleRuns.convertWith "T1" None false in
  let st1 := snd (createTodoTask params Sample.start) in
  ConvertParams.markPlannerComplete params = false /\
  createTodoTask params Sample.start = (inr Sample.created, st1) /\
  exists result st2 attempts,
    convertPlannerTaskToTodo params Sample.start
      = (inr (Converted result), st2) /\
    trace st2 = trace st1 ++ attempts /\
    map fst attempts =
      map (checklistRequest (Created.listId Sample.created)
             (TodoTask.id (Created.createdTodoTask Sample.created)))
          (@sortedChecklist Sample.host Sample.created) /\
    PlannerSummary.status (ConversionResult.plannerTask result)
      = lit "unchanged".
Proof.
  intros params st1. split; [reflexivity|]. split; [reflexivity|].
  apply (@unmarked_conversion_leaves_source_alone Sample.host params
           Sample.start st1 Sample.created); reflexivity.
Defined.

(** X7. The draft carries the title (with the "[Planner] " prefix when asked
    for), a text body, the importance and the status, in that order.  A due
    date is added after them, in the UTC time zone, exactly when the source
    task has a due date that is not the empty string; otherwise the draft has
    no dueDateTime property at all. *)
Theorem draft_shape :
  forall (task : PlannerTask.t) (details : option PlannerTaskDetails.t)
         (addPrefix : bool),
    let draft := mapPlannerToTodo task details addPrefix in
    get draft (lit "title") =
      Some (JStr (if addPrefix then lit "[Planner] " ++ PlannerTask.title task
                  else PlannerTask.title task)) /\
    get draft (lit "body") =
      Some (JObj [ (lit "content", JStr (buildTaskBody task details));
                   (lit "contentType", JStr (lit "text")) ]) /\
    match PlannerTask.dueDateTime task with
    | Some (c :: d) =>
        map fst draft = [lit "title"; lit "body"; lit "importance";
                         lit "status"; lit "dueDateTime"] /\
        get draft (lit "dueDateTime") =
          Some (JObj [ (lit "dateTime", JStr (c :: d));
                       (lit "timeZone", JStr (lit "UTC")) ])
    | _ =>
        map fst draft = [lit "title"; lit "body"; lit "importance";
                         lit "status"] /\
        get draft (lit "dueDateTime") = None
    end.
Proof.
  intros task details addPrefix draft. subst draft. unfold mapPlannerToTodo.
  destruct (PlannerTask.dueDateTime task) as [[|c d]|];
    repeat split; reflexivity.
Qed.

(** ** The lists searched by find-todo-task *)

Section StableSortZ.
Variable A : Type.
Variable key : A -> Z.

Let byKey (a b : A) : Z := (key a - key b)%Z.

Lemma insertZ_sorted (x : A) (l : list A) :
  StronglySorted (fun a b => (key a <= key b)%Z) l ->
  StronglySorted (fun a b => (key a <= key b)%Z) (insert byKey x l).
Proof.
  induction 1 as [|y t Hs IH Hy]; cbn [insert].
  - repeat constructor.
  - unfold byKey at 1. destruct (Z.leb_spec (key x - key y) 0) as [L|L].
    + constructor; [constructor; assumption|].
      constructor; [lia|].
      eapply Forall_impl; [|exact Hy]. cbn. intros z Hz. lia.
    + constructor; [exact IH|].
      eapply Permutation_Forall; [apply insert_perm|].
      constructor; [lia | assumption].
Qed.

Lemma sortZ_sorted (l : list A) :
  StronglySorted (fun a b => (key a <= key b)%Z) (sort byKey l).
Proof.
  induction l as [|x t IH]; cbn [sort]; [constructor|].
  apply insertZ_sorted, IH.
Qed.

Lemma insertZ_stable (k : Z) (x : A) (l : list A) :
  filter (fun a => (key a =? k)%Z) (insert byKey x l) =
  filter (fun a => (key a =? k)%Z) (x :: l).
Proof.
  induction l as [|y t IH]; cbn [insert]; [reflexivity|].
  unfold byKey at 1. destruct (Z.leb_spec (key x - key y) 0) as [L|L];
    [reflexivity|].
  cbn [filter] in *. rewrite IH.
  destruct (Z.eqb_spec (key x) k), (Z.eqb_spec (key y) k);
    try reflexivity. lia.
Qed.

Lemma sortZ_stable (k : Z) (l : list A) :
  filter (fun a => (key a =? k)%Z) (sort byKey l) =
  filter (fun a => (key a =? k)%Z) l.
Proof.
  induction l as [|x t IH]; cbn [sort]; [reflexivity|].
  rewrite insertZ_stable. cbn [filter]. rewrite IH. reflexivity.
Qed.

End StableSortZ.

Section ListsFacts.
Context {host : Host}.

Lemma listsToSearch_explicit (params : FindParams.t) (id : str) (st : State) :
  explicitSearchList params = Some id ->
  listsToSearch params st = (inr [id], st).
Proof.
  unfold explicitSearchList, listsToSearch.
  destruct (FindParams.todoTaskListId params) as [[|c l]|]; try discriminate.
  intros E; injection E as <-. reflexivity.
Qed.

Lemma listsToSearch_all (params : FindParams.t) (st : State) :
  explicitSearchList params = None ->
  listsToSearch params st =
  (match decoded parseLists (reply listsRequest st) with
   | Some data =>
       match ListsData.value data with
       | Some lists =>
           inr (map TodoTaskList.id
                  (sort (fun a b => (score a - score b)%Z) lists))
       | None => inl TypeError
       end
   | None => inl (fetchError (reply listsRequest st))
   end, after listsRequest st).
Proof.
  unfold explicitSearchList, listsToSearch.
  destruct (FindParams.todoTaskListId params) as [[|c l]|];
    try discriminate; intros _; unfold bind;
    change (GET (lit "/me/todo/lists")) with listsRequest;
    rewrite fetchJson_step;
    destruct (decoded parseLists (reply listsRequest st)) as [data|];
    try reflexivity;
    destruct (ListsData.value data); reflexivity.
Qed.

End ListsFacts.

(** X8. When a list id is given, the lists are not fetched: at most one
    request is issued, the query of that list.  The tool can then fail in
    one way only, with the TypeError of reading a field of a [null] element
    of the result set. *)
Theorem explicit_list_is_the_only_one_searched :
  forall (host : Host) (params : FindParams.t) (st : State) (id : str),
    explicitSearchList params = Some id ->
    listsToSearch params st = (inr [id], st) /\
    (forall e, fst (findTodoTask params st) = inr (FindFailed e) ->
               e = TypeError) /\
    exists queries,
      trace (snd (findTodoTask params st)) = trace st ++ queries /\
      length queries <= 1 /\
      Forall (fun a => listQuery params id = Some (fst a)) queries.
Proof.
  intros host params st id Hx.
  pose proof (listsToSearch_explicit _ st Hx) as Hl.
  split; [exact Hl|]. rewrite (find_after_lists _ _ Hl). cbn [fst snd].
  split.
  - intros e. unfold findResult.
    destruct (snd (searched params [id] st)); [discriminate|].
    destruct (0 <? length (fst (searched params [id] st))); [|discriminate].
    rewrite lightweightMatches_eq.
    destruct (existsb _ (fst (searched params [id] st))); [|discriminate].
    intros E; injection E as <-. reflexivity.
  - destruct (searchLists_run params [id] [] st)
      as (r & st' & queries & Hrun & Htr & Hmap & _).
    exists queries. rewrite Hrun. cbn [snd]. split; [exact Htr|].
    destruct queries as [|a [|b queries]].
    + split; [cbn; lia | constructor].
    + split; [cbn; lia|]. cbn in Hmap. injection Hmap as Hq.
      constructor; [symmetry; exact Hq | constructor].
    + cbn in Hmap. discriminate Hmap.
Qed.

Lemma explicit_list_is_the_only_one_searched_witness :
  let params :=
    {| FindParams.title := lit "Tapped Hole";
       FindParams.todoTaskListId := Some (lit "L2");
       FindParams.includeCompleted := true |} in
  explicitSearchList params = Some (lit "L2") /\
  listsToSearch params Sample.start = (inr [lit "L2"], Sample.start) /\
  (forall e, fst (findTodoTask params Sample.start) = inr (FindFailed e) ->
             e = TypeError) /\
  exists queries,
    trace (snd (findTodoTask params Sample.start))
      = trace Sample.start ++ queries /\
    length queries <= 1 /\
    Forall (fun a => @listQuery Sample.host params (lit "L2") = Some (fst a))
      queries.
Proof.
  intros params. split; [reflexivity|].
  apply (@explicit_list_is_the_only_one_searched Sample.host params
           Sample.start (lit "L2")).
  reflexivity.
Defined.

(** X9. Without a list id, the lists are fetched with one request and
    searched in the order of their score: 0 to 3 for the first of "ROI",
    "Goal Phase", "Ad-Hoc", "Tasks" that the display name contains, 999 for a
    name that contains none of them.  Lists with the same score keep the
    order of the response. *)
Theorem lists_are_searched_by_priority :
  forall (host : Host) (params : FindParams.t) (st : State)
         (data : ListsData.t) (lists : list TodoTaskList.t),
    explicitSearchList params = None ->
    decoded parseLists (reply listsRequest st) = Some data ->
    ListsData.value data = Some lists ->
    (forall l,
        score l =
        let name := TodoTaskList.displayName l in
        if includes name (lit "ROI") then 0
        else if includes name (lit "Goal Phase") then 1
        else if includes name (lit "Ad-Hoc") then 2
        else if includes name (lit "Tasks") then 3
        else 999)%Z /\
    exists sorted,
      listsToSearch params st
        = (inr (map TodoTaskList.id sorted), after listsRequest st) /\
      Permutation lists sorted /\
      StronglySorted (fun a b => (score a <= score b)%Z) sorted /\
      forall k, filter (fun l => (score l =? k)%Z) sorted
                = filter (fun l => (score l =? k)%Z) lists.
Proof.
  intros host params st data lists Hx Hd Hv. split.
  - intros l. unfold score, priorityOrder. cbn [findIndex]. cbv zeta.
    destruct (includes _ (lit "ROI")); [reflexivity|].
    destruct (includes _ (lit "Goal Phase")); [reflexivity|].
    destruct (includes _ (lit "Ad-Hoc")); [reflexivity|].
    destruct (includes _ (lit "Tasks")); reflexivity.
  - exists (sort (fun a b => (score a - score b)%Z) lists).
    rewrite (listsToSearch_all _ st Hx), Hd, Hv.
    split; [reflexivity|]. split; [apply sort_perm|].
    split; [apply sortZ_sorted|]. intros k. apply sortZ_stable.
Qed.

Lemma lists_are_searched_by_priority_witness :
  let params := Sample.findParams "Tapped Hole" in
  let data := {| ListsData.value := Some Sample.lists |} in
  explicitSearchList params = None /\
  decoded (@parseLists Sample.host) (reply listsRequest Sample.start)
    = Some data /\
  listsToSearch params Sample.start
    = (inr [lit "L1"; lit "L2"], after listsRequest Sample.start) /\
  (forall l,
      score l =
      let name := TodoTaskList.displayName l in
      if includes name (lit "ROI") then 0
      else if includes name (lit "Goal Phase") then 1
      else if includes name (lit "Ad-Hoc") then 2
      else if includes name (lit "Tasks") then 3
      else 999)%Z /\
  exists sorted,
    listsToSearch params Sample.start
      = (inr (map TodoTaskList.id sorted), after listsRequest Sample.start) /\
    Permutation Sample.lists sorted /\
    StronglySorted (fun a b => (score a <= score b)%Z) sorted /\
    forall k, filter (fun l => (score l =? k)%Z) sorted
              = filter (fun l => (score l =? k)%Z) Sample.lists.
Proof.
  intros params data.
  split; [reflexivity|]. split; [reflexivity|]. split; [reflexivity|].
  apply (@lists_are_searched_by_priority Sample.host params Sample.start data
           Sample.lists); reflexivity.
Defined.

(** ** A search that finds no exact match *)

(** X10. When the lists are resolved and no query is answered with a result
    set that holds a task with the exact title, every list is queried, in
    order, whether or not the queries before it failed.  The loop records,
    list by list, the elements of each result set up to and including its
    first [null].  The tool then answers with a "no match" result that
    carries the derived search keyword when nothing was recorded; with a
    failure, the TypeError of reading a field of [null], when a [null] was
    recorded; and otherwise with the projections of all the tasks recorded,
    in the order they were seen. *)
Theorem search_without_exact_match_is_exhaustive :
  forall (host : Host) (params : FindParams.t) (st st0 : State)
         (lists : list str) (encoded : str),
    listsToSearch params st = (inr lists, st0) ->
    encodeURIComponent (filterOf params) = Some encoded ->
    let queries :=
      skipn (length (trace st0)) (trace (snd (findTodoTask params st))) in
    Forall (fun a => lacksTitle (FindParams.title params) (snd a)) queries ->
    trace (snd (findTodoTask params st)) = trace st0 ++ queries /\
    map (fun a => Some (fst a)) queries = map (listQuery params) lists /\
    exists message,
      fst (findTodoTask params st) =
      inr (match seenIn lists queries with
           | [] => NoMatches message
                     (Keyword.searchKeyword (FindParams.title params))
           | _ :: _ =>
               if existsb (fun m => isNull (FoundTask.task m))
                    (seenIn lists queries)
               then FindFailed TypeError
               else PartialMatches message
                      (map projection (seenIn lists queries))
           end).
Proof.
  intros host params st st0 lists encoded Hl Henc queries.
  subst queries. rewrite (find_after_lists _ _ Hl). cbn [fst snd].
  unfold searched.
  destruct (searchLists_exhaustive params Henc lists [] st0)
    as (r & st' & queries & Hrun & Htr & Hno).
  rewrite Hrun. cbn [fst snd]. rewrite Htr.
  rewrite skipn_app, skipn_all, Nat.sub_diag. cbn [app skipn].
  intros Hf. destruct (Hno Hf) as [Hmap ->]. cbn [app fst snd].
  split; [reflexivity|]. split; [exact Hmap|].
  unfold findResult. rewrite lightweightMatches_eq.
  destruct (seenIn lists queries) as [|m seen] eqn:Hseen;
    cbn [length Nat.ltb Nat.leb]; [eexists; reflexivity|].
  destruct (existsb _ (m :: seen)); [exists [] | eexists]; reflexivity.
Qed.

Lemma search_without_exact_match_is_exhaustive_witness :
  let params := Sample.findParams "Tapped Hole" in
  let st0 := snd (listsToSearch params Sample.start) in
  let lists := [lit "L1"; lit "L2"] in
  let queries :=
    skipn (length (trace st0)) (trace (snd (findTodoTask params Sample.start))) in
  listsToSearch params Sample.start = (inr lists, st0) /\
  @encodeURIComponent Sample.host (filterOf params)
    = Some (filterOf params) /\
  Forall (fun a => @lacksTitle Sample.host (FindParams.title params) (snd a))
    queries /\
  length queries = 2 /\
  length (@seenIn Sample.host lists queries) = 3 /\
  trace (snd (findTodoTask params Sample.start)) = trace st0 ++ queries /\
  map (fun a => Some (fst a)) queries
    = map (@listQuery Sample.host params) lists /\
  exists message,
    fst (findTodoTask params Sample.start) =
    inr (match @seenIn Sample.host lists queries with
         | [] => NoMatches message
                   (Keyword.searchKeyword (FindParams.title params))
         | _ :: _ =>
             if existsb (fun m => isNull (FoundTask.task m))
                  (@seenIn Sample.host lists queries)
             then FindFailed TypeError
             else PartialMatches message
                    (map projection (@seenIn Sample.host lists queries))
         end).
Proof.
  intros params st0 lists queries.
  assert (Hf : Forall (fun a => @lacksTitle Sample.host
                                  (FindParams.title params) (snd a))
                 queries).
  { assert (Hq : queries =
      [ (GET (lit "/me/todo/lists/L1/tasks?$filter=status ne 'completed' and contains(title, 'Tapped')"),
         Returned [TextContent (lit "/me/todo/lists/L1/tasks?$filter=status ne 'completed' and contains(title, 'Tapped')")]);
        (GET (lit "/me/todo/lists/L2/tasks?$filter=status ne 'completed' and contains(title, 'Tapped')"),
         Returned [TextContent (lit "/me/todo/lists/L2/tasks?$filter=status ne 'completed' and contains(title, 'Tapped')")]) ])
      by reflexivity.
    rewrite Hq.
    constructor; [|constructor; [|constructor]];
      intros tasks fields Hrs Hin; vm_compute in Hrs; injection Hrs as <-;
      repeat (destruct Hin as [Hin|Hin]; [injection Hin as <-; vm_compute; discriminate|]);
      destruct Hin. }
  split; [reflexivity|]. split; [reflexivity|]. split; [exact Hf|].
  split; [reflexivity|]. split; [reflexivity|].
  apply (@search_without_exact_match_is_exhaustive Sample.host params
           Sample.start st0 lists (filterOf params));
    [reflexivity | reflexivity | exact Hf].
Defined.

(** ** The filter and the keyword *)

Lemma replace_all_Cls (p : N -> bool) (x s : str) :
  replace_all (Cls p) (fun _ => x) s =
  flat_map (fun c => if p c then x else [c]) s.
Proof.
  unfold replace_all. induction s as [|c t IH]; [reflexivity|].
  cbn [replace_all_from flat_map]. rewrite match_at_Cls.
  destruct (p c); cbn [replace_all_from app]; rewrite IH; reflexivity.
Qed.

Lemma unescape_pair (x : str) :
  unescapeQuotes (39%N :: 39%N :: x) = 39%N :: unescapeQuotes x.
Proof. reflexivity. Qed.

Lemma unescape_other (c : N) (x : str) :
  c <> 39%N -> unescapeQuotes (c :: x) = c :: unescapeQuotes x.
Proof.
  intros Hc. destruct x as [|d x]; [reflexivity|].
  cbn [unescapeQuotes]. destruct (N.eqb_spec c 39); [contradiction|].
  reflexivity.
Qed.

Lemma unescape_doubled (s : str) :
  unescapeQuotes (flat_map (fun c => if (39 =? c)%N then lit "''" else [c]) s)
  = s.
Proof.
  induction s as [|c t IH]; [reflexivity|].
  cbn [flat_map]. destruct (N.eqb_spec 39 c) as [<-|Hc].
  - change (lit "''") with [39%N; 39%N] in *. cbn [app].
    rewrite unescape_pair, IH. reflexivity.
  - cbn [app]. rewrite unescape_other by congruence. rewrite IH. reflexivity.
Qed.

(** X11. The filter sent to the server is, after the exclusion of completed
    tasks unless they are asked for, [contains(title, '...')] around the
    keyword with every single quote doubled; undoing the doubling gives the
    keyword back, so a quote in the title cannot close the literal early. *)
Theorem filter_doubles_quotes :
  forall params : FindParams.t,
    let keyword := Keyword.searchKeyword (FindParams.title params) in
    let escaped :=
      flat_map (fun c => if (39 =? c)%N then lit "''" else [c]) keyword in
    filterOf params =
      (if FindParams.includeCompleted params then lit ""
       else lit "status ne 'completed' and ")
      ++ lit "contains(title, '" ++ escaped ++ lit "')" /\
    unescapeQuotes escaped = keyword.
Proof.
  intros params keyword escaped. split.
  - unfold filterOf. rewrite replace_all_Cls. reflexivity.
  - apply unescape_doubled.
Qed.

Lemma tokens_from_Forall (P : N -> Prop) (s : str) :
  forall acc,
    Forall P acc ->
    (forall c, In c s -> is_space c = false -> P c) ->
    Forall (Forall P) (KeywordSpec.tokens_from acc s).
Proof.
  induction s as [|c t IH]; intros acc Hacc Hs; cbn [KeywordSpec.tokens_from].
  - destruct acc; [constructor|].
    constructor; [apply Forall_rev; exact Hacc | constructor].
  - assert (Ht : forall c', In c' t -> is_space c' = false -> P c').
    { intros c' Hin. apply Hs. right; exact Hin. }
    destruct (is_space c) eqn:Hc.
    + destruct acc.
      * apply IH; [constructor | exact Ht].
      * constructor; [apply Forall_rev; exact Hacc|].
        apply IH; [constructor | exact Ht].
    + apply IH; [|exact Ht].
      constructor; [apply Hs; [left; reflexivity | exact Hc] | exact Hacc].
Qed.

Lemma tokens_are_words (s : str) :
  Forall (Forall (fun c => is_word c = true))
         (KeywordSpec.tokens (KeywordSpec.blank_non_word s)).
Proof.
  apply tokens_from_Forall; [constructor|].
  unfold KeywordSpec.blank_non_word. intros c Hin Hc.
  apply in_map_iff in Hin. destruct Hin as (c0 & E & _).
  destruct (is_word c0) eqn:Hw; subst c; [exact Hw|].
  discriminate Hc.
Qed.

(** X12. The search keyword is either a run of more than 3 word characters
    (letters, digits, underscore), or the first 20 characters of the raw
    title; it is empty only for the empty title. *)
Theorem keyword_is_a_word_or_a_prefix :
  forall title : str,
    let keyword := Keyword.searchKeyword title in
    ((Forall (fun c => is_word c = true) keyword /\ 3 < length keyword) \/
     keyword = firstn 20 title) /\
    (keyword = [] <-> title = []).
Proof.
  intros title keyword. subst keyword. rewrite searchKeyword_refines.
  unfold KeywordSpec.keyword.
  pose proof (tokens_are_words (KeywordSpec.strip_hashtags title)) as Hw.
  destruct (find _ _) as [w|] eqn:F.
  - apply find_some in F. destruct F as [Hin Hlen].
    apply Nat.ltb_lt in Hlen.
    rewrite Forall_forall in Hw. specialize (Hw _ Hin).
    split; [left; auto|].
    split; [intros ->; cbn in Hlen; lia|].
    intros ->. cbn in Hin. destruct Hin.
  - split; [right; reflexivity|].
    destruct title; [tauto|]. cbn. split; discriminate.
Qed.

(** ** The keyword occurs in the title *)

Lemma is_word_not_space (c : N) : is_word c = true -> is_space c = false.
Proof.
  intros Hw. apply not_true_is_false. intros Hs. revert Hw Hs.
  unfold is_word, is_space. cbn [existsb].
  repeat rewrite ?orb_true_iff, ?andb_true_iff, ?N.leb_le, ?N.eqb_eq.
  lia.
Qed.

Lemma starts_with_app (k post : str) : starts_with k (k ++ post) = true.
Proof.
  induction k as [|c k IH]; [reflexivity|].
  cbn [app starts_with]. rewrite N.eqb_refl, IH. reflexivity.
Qed.

Lemma occursIn_includes (k s : str) : occursIn k s -> includes s k = true.
Proof.
  intros (pre & post & ->). apply includes_app, starts_with_app.
Qed.

Lemma occursIn_cons (k : str) (c : N) (s : str) :
  occursIn k s -> occursIn k (c :: s).
Proof. intros (pre & post & ->). exists (c :: pre), post. reflexivity. Qed.

Lemma occursIn_length (k s : str) : occursIn k s -> length k <= length s.
Proof. intros (pre & post & ->). rewrite !length_app. lia. Qed.

(** A token of the stripped and blanked text lies within the text: either
    it occurs in what is still to be scanned, or it is the current piece
    extended by a prefix of it; a piece cut by a hash-tag token is not
    extended. *)
Lemma tokens_within (s : str) :
  forall (in_tag : bool) (acc tok : str),
    In tok (KeywordSpec.tokens_from acc
              (KeywordSpec.blank_non_word
                 (KeywordSpec.strip_hashtags_from in_tag s))) ->
    occursIn tok s \/
    exists p post,
      tok = rev acc ++ p /\ s = p ++ post /\
      (in_tag = true -> acc <> [] -> p = []).
Proof.
  induction s as [|c t IH]; intros in_tag acc tok.
  - cbn. destruct acc as [|a acc]; [intros []|].
    intros [<-|[]]. right. exists [], [].
    rewrite app_nil_r. auto.
  - assert (Heaten :
      In tok (KeywordSpec.tokens_from acc
                (KeywordSpec.blank_non_word
                   (KeywordSpec.strip_hashtags_from true t))) ->
      occursIn tok (c :: t) \/
      exists p post,
        tok = rev acc ++ p /\ c :: t = p ++ post /\
        (in_tag = true -> acc <> [] -> p = [])).
    { intros Hin. destruct (IH true acc tok Hin)
        as [Hsub|(p & post & Htok & Ht & Hp)].
      - left. apply occursIn_cons, Hsub.
      - destruct acc as [|a acc].
        + left. cbn [rev app] in Htok. subst tok.
          exists [c], post. cbn [app]. rewrite Ht. reflexivity.
        + right. exists [], (c :: t).
          rewrite (Hp eq_refl) in Htok by discriminate.
          split; [exact Htok|]. split; [reflexivity|]. reflexivity. }
    cbn [KeywordSpec.strip_hashtags_from].
    destruct (in_tag && is_word c) eqn:E1; [exact Heaten|].
    destruct ((c =? 35)%N && match t with d :: _ => is_word d | [] => false end)
      eqn:E2; [exact Heaten|].
    clear Heaten. unfold KeywordSpec.blank_non_word. cbn [map].
    fold KeywordSpec.blank_non_word.
    destruct (is_word c) eqn:Hw.
    + cbn [KeywordSpec.tokens_from]. rewrite (is_word_not_space _ Hw).
      rewrite andb_true_r in E1.
      intros Hin. destruct (IH false (c :: acc) tok Hin)
        as [Hsub|(p & post & Htok & Ht & _)].
      * left. apply occursIn_cons, Hsub.
      * right. exists (c :: p), post. cbn [rev] in Htok.
        rewrite <- app_assoc in Htok. cbn [app] in *.
        split; [exact Htok|]. split; [rewrite Ht; reflexivity|].
        intros Hin_tag. rewrite Hin_tag in E1. discriminate E1.
    + cbn [KeywordSpec.tokens_from]. change (is_space 32) with true. cbv iota.
      assert (Hrest :
        In tok (KeywordSpec.tokens_from []
                  (KeywordSpec.blank_non_word
                     (KeywordSpec.strip_hashtags_from false t))) ->
        occursIn tok (c :: t)).
      { intros Hin. destruct (IH false [] tok Hin)
          as [Hsub|(p & post & Htok & Ht & _)].
        - apply occursIn_cons, Hsub.
        - cbn [rev app] in Htok. subst tok. exists [c], post.
          cbn [app]. rewrite Ht. reflexivity. }
      destruct acc as [|a acc].
      * intros Hin. left. apply Hrest, Hin.
      * intros [<-|Hin]; [|left; apply Hrest, Hin].
        right. exists [], (c :: t). rewrite app_nil_r. auto.
Qed.

(** X13. The search keyword always occurs in the title as a run of
    consecutive characters: a task whose title is the query title passes the
    [contains] filter built from the keyword. *)
Theorem keyword_occurs_in_title :
  forall title : str,
    occursIn (Keyword.searchKeyword title) title /\
    includes title (Keyword.searchKeyword title) = true /\
    length (Keyword.searchKeyword title) <= length title.
Proof.
  intros title.
  assert (H : occursIn (Keyword.searchKeyword title) title).
  { rewrite searchKeyword_refines. unfold KeywordSpec.keyword.
    destruct (find _ _) as [w|] eqn:F.
    - apply find_some in F. destruct F as [Hin _].
      destruct (tokens_within title false [] w Hin)
        as [Hsub|(p & post & Htok & Ht & _)]; [exact Hsub|].
      cbn [rev app] in Htok. subst w. exists [], post. exact Ht.
    - exists [], (skipn 20 title). cbn [app].
      symmetry. apply firstn_skipn. }
  split; [exact H|]. split; [apply occursIn_includes, H|].
  apply occursIn_length, H.
Qed.

(** ** Substitutions of the generator that do match *)

Lemma starts_with_split (l s : str) :
  starts_with l s = true -> s = l ++ skipn (length l) s.
Proof.
  revert s; induction l as [|a l IH]; intros [|c s]; cbn [starts_with];
    try discriminate; try reflexivity.
  intros H. apply andb_true_iff in H. destruct H as [E H].
  apply N.eqb_eq in E. subst c. cbn [length skipn app].
  rewrite <- (IH _ H). reflexivity.
Qed.

Lemma match_at_Lit (l s : str) :
  match_at (Lit l) s = if starts_with l s then Some (length l) else None.
Proof.
  unfold match_at. cbn [mt].
  destruct (lit_match l s) as [t|] eqn:E.
  - rewrite (lit_match_starts_with _ _ E).
    rewrite (lit_match_app _ _ E), length_app. f_equal. lia.
  - destruct (starts_with l s) eqn:H; [|reflexivity].
    exfalso. revert s E H. induction l as [|a l IH]; intros [|c s];
      cbn [lit_match starts_with]; try discriminate.
    destruct (a =? c)%N; [apply IH | discriminate].
Qed.

(** The leftmost match of a literal is its first occurrence. *)
Lemma search_Lit_first (l s : str) :
  includes s l = true ->
  exists pre post,
    s = pre ++ l ++ post /\
    search (Lit l) s = Some (length pre, length l) /\
    forall j, j < length pre -> starts_with l (skipn j s) = false.
Proof.
  induction s as [|c t IH].
  - cbn [includes]. rewrite orb_false_r. intros H.
    exists [], []. destruct l; [|discriminate H].
    split; [reflexivity|]. split; [reflexivity|]. intros j Hj; inversion Hj.
  - cbn [includes search]. rewrite match_at_Lit.
    destruct (starts_with l (c :: t)) eqn:Hs.
    + intros _. exists [], (skipn (length l) (c :: t)).
      split; [apply starts_with_split, Hs|]. split; [reflexivity|].
      intros j Hj; inversion Hj.
    + cbn [orb]. intros H. destruct (IH H) as (pre & post & Ht & Hsearch & Hfirst).
      exists (c :: pre), post. rewrite Hsearch.
      split; [cbn [app]; rewrite <- Ht; reflexivity|].
      split; [reflexivity|].
      intros [|j] Hj; [exact Hs|]. cbn [skipn]. apply Hfirst.
      cbn [length] in Hj. lia.
Qed.

Lemma firstn_length_app (a b : str) : firstn (length a) (a ++ b) = a.
Proof. induction a as [|c a IH]; cbn; [destruct b|rewrite IH]; reflexivity. Qed.

Lemma skipn_length_app (a b : str) : skipn (length a) (a ++ b) = b.
Proof. induction a as [|c a IH]; cbn; [reflexivity | exact IH]. Qed.

Lemma replace_Lit_first (l s : str) (f : str -> str) :
  includes s l = true ->
  exists pre post,
    s = pre ++ l ++ post /\
    (forall j, j < length pre -> starts_with l (skipn j s) = false) /\
    replace (Lit l) f s = pre ++ f l ++ post.
Proof.
  intros H. destruct (search_Lit_first _ _ H) as (pre & post & Hs & Hsearch & Hfirst).
  exists pre, post. split; [exact Hs|]. split; [exact Hfirst|].
  unfold replace. rewrite Hsearch. clear Hsearch Hfirst H. subst s.
  rewrite firstn_length_app, skipn_length_app, firstn_length_app.
  rewrite <- length_app, (app_assoc pre l post), skipn_length_app.
  reflexivity.
Qed.

(** X14. When the generated text contains the import of ['@zodios/core';],
    its first occurrence, and only that one, is replaced by ['./hack.js';];
    the text before and after it is kept as it is. *)
Theorem import_is_redirected_once :
  forall clientCode : str,
    includes clientCode (lit "'@zodios/core';") = true ->
    exists pre post,
      clientCode = pre ++ lit "'@zodios/core';" ++ post /\
      (forall j, j < length pre ->
                 starts_with (lit "'@zodios/core';") (skipn j clientCode)
                 = false) /\
      Generator.redirectImport clientCode = pre ++ lit "'./hack.js';" ++ post.
Proof.
  intros clientCode H. unfold Generator.redirectImport, Generator.re_import.
  apply (replace_Lit_first _ _ (fun _ => lit "'./hack.js';") H).
Qed.

Lemma import_is_redirected_once_witness :
  let clientCode :=
    lit "import a from '@zodios/core'; import b from '@zodios/core';" in
  includes clientCode (lit "'@zodios/core';") = true /\
  Generator.redirectImport clientCode
    = lit "import a from './hack.js'; import b from '@zodios/core';" /\
  exists pre post,
    clientCode = pre ++ lit "'@zodios/core';" ++ post /\
    (forall j, j < length pre ->
               starts_with (lit "'@zodios/core';") (skipn j clientCode)
               = false) /\
    Generator.redirectImport clientCode = pre ++ lit "'./hack.js';" ++ post.
Proof.
  intros clientCode. split; [reflexivity|]. split; [reflexivity|].
  apply (import_is_redirected_once clientCode). reflexivity.
Defined.

Lemma search_Some (r : regex) (s : str) :
  forall i n, search r s = Some (i, n) -> match_at r (skipn i s) = Some n.
Proof.
  induction s as [|c t IH]; intros i n; cbn [search].
  - destruct (match_at r []) as [m|] eqn:E; [|discriminate].
    intros H; injection H as <- <-. exact E.
  - destruct (match_at r (c :: t)) as [m|] eqn:E.
    + intros H; injection H as <- <-. exact E.
    + destruct (search r t) as [[i' n']|] eqn:Hs; [|discriminate].
      intros H; injection H as <- <-. cbn [skipn]. apply IH. reflexivity.
Qed.

Lemma endsWith_Lit (l : str) : endsWith (Lit l) l.
Proof.
  intros k s res. cbn [mt].
  destruct (lit_match l s) as [t|] eqn:E; [|discriminate].
  intros H. exists [], t. split; [exact (lit_match_app _ _ E) | exact H].
Qed.

Lemma endsWith_Seq (r1 r2 : regex) (l : str) :
  endsWith r2 l -> endsWith (Seq r1 r2) l.
Proof.
  intros H k s res. cbn [mt]. intros Hm.
  destruct (mt_continues r1 _ _ Hm) as (pre & s1 & -> & H1).
  destruct (H _ _ _ H1) as (m & s' & -> & Hk).
  exists (pre ++ m), s'. rewrite <- app_assoc. auto.
Qed.

Lemma re_schema_endsWith (name : string) :
  endsWith (Generator.re_schema name) (lit ".strict();").
Proof.
  unfold Generator.re_schema.
  repeat apply endsWith_Seq. apply endsWith_Lit.
Qed.

Lemma firstn_skipn_middle (s : str) (i n : nat) :
  s = firstn i s ++ firstn n (skipn i s) ++ skipn (i + n) s.
Proof.
  rewrite (Nat.add_comm i n), <- skipn_skipn.
  rewrite firstn_skipn, firstn_skipn. reflexivity.
Qed.

Lemma relaxesOnce_schema (name : string) :
  relaxesOnce (Generator.re_schema name)
              (replace (Generator.re_schema name) Generator.relax).
Proof.
  intros s i n Hsearch.
  pose proof (search_Some _ _ Hsearch) as Hm. unfold match_at in Hm.
  destruct (mt (Generator.re_schema name) Some (skipn i s)) as [rest|] eqn:E;
    [|discriminate]. injection Hm as Hn.
  destruct (re_schema_endsWith name _ _ E) as (m & s' & Hs & Hk).
  injection Hk as <-.
  assert (Hmatched : firstn n (skipn i s) = m ++ lit ".strict();").
  { rewrite <- Hn, Hs, !length_app.
    replace (length m + (length (lit ".strict();") + length s') - length s')
      with (length (m ++ lit ".strict();")) by (rewrite length_app; lia).
    rewrite app_assoc. apply firstn_length_app. }
  assert (Hinc : includes (m ++ lit ".strict();") (lit ".strict();") = true).
  { apply includes_app. reflexivity. }
  destruct (replace_Lit_first _ _ (fun _ => lit ".passthrough();") Hinc)
    as (a & b & Hab & _ & Hrel).
  exists a, b. split; [|split].
  - rewrite <- Hab, <- Hmatched. rewrite length_firstn.
    apply Nat.min_l. rewrite <- Hn. lia.
  - rewrite <- Hab, <- Hmatched. apply firstn_skipn_middle.
  - unfold replace at 1. rewrite Hsearch, Hmatched.
    unfold Generator.relax, Generator.re_strict. rewrite Hrel. reflexivity.
Qed.

(** X15. Where a schema pattern matches, the relaxation turns exactly one
    [.strict();] of the matched definition into [.passthrough();]; the text
    before and after the match, and the rest of the match, are unchanged.
    This holds for both relaxed schemas. *)
Theorem schema_relaxation_changes_one_call :
  relaxesOnce (Generator.re_schema "microsoft_graph_attachment")
              Generator.relaxAttachment /\
  relaxesOnce (Generator.re_schema "microsoft_graph_plannerAssignments")
              Generator.relaxPlannerAssignments.
Proof. split; apply relaxesOnce_schema. Qed.

Lemma schema_relaxation_changes_one_call_witness :
  search (Generator.re_schema "microsoft_graph_attachment") SampleTexts.schema
    = Some (3, 78) /\
  exists a b,
    length (a ++ lit ".strict();" ++ b) = 78 /\
    SampleTexts.schema =
      firstn 3 SampleTexts.schema ++ (a ++ lit ".strict();" ++ b)
      ++ skipn (3 + 78) SampleTexts.schema /\
    Generator.relaxAttachment SampleTexts.schema =
      firstn 3 SampleTexts.schema ++ (a ++ lit ".passthrough();" ++ b)
      ++ skipn (3 + 78) SampleTexts.schema.
Proof.
  split; [reflexivity|].
  apply (proj1 schema_relaxation_changes_one_call SampleTexts.schema 3 78).
  reflexivity.
Defined.

(** X16. A substitution whose pattern starts from a literal that the text
    does not contain does nothing: a text without the import is not
    redirected, a text in which a target schema has another name is not
    relaxed, a text without [errors:] is not stripped; a text with none of
    the four literals goes through the whole pass unchanged. *)
Theorem renamed_target_is_left_alone :
  forall clientCode : str,
    (includes clientCode (lit "'@zodios/core';") = false ->
     Generator.redirectImport clientCode = clientCode) /\
    (includes clientCode (lit "const microsoft_graph_attachment = z") = false ->
     Generator.relaxAttachment clientCode = clientCode) /\
    (includes clientCode (lit "const microsoft_graph_plannerAssignments = z")
       = false ->
     Generator.relaxPlannerAssignments clientCode = clientCode) /\
    (includes clientCode (lit "errors:") = false ->
     Generator.stripErrors clientCode = clientCode) /\
    (includes clientCode (lit "'@zodios/core';") = false ->
     includes clientCode (lit "const microsoft_graph_attachment = z") = false ->
     includes clientCode (lit "const microsoft_graph_plannerAssignments = z")
       = false ->
     includes clientCode (lit "errors:") = false ->
     Generator.postProcess clientCode = clientCode).
Proof.
  intros clientCode.
  destruct (absent_literal_is_noop clientCode) as (H1 & H2 & H3 & H4).
  repeat (split; [assumption|]).
  intros A1 A2 A3 A4. unfold Generator.postProcess.
  rewrite (H1 A1), (H2 A2), (H3 A3). apply H4, A4.
Qed.

Lemma renamed_target_is_left_alone_witness :
  includes SampleTexts.schema
    (lit "const microsoft_graph_plannerAssignments = z") = false /\
  Generator.relaxPlannerAssignments SampleTexts.schema = SampleTexts.schema /\
  includes SampleTexts.schema (lit "'@zodios/core';") = false /\
  Generator.redirectImport SampleTexts.schema = SampleTexts.schema /\
  includes SampleTexts.plain (lit "const microsoft_graph_attachment = z")
    = false /\
  Generator.relaxAttachment SampleTexts.plain = SampleTexts.plain /\
  includes SampleTexts.plain (lit "errors:") = false /\
  Generator.stripErrors SampleTexts.plain = SampleTexts.plain.
Proof.
  pose proof (renamed_target_is_left_alone SampleTexts.schema)
    as (H1 & _ & H3 & _ & _).
  pose proof (renamed_target_is_left_alone SampleTexts.plain)
    as (_ & H2 & _ & H4 & _).
  split; [reflexivity|]. split; [apply H3; reflexivity|].
  split; [reflexivity|]. split; [apply H1; reflexivity|].
  split; [reflexivity|]. split; [apply H2; reflexivity|].
  split; [reflexivity|]. apply H4; reflexivity.
Defined.

Lemma deletedFrom_refl (s : str) : deletedFrom s s.
Proof. induction s; constructor; assumption. Qed.

Lemma deletedFrom_length (a b : str) : deletedFrom a b -> length a <= length b.
Proof. induction 1; cbn [length]; lia. Qed.

(** A global replacement by the empty string only deletes. *)
Lemma replace_all_from_deletes (r : regex) (s : str) :
  forall skip, deletedFrom (replace_all_from r (fun _ => lit "") skip s) s.
Proof.
  induction s as [|c t IH]; intros skip.
  - destruct skip; cbn [replace_all_from]; [|constructor].
    destruct (match_at r []); constructor.
  - destruct skip as [|skip]; cbn [replace_all_from].
    + destruct (match_at r (c :: t)) as [[|m]|]; cbn [app lit map
        list_ascii_of_string].
      * constructor. apply IH.
      * constructor. apply IH.
      * constructor. apply IH.
    + constructor. apply IH.
Qed.

(** X17. Stripping the errors arrays only deletes text: what is written is
    the text read with some characters removed, in the same order, and is
    never longer. *)
Theorem stripErrors_only_deletes :
  forall clientCode : str,
    deletedFrom (Generator.stripErrors clientCode) clientCode /\
    length (Generator.stripErrors clientCode) <= length clientCode.
Proof.
  intros clientCode.
  assert (H : deletedFrom (Generator.stripErrors clientCode) clientCode)
    by apply replace_all_from_deletes.
  split; [exact H | apply deletedFrom_length, H].
Qed.

(** X18. When the lists have to be fetched and the response cannot be read,
    or has no [value], find-todo-task answers with a failure after that one
    request: no list is queried. *)
Theorem unreadable_lists_fail_the_search :
  forall (host : Host) (params : FindParams.t) (st : State),
    explicitSearchList params = None ->
    match decoded parseLists (reply listsRequest st) with
    | Some data => ListsData.value data = None
    | None => True
    end ->
    (exists e, fst (findTodoTask params st) = inr (FindFailed e)) /\
    trace (snd (findTodoTask params st))
      = trace st ++ [(listsRequest, reply listsRequest st)].
Proof.
  intros host params st Hx Hd.
  unfold findTodoTask, try_catch, bind.
  rewrite (listsToSearch_all _ st Hx).
  destruct (decoded parseLists (reply listsRequest st)) as [data|].
  - rewrite Hd. cbn. split; [eexists; reflexivity | reflexivity].
  - cbn. split; [eexists; reflexivity | reflexivity].
Qed.

Lemma unreadable_lists_fail_the_search_witness :
  let h := Sample2.host true None in
  let st := Sample2.start true None in
  let params := Sample.findParams "Tapped Hole" in
  explicitSearchList params = None /\
  decoded (@parseLists h) (reply listsRequest st)
    = Some {| ListsData.value := None |} /\
  (exists e, fst (@findTodoTask h params st) = inr (FindFailed e)) /\
  trace (snd (@findTodoTask h params st))
    = trace st ++ [(listsRequest, reply listsRequest st)].
Proof.
  intros h st params. split; [reflexivity|]. split; [reflexivity|].
  apply (@unreadable_lists_fail_the_search h params st); reflexivity.
Defined.

(** X19. When [encodeURIComponent] throws on the filter (a keyword with a
    lone surrogate), every query is abandoned before its request is made and
    the error is swallowed: once the lists are resolved the tool issues no
    request and answers "no match". *)
Theorem unencodable_filter_searches_nothing :
  forall (host : Host) (params : FindParams.t) (st st0 : State)
         (lists : list str),
    listsToSearch params st = (inr lists, st0) ->
    encodeURIComponent (filterOf params) = None ->
    exists message,
      findTodoTask params st =
      (inr (NoMatches message
              (Keyword.searchKeyword (FindParams.title params))), st0).
Proof.
  intros host params st st0 lists Hl Henc.
  rewrite (find_after_lists _ _ Hl). unfold searched.
  rewrite (searchLists_not_encoded _ Henc). cbn.
  eexists; reflexivity.
Qed.

Lemma unencodable_filter_searches_nothing_witness :
  @listsToSearch Sample3.host Sample3.findParams Sample3.start
    = (inr [lit "L1"], Sample3.start) /\
  @encodeURIComponent Sample3.host (filterOf Sample3.findParams) = None /\
  exists message,
    @findTodoTask Sample3.host Sample3.findParams Sample3.start =
    (inr (NoMatches message
            (Keyword.searchKeyword (FindParams.title Sample3.findParams))),
     Sample3.start).
Proof.
  split; [reflexivity|]. split; [reflexivity|].
  apply (@unencodable_filter_searches_nothing Sample3.host Sample3.findParams
           Sample3.start Sample3.start [lit "L1"]); reflexivity.
Defined.

(** X20. [generateMcpTools] runs four steps in order: it makes the output
    directory unless it exists, runs the generator command on
    "openapi/openapi-trimmed.yaml" two levels above the output directory,
    reads "client.ts" in the output directory, and writes the
    post-processed text back to that file.  The first step that throws ends
    the run: no later step takes place, the disk is left as that step left
    it, and the error thrown carries that step's message behind "Error
    generating client code: ".  When no step throws the result is [true]. *)
Theorem generate_is_all_or_nothing :
  forall (files : Generate.FileHost) (openApiSpec outputDir : str)
         (d : Generate.Disk),
    let clientFile := Generate.pathJoin outputDir (lit "client.ts") in
    let specFile :=
      Generate.pathJoin
        (Generate.pathJoin (Generate.pathResolve outputDir (lit "../.."))
           (lit "openapi"))
        (lit "openapi-trimmed.yaml") in
    let cmd :=
      lit "npx -y openapi-zod-client " ++ [34%N] ++ specFile ++ [34%N]
      ++ lit " -o " ++ [34%N] ++ clientFile ++ [34%N]
      ++ lit " --with-description --strict-objects --additional-props-default-value=false" in
    let run := Generate.generateMcpTools openApiSpec outputDir d in
    let failure := fun m : str =>
      @inl str bool (lit "Error generating client code: " ++ m) in
    let ready := fun d0 : Generate.Disk =>
      (Generate.existsSync outputDir d = true /\ d0 = d) \/
      (Generate.existsSync outputDir d = false /\
       Generate.mkdirSync outputDir d = (None, d0)) in
    (forall m d0,
        Generate.existsSync outputDir d = false ->
        Generate.mkdirSync outputDir d = (Some m, d0) ->
        run = (failure m, d0)) /\
    (forall m d0 d1,
        ready d0 ->
        Generate.execSync cmd d0 = (Some m, d1) ->
        run = (failure m, d1)) /\
    (forall m d0 d1 d2,
        ready d0 ->
        Generate.execSync cmd d0 = (None, d1) ->
        Generate.readFileSync clientFile d1 = (inl m, d2) ->
        run = (failure m, d2)) /\
    (forall m d0 d1 d2 d3 clientCode,
        ready d0 ->
        Generate.execSync cmd d0 = (None, d1) ->
        Generate.readFileSync clientFile d1 = (inr clientCode, d2) ->
        Generate.writeFileSync clientFile (Generator.postProcess clientCode) d2
          = (Some m, d3) ->
        run = (failure m, d3)) /\
    (forall d0 d1 d2 d3 clientCode,
        ready d0 ->
        Generate.execSync cmd d0 = (None, d1) ->
        Generate.readFileSync clientFile d1 = (inr clientCode, d2) ->
        Generate.writeFileSync clientFile (Generator.postProcess clientCode) d2
          = (None, d3) ->
        run = (inr true, d3)).
Proof.
  intros files openApiSpec outputDir d clientFile specFile cmd run failure
    ready.
  assert (Hready : forall d0, ready d0 ->
    (if Generate.existsSync outputDir d then (None, d)
     else Generate.mkdirSync outputDir d) = (@None str, d0)).
  { intros d0 [[-> ->]|[-> ->]]; reflexivity. }
  subst run. unfold Generate.generateMcpTools.
  change (Generate.command outputDir) with cmd.
  change (Generate.clientFilePath outputDir) with clientFile.
  split; [|split; [|split; [|split]]].
  - intros m d0 Hex Hmk. rewrite Hex, Hmk. reflexivity.
  - intros m d0 d1 Hr Hexec. rewrite (Hready _ Hr), Hexec. reflexivity.
  - intros m d0 d1 d2 Hr Hexec Hread.
    rewrite (Hready _ Hr), Hexec, Hread. reflexivity.
  - intros m d0 d1 d2 d3 clientCode Hr Hexec Hread Hwrite.
    rewrite (Hready _ Hr), Hexec, Hread, Hwrite. reflexivity.
  - intros d0 d1 d2 d3 clientCode Hr Hexec Hread Hwrite.
    rewrite (Hready _ Hr), Hexec, Hread, Hwrite. reflexivity.
Qed.

(** X20 on the sample file system: a run for each step that can fail, and a
    run in which none does. *)
Lemma generate_is_all_or_nothing_witness :
  let out := lit "src/generated" in
  let run := fun step : nat =>
    @Generate.generateMcpTools SampleFiles.files (lit "openapi.yaml") out
      (step, None) in
  run 1 = (inl (lit "Error generating client code: EACCES"), (1, None)) /\
  run 2 = (inl (lit "Error generating client code: Command failed"),
           (2, None)) /\
  run 3 = (inl (lit "Error generating client code: ENOENT"), (3, None)) /\
  run 4 = (inl (lit "Error generating client code: ENOSPC"), (4, None)) /\
  run 0 = (inr true, (0, Some (Generator.postProcess SampleTexts.schema))).
Proof.
  intros out run.
  pose proof (fun step =>
    @generate_is_all_or_nothing SampleFiles.files (lit "openapi.yaml") out
      (step, None)) as H.
  split; [|split; [|split; [|split]]].
  - apply (proj1 (H 1) (lit "EACCES") (1, None)); reflexivity.
  - apply (proj1 (proj2 (H 2)) (lit "Command failed") (2, None) (2, None));
      [right; split; reflexivity | reflexivity].
  - apply (proj1 (proj2 (proj2 (H 3))) (lit "ENOENT")
             (3, None) (3, None) (3, None));
      [right; split; reflexivity | reflexivity | reflexivity].
  - apply (proj1 (proj2 (proj2 (proj2 (H 4)))) (lit "ENOSPC")
             (4, None) (4, None) (4, None) (4, None) SampleTexts.schema);
      [right; split; reflexivity | reflexivity | reflexivity | reflexivity].
  - apply (proj2 (proj2 (proj2 (proj2 (H 0))))
             (0, None) (0, None) (0, None)
             (0, Some (Generator.postProcess SampleTexts.schema))
             SampleTexts.schema);
      [right; split; reflexivity | reflexivity | reflexivity | reflexivity].
Defined.

(** ** A checklist without order hints *)

Lemma sort_all_equal {A} (cmp : A -> A -> Z) (l : list A) :
  (forall a b, In a l -> In b l -> cmp a b = 0%Z) -> sort cmp l = l.
Proof.
  induction l as [|x t IH]; intros H; [reflexivity|].
  cbn [sort]. rewrite IH by (intros a b Ha Hb; apply H; right; assumption).
  destruct t as [|y t]; [reflexivity|].
  cbn [insert]. rewrite (H x y) by (cbn; auto). reflexivity.
Qed.

(** X21. On a host whose [localeCompare] finds a string equal to itself,
    checklist items that all have the same order hint - in particular items
    that have none - are requested in the order in which the checklist
    mapping yields them. *)
Theorem equal_hints_keep_mapping_order :
  forall (host : Host),
    (forall s : str, localeCompare s s = 0%Z) ->
    forall (params : ConvertParams.t) (st st1 : State) (c : Created.t)
           (h : str),
      createTodoTask params st = (inr c, st1) ->
      (forall item, In item (checklistOf c) -> hint item = h) ->
      sortedChecklist c = checklistOf c /\
      exists attempts marking,
        trace (snd (convertPlannerTaskToTodo params st))
          = trace st1 ++ attempts ++ marking /\
        map fst attempts =
          map (checklistRequest (Created.listId c)
                 (TodoTask.id (Created.createdTodoTask c))) (checklistOf c).
Proof.
  intros host Hrefl params st st1 c h Hc Hh.
  assert (Hs : sortedChecklist c = checklistOf c).
  { rewrite sortedChecklist_sort. apply sort_all_equal.
    intros a b Ha Hb. rewrite (Hh a Ha), (Hh b Hb). apply Hrefl. }
  split; [exact Hs|].
  destruct (finishConversion_run params c st1)
    as (attempts & marking & status & st2 & Hrun & Htrace & Hreqs & _).
  exists attempts, marking.
  rewrite (convert_after_create _ _ Hc), Hrun. cbn [fst snd].
  rewrite <- Hs. auto.
Qed.

Lemma equal_hints_keep_mapping_order_witness :
  let st1 := snd (@createTodoTask Sample4.host Sample.convertParams
                    Sample4.start) in
  (forall s : str, @localeCompare Sample4.host s s = 0%Z) /\
  @createTodoTask Sample4.host Sample.convertParams Sample4.start
    = (inr Sample4.created, st1) /\
  (forall item, In item (checklistOf Sample4.created) -> hint item = lit "") /\
  @sortedChecklist Sample4.host Sample4.created = checklistOf Sample4.created /\
  exists attempts marking,
    trace (snd (@convertPlannerTaskToTodo Sample4.host Sample.convertParams
                  Sample4.start))
      = trace st1 ++ attempts ++ marking /\
    map fst attempts =
      map (checklistRequest (Created.listId Sample4.created)
             (TodoTask.id (Created.createdTodoTask Sample4.created)))
          (checklistOf Sample4.created).
Proof.
  intros st1.
  assert (Hrefl : forall s : str, @localeCompare Sample4.host s s = 0%Z).
  { intros s. cbn. rewrite (proj2 (lex_compare_eq s s) eq_refl). reflexivity. }
  assert (Hh : forall item, In item (checklistOf Sample4.created) ->
                            hint item = lit "").
  { intros item [<-|[<-|[]]]; reflexivity. }
  split; [exact Hrefl|]. split; [reflexivity|]. split; [exact Hh|].
  apply (@equal_hints_keep_mapping_order Sample4.host Hrefl
           Sample.convertParams Sample4.start st1 Sample4.created (lit ""));
    [reflexivity | exact Hh].
Defined.
